(** * CNC factory simulator: telemetry classification pipeline

    A shallow embedding of the simulator engine (the revision that loads
    the knowledge-graph CSV tables) and the properties of its classifier,
    tool changer, cycle engine and record emitter.

    Python values are embedded as the inductive [pyval]; a [dict] with
    string keys is a [gmap string pyval]; a Python [float] is a binary64
    primitive float; an exception is the [Err] branch of [result]. *)

From Stdlib Require Import ZArith Floats String Ascii DecimalString DecimalZ.
From stdpp Require Import gmap strings list fin_maps.

Open Scope string_scope.
Open Scope Z_scope.

(** ** Python values *)

#[warnings="-register-all"]
Inductive pyval : Type :=
| VNone
| VBool (b : bool)
| VInt (z : Z)
| VFloat (f : float)
| VStr (s : string)
| VDict (d : gmap string pyval).

Abbreviation pydict := (gmap string pyval).

(** Exceptions the modelled code can raise. *)
Inductive exn : Type :=
| KeyError (k : string)
| TypeError
| OverflowError
| IndexError
| ValueError
| AttributeError
| NotImplementedError.

Inductive result (A : Type) : Type :=
| Ok (a : A)
| Err (e : exn).
Arguments Ok {A} a.
Arguments Err {A} e.

#[global] Instance result_ret : MRet result := fun _ a => Ok a.
#[global] Instance result_bind : MBind result := fun _ _ f r =>
  match r with
  | Ok a => f a
  | Err e => Err e
  end.
#[global] Instance result_fmap : FMap result := fun _ _ f r =>
  match r with
  | Ok a => Ok (f a)
  | Err e => Err e
  end.

(** ** Numbers: [int] (and [bool], its subclass) and [float] *)

Inductive num : Type :=
| NInt (z : Z)
| NFloat (f : float).

Definition as_num (v : pyval) : option num :=
  match v with
  | VBool b => Some (NInt (Z.b2z b))
  | VInt z => Some (NInt z)
  | VFloat f => Some (NFloat f)
  | _ => None
  end.

(** Python compares an [int] with a [float] exactly, without rounding
    the integer first.  A finite float is [(-1)^s * m * 2^e]. *)
Definition Z_float_compare (z : Z) (f : float) : option comparison :=
  match Prim2SF f with
  | S754_nan => None
  | S754_infinity s => Some (if s then Gt else Lt)
  | S754_zero _ => Some (z ?= 0)
  | S754_finite s m e =>
      let v := if s then Z.neg m else Z.pos m in
      Some (if 0 <=? e then z ?= v * 2 ^ e else z * 2 ^ (- e) ?= v)
  end.

(** [None] is the unordered outcome (a NaN operand). *)
Definition num_compare (x y : num) : option comparison :=
  match x, y with
  | NInt a, NInt b => Some (a ?= b)
  | NFloat a, NFloat b =>
      match PrimFloat.compare a b with
      | FEq => Some Eq
      | FLt => Some Lt
      | FGt => Some Gt
      | FNotComparable => None
      end
  | NInt a, NFloat b => Z_float_compare a b
  | NFloat a, NInt b => CompOpp <$> Z_float_compare b a
  end.

Definition num_gt (x y : num) : bool :=
  match num_compare x y with Some Gt => true | _ => false end.
Definition num_lt (x y : num) : bool :=
  match num_compare x y with Some Lt => true | _ => false end.
Definition num_ge (x y : num) : bool :=
  match num_compare x y with Some Gt | Some Eq => true | _ => false end.
Definition num_le (x y : num) : bool :=
  match num_compare x y with Some Lt | Some Eq => true | _ => false end.
Definition num_eq (x y : num) : bool :=
  match num_compare x y with Some Eq => true | _ => false end.

(** [v > n], [v >= n], [v < n], [v <= n] against a numeric operand:
    ordering a [str], [dict] or [None] against a number is a TypeError. *)
Definition py_cmp (op : num -> num -> bool) (v : pyval) (n : num) : result bool :=
  match as_num v with
  | Some x => Ok (op x n)
  | None => Err TypeError
  end.
Definition py_gt := py_cmp num_gt.
Definition py_ge := py_cmp num_ge.
Definition py_lt := py_cmp num_lt.
Definition py_le := py_cmp num_le.

(** [float(z)]: round to nearest even, OverflowError beyond the range. *)
Definition float_of_Z (z : Z) : result float :=
  let f := SF2Prim (binary_normalize prec emax z 0 false) in
  if PrimFloat.is_infinity f then Err OverflowError else Ok f.

Definition to_float (n : num) : result float :=
  match n with
  | NInt z => float_of_Z z
  | NFloat f => Ok f
  end.

(** [v - w]: the difference of two numbers is a number (an [int] when
    both are, a [float] otherwise); no other object of [pyval] supports
    subtraction. *)
Definition py_sub (v w : pyval) : result num :=
  match as_num v, as_num w with
  | Some x, Some y =>
      match x, y with
      | NInt a, NInt b => Ok (NInt (a - b))
      | _, _ =>
          a ← to_float x;
          b ← to_float y;
          Ok (NFloat (a - b)%float)
      end
  | _, _ => Err TypeError
  end.

Definition py_abs (n : num) : num :=
  match n with
  | NInt z => NInt (Z.abs z)
  | NFloat f => NFloat (PrimFloat.abs f)
  end.

(** [max(gen)] over a generator: the items are produced lazily, one by
    one; a later item replaces the running maximum when [item > max]. *)
Fixpoint max_loop (cur : num) (items : list (result num)) : result num :=
  match items with
  | [] => Ok cur
  | it :: rest =>
      x ← it;
      max_loop (if num_gt x cur then x else cur) rest
  end.

Definition py_max (items : list (result num)) : result num :=
  match items with
  | [] => Err ValueError
  | it :: rest => x ← it; max_loop x rest
  end.

(** [v == s] for a string literal and [v == n] for an integer literal. *)
Definition py_eq_str (v : pyval) (s : string) : bool :=
  match v with
  | VStr t => String.eqb t s
  | _ => false
  end.

Definition py_eq_int (v : pyval) (n : Z) : bool :=
  match as_num v with
  | Some x => num_eq x (NInt n)
  | None => false
  end.

(** [v in [n1, n2, ...]] *)
Definition py_in_ints (v : pyval) (l : list Z) : bool :=
  existsb (py_eq_int v) l.

(** Truth value of an object. *)
Definition py_truthy (v : pyval) : bool :=
  match v with
  | VNone => false
  | VBool b => b
  | VInt z => negb (z =? 0)
  | VFloat f => negb (f =? 0)%float
  | VStr s => negb (String.eqb s "")
  | VDict d => negb (bool_decide (d = ∅))
  end.

(** [d[k]] on a dict, and on an arbitrary object. *)
Definition dict_getitem (d : pydict) (k : string) : result pyval :=
  match d !! k with
  | Some v => Ok v
  | None => Err (KeyError k)
  end.

Definition py_getitem (v : pyval) (k : string) : result pyval :=
  match v with
  | VDict d => dict_getitem d k
  | _ => Err TypeError
  end.

(** [d.get(k)] *)
Definition dict_get (d : pydict) (k : string) : pyval :=
  default VNone (d !! k).

(** [d.update(new)] *)
Definition dict_update (d new : pydict) : pydict := new ∪ d.

(** [a and b] in a condition: [b] is evaluated only when [a] is true. *)
Definition and_then (a b : result bool) : result bool :=
  x ← a; if x : bool then b else Ok false.

Notation "a 'AND' b" := (and_then a b) (at level 60, right associativity).

(** [if c: return l] followed by the rest [k] of the function body. *)
Notation "'WHEN' c 'RETURN' l 'ELSE' k" :=
  (mbind (fun b : bool => if b then Ok l else k) c)
  (at level 10, c at level 100, l at level 100, k at level 200,
   format "'[v' 'WHEN'  c  'RETURN'  l  'ELSE' '/' k ']'").

(** ** The classifier *)

Definition EXPECTED_POSITION : pydict :=
  {[ "X" := VFloat 50; "Y" := VFloat 30; "Z" := VFloat 10 ]}.
Definition TOLERANCE_WARNING : num := NFloat 5.
Definition TOLERANCE_CRITICAL : num := NFloat 10.

Definition classify_state (sensors machine : pydict) : result string :=
  WHEN (t ← dict_getitem sensors "spindle_temp"; py_gt t (NInt 75))
     AND (t ← dict_getitem sensors "spindle_temp"; py_le t (NInt 90))
  RETURN "Maintenance_KG:Possible_Overheating" ELSE
  c2 ← (t ← dict_getitem sensors "spindle_temp"; py_gt t (NInt 90));
  if c2 : bool then
    WHEN (p ← dict_getitem sensors "power_draw"; py_gt p (NInt 350))
       AND (p ← dict_getitem sensors "power_draw"; py_lt p (NInt 400))
    RETURN "Cyberattack_KG:Possible_Glitch/Firmware" ELSE
    WHEN (p ← dict_getitem sensors "power_draw"; py_ge p (NInt 400))
    RETURN "Cyberattack_KG:Likely_Glitch/Firmware" ELSE
    Ok "Maintenance_KG:Spindle_Overheat"
  else
  WHEN (v ← dict_getitem sensors "vibration"; py_gt v (NFloat 1.5))
     AND (v ← dict_getitem sensors "vibration"; py_le v (NFloat 3.5))
  RETURN "Cyberattack_KG:Possible_Vibration_Sabotage" ELSE
  WHEN (v ← dict_getitem sensors "vibration"; py_gt v (NFloat 3.5))
  RETURN "Cyberattack_KG:Likely_Vibration_Sabotage" ELSE
  WHEN (p ← dict_getitem sensors "power_draw"; py_ge p (NInt 350))
     AND (p ← dict_getitem sensors "power_draw"; py_lt p (NInt 400))
  RETURN "PowerDraw_KG:Possible_Elevated_Load" ELSE
  WHEN (p ← dict_getitem sensors "power_draw"; py_ge p (NInt 400))
  RETURN "PowerDraw_KG:High_Power_Consumption" ELSE
  pos ← dict_getitem sensors "position";
  max_dev ← py_max
    ((fun axis => a ← py_getitem pos axis;
                  e ← dict_getitem EXPECTED_POSITION axis;
                  py_abs <$> py_sub a e)
       <$> ["X"; "Y"; "Z"]);
  WHEN Ok (num_gt max_dev TOLERANCE_WARNING)
     AND Ok (num_le max_dev TOLERANCE_CRITICAL)
  RETURN "Maintenance_KG:Minor_Position_Drift" ELSE
  WHEN Ok (num_gt max_dev TOLERANCE_CRITICAL)
  RETURN "Cyberattack_KG:Major_Position_Change" ELSE
  WHEN Ok (py_truthy (dict_get machine "tool_id"))
     AND (t ← dict_getitem machine "tool_id";
          Ok (negb (py_in_ints t [1; 2; 3])))
  RETURN "Maintenance_KG:Tool_Change" ELSE
  WHEN (i ← dict_getitem sensors "inspection"; Ok (py_eq_str i "FAIL"))
  RETURN "Normal_KG:Inspection_Fail" ELSE
  Ok "Normal_KG:Operation_Normal".

(** ** Strings *)

(** [sub in s] *)
Fixpoint str_contains (sub s : string) : bool :=
  String.prefix sub s ||
  match s with
  | EmptyString => false
  | String _ s' => str_contains sub s'
  end.

(** The decimal digits of an [int], with a minus sign when negative. *)
Definition int_repr (z : Z) : string :=
  NilZero.string_of_int (Z.to_int z).

(** CPython converts an [int] to decimal text ([str], an f-string,
    [json.dumps]) and back ([json.loads]) only up to
    [sys.get_int_max_str_digits()] digits, 4300 unless configured
    otherwise; the sign does not count.  Beyond it the conversion raises
    ValueError. *)
Definition INT_MAX_STR_DIGITS : nat := 4300.

Definition int_digits (z : Z) : nat :=
  match Z.to_int z with
  | Decimal.Pos d | Decimal.Neg d => Decimal.nb_digits d
  end.

Definition int_str_ok (z : Z) : bool :=
  (int_digits z <=? INT_MAX_STR_DIGITS)%nat.

(** [str(z)] for an [int], also inside an f-string *)
Definition py_str_int (z : Z) : result string :=
  if int_str_ok z then Ok (int_repr z) else Err ValueError.

(** Whitespace as [str.strip()] sees it, for code points below 256. *)
Definition is_space (c : ascii) : bool :=
  let n := nat_of_ascii c in
  ((9 <=? n) && (n <=? 13) || (28 <=? n) && (n <=? 32)
   || (n =? 133) || (n =? 160))%nat.

Fixpoint lstrip (s : string) : string :=
  match s with
  | String c s' => if is_space c then lstrip s' else s
  | EmptyString => EmptyString
  end.

Fixpoint rstrip (s : string) : string :=
  match s with
  | String c s' =>
      match rstrip s' with
      | EmptyString => if is_space c then EmptyString else String c EmptyString
      | r => String c r
      end
  | EmptyString => EmptyString
  end.

(** [v.strip()]: only a [str] has the method. *)
Definition py_strip (v : pyval) : result string :=
  match v with
  | VStr s => Ok (rstrip (lstrip s))
  | _ => Err AttributeError
  end.

(** ** Knowledge-graph tables *)

(** [load_kg_csv]: the argument is what opening and parsing the file
    gives, [None] when [open] raises FileNotFoundError and otherwise the
    rows of [csv.DictReader].  Only FileNotFoundError is caught. *)
Definition load_kg_csv (file : option (list pydict)) : result pydict :=
  match file with
  | None => Ok ∅
  | Some reader =>
      foldl (fun (acc : result pydict) (row : pydict) =>
               mapping ← acc;
               source ← dict_getitem row "Source entity" ≫= py_strip;
               relationship ← dict_getitem row "relationship" ≫= py_strip;
               target_entity ← dict_getitem row "target entity" ≫= py_strip;
               Ok (<[source := VDict {[ "relationship" := VStr relationship;
                                        "target_entity" := VStr target_entity ]}]>
                     mapping))
            (Ok ∅) reader
  end.

(** The module-level tables, loaded once at import time. *)
Record KGTables : Type := {
  maintenance_map : pydict;
  normal_map : pydict;
  cyberattack_map : pydict
}.

(** ** JSON text

    A JSON document is represented by the object it denotes: a value of
    [pyval] with string keys that [json.dumps] accepts survives
    [json.dumps] followed by [json.loads] unchanged.  Both refuse an
    [int] of more than [INT_MAX_STR_DIGITS] digits, anywhere in the
    object, with ValueError; every other value of [pyval] is written
    (NaN and the infinities included, as [json.dumps] allows them). *)
Inductive json : Type := JSON (doc : pydict).

(** The value holds no [int] beyond the digit limit. *)
Fixpoint json_ok (v : pyval) : bool :=
  match v with
  | VInt z => int_str_ok z
  | VDict d => map_fold (fun _ v' acc => json_ok v' && acc) true d
  | _ => true
  end.

Definition json_dumps (d : pydict) : result json :=
  if json_ok (VDict d) then Ok (JSON d) else Err ValueError.

Definition json_loads (j : json) : result pydict :=
  let 'JSON d := j in
  if json_ok (VDict d) then Ok d else Err ValueError.

(** [send_to_KG] prints the record, [print(json.dumps(record))]; the
    printed record is the result. *)
Definition send_to_KG (kg : KGTables) (payload_json : json)
    (classification : string) : result pydict :=
  record ← json_loads payload_json;
  let record := <["kg_node" := VStr classification]> record in
  let triple :=
    if str_contains "Maintenance_KG" classification
    then dict_get (maintenance_map kg) classification
    else if str_contains "Normal_KG" classification
    then dict_get (normal_map kg) classification
    else if str_contains "Cyberattack_KG" classification
    then dict_get (cyberattack_map kg) classification
    else VNone in
  let record := <["kg_triple" := triple]> record in
  _ ← json_dumps record;
  Ok record.

(** ** Message class *)

Record SimulationMessage : Type := {
  msg_cycle_id : Z;
  msg_timestamp : float;
  msg_machine : pydict;
  msg_sensors : pydict
}.

(** The constructor; [now] is what [time.time()] returns. *)
Definition SimulationMessage_init (now : float) (cycle_id : Z)
    (machine_data sensor_readings : pydict) : SimulationMessage :=
  {| msg_cycle_id := cycle_id; msg_timestamp := now;
     msg_machine := machine_data; msg_sensors := sensor_readings |}.

(** The dict display [{"cycle_id": .., "timestamp": .., **machine, **sensors}]
    fills the dict from left to right. *)
Definition payload (self : SimulationMessage) : pydict :=
  dict_update
    (dict_update
       (<["timestamp" := VFloat (msg_timestamp self)]>
          (<["cycle_id" := VInt (msg_cycle_id self)]> ∅))
       (msg_machine self))
    (msg_sensors self).

Definition to_json (self : SimulationMessage) : result json :=
  json_dumps (payload self).

(** ** The random source and the simulation monad

    The [random] module and [round] are the interface the simulator
    runs against: [randbelow n] draws an index below [n] (what
    [random.choice] uses), [random_random] draws a float in [0, 1), and
    [py_round x ndigits] is the builtin [round]. *)
Class Runtime (rng : Type) : Type := {
  randbelow : nat -> rng -> nat * rng;
  randbelow_lt : forall (n : nat) (g : rng),
      (0 < n)%nat -> (fst (randbelow n g) < n)%nat;
  random_random : rng -> float * rng;
  py_round : float -> Z -> float
}.

(** A computation that draws from the random source and may raise. *)
Definition sim (rng A : Type) : Type := rng -> result (A * rng).

#[global] Instance sim_ret {rng} : MRet (sim rng) := fun _ a g => Ok (a, g).
#[global] Instance sim_bind {rng} : MBind (sim rng) := fun _ _ f m g =>
  match m g with
  | Ok (a, g') => f a g'
  | Err e => Err e
  end.

Definition lift {rng A} (r : result A) : sim rng A := fun g =>
  match r with
  | Ok a => Ok (a, g)
  | Err e => Err e
  end.

Section Simulator.
Context {rng : Type} `{!Runtime rng}.

(** [random.choice(seq)] *)
Definition random_choice {A} (seq : list A) : sim rng A := fun g =>
  match seq with
  | [] => Err IndexError
  | _ =>
      let '(i, g') := randbelow (length seq) g in
      match seq !! i with
      | Some x => Ok (x, g')
      | None => Err IndexError
      end
  end.

(** [random.uniform(a, b)] is [a + (b - a) * random()]. *)
Definition random_uniform (a b : float) : sim rng float := fun g =>
  let '(u, g') := random_random g in
  Ok ((a + (b - a) * u)%float, g').

(** ** Sensors *)

Inductive Sensor : Type :=
| Sensor_base (name : string)
| SpindleTempSensor (name : string)
| VibrationSensor (name : string)
| PowerDrawSensor (name : string)
| PositionEncoder (name : string)
| VisionQCSensor (name : string).

Definition sensor_name (s : Sensor) : string :=
  match s with
  | Sensor_base n | SpindleTempSensor n | VibrationSensor n
  | PowerDrawSensor n | PositionEncoder n | VisionQCSensor n => n
  end.

#[warnings="-inexact-float"]
Definition read (self : Sensor) : sim rng pyval :=
  match self with
  | Sensor_base _ => lift (Err NotImplementedError)
  | SpindleTempSensor _ =>
      u ← random_uniform 45 100; mret (VFloat (py_round u 2))
  | VibrationSensor _ =>
      u ← random_uniform 0.2 4.0; mret (VFloat (py_round u 2))
  | PowerDrawSensor _ =>
      u ← random_uniform 200 450; mret (VFloat (py_round u 1))
  | PositionEncoder _ =>
      x ← random_uniform 0 100;
      y ← random_uniform 0 100;
      z ← random_uniform 0 50;
      mret (VDict {[ "X" := VFloat (py_round x 1);
                     "Y" := VFloat (py_round y 1);
                     "Z" := VFloat (py_round z 1) ]})
  | VisionQCSensor _ =>
      r ← random_choice ["PASS"; "FAIL"]; mret (VStr r)
  end.

(** ** Tool changer *)

Record AutomaticToolChanger : Type := {
  tools : list Z;
  current_tool : Z
}.

Definition AutomaticToolChanger_init (tools : list Z)
  : result AutomaticToolChanger :=
  match tools with
  | [] => Err IndexError
  | t :: _ => Ok {| tools := tools; current_tool := t |}
  end.

(** Returns the tool together with the changer after the call. *)
Definition check_and_change_tool (self : AutomaticToolChanger) (cycle_id : Z)
  : sim rng (Z * AutomaticToolChanger) :=
  self' ← (if cycle_id mod 10 =? 0
           then t ← random_choice (tools self);
                mret {| tools := tools self; current_tool := t |}
           else mret self);
  mret (current_tool self', self').

(** ** Machines *)

Inductive Machine : Type :=
| Machine_base (name : string)
| CNCMill (name : string) (atc : AutomaticToolChanger)
| RoboticArm (name : string)
| ConveyorBelt (name : string)
| InspectionSystem (name : string).

(** Returns the operation result together with the machine after the
    call (the mill's tool changer may have changed). *)
#[warnings="-inexact-float"]
Definition perform_operation (self : Machine) (cycle_id : Z)
  : sim rng (pydict * Machine) :=
  match self with
  | Machine_base _ => lift (Err NotImplementedError)
  | CNCMill name atc =>
      op ← random_choice ["cutting"; "drilling"; "idle"];
      '(tool, atc') ← check_and_change_tool atc cycle_id;
      mret ({[ "operation" := VStr op; "tool_id" := VInt tool ]},
            CNCMill name atc')
  | RoboticArm _ =>
      task ← random_choice
               ["load_material"; "unload_part"; "assemble_component"; "idle"];
      mret ({[ "robotic_arm_task" := VStr task ]}, self)
  | ConveyorBelt _ =>
      position ← random_choice ["Station A"; "Station B"; "Inspection"; "Exit"];
      digits ← lift (py_str_int (1000 + cycle_id));
      let part_id := "PART-" +:+ digits in
      mret ({[ "conveyor_position" := VStr position;
               "part_id" := VStr part_id ]}, self)
  | InspectionSystem _ =>
      decision ← random_choice ["PASS"; "FAIL"];
      u ← random_uniform 0.7 1.0;
      let confidence := py_round u 2 in
      mret ({[ "inspection_result" := VStr decision;
               "inspection_confidence" := VFloat confidence ]}, self)
  end.

(** ** Engine *)

Record CNCFactory : Type := {
  machines : list Machine;
  sensors : list Sensor
}.

#[warnings="-inexact-float"]
Definition read_real_data : pydict :=
  {[ "operation" := VStr "cutting";
     "tool_id" := VInt 2;
     "spindle_temp" := VFloat 82.5;
     "vibration" := VFloat 1.1;
     "power_draw" := VFloat 310.2;
     "position" := VDict {[ "X" := VFloat 50; "Y" := VFloat 30;
                            "Z" := VFloat 10 ]};
     "inspection" := VStr "PASS" ]}.

(** [env_MODE] is the environment variable MODE, [None] when unset. *)
Definition get_data_source (env_MODE : option string) : pyval :=
  let mode := default "SIM" env_MODE in
  if String.eqb mode "REAL" then VDict read_real_data else VNone.

(** [for m in self.machines: machine_data.update(m.perform_operation(cycle_id))] *)
Fixpoint machines_loop (ms : list Machine) (cycle_id : Z) (machine_data : pydict)
  : sim rng (pydict * list Machine) :=
  match ms with
  | [] => mret (machine_data, [])
  | m :: rest =>
      '(r, m') ← perform_operation m cycle_id;
      '(machine_data', rest') ← machines_loop rest cycle_id
                                  (dict_update machine_data r);
      mret (machine_data', m' :: rest')
  end.

(** [for s in self.sensors: sensor_readings[s.name] = s.read()] *)
Fixpoint sensors_loop (ss : list Sensor) (sensor_readings : pydict)
  : sim rng pydict :=
  match ss with
  | [] => mret sensor_readings
  | s :: rest =>
      v ← read s;
      sensors_loop rest (<[sensor_name s := v]> sensor_readings)
  end.

(** What one cycle computes: the locals of [run_cycle] and the record
    that [send_to_KG] prints. *)
Record cycle : Type := {
  machine_data : pydict;
  sensor_readings : pydict;
  classification : string;
  emitted : pydict
}.

(** The sensor part of [run_cycle]: the substitute readings when the
    data source gives some, the sensors of the factory otherwise. *)
Definition read_sensor_readings (env_MODE : option string) (self : CNCFactory)
  : sim rng pydict :=
  let real := get_data_source env_MODE in
  if py_truthy real
  then lift (spindle_temp ← py_getitem real "spindle_temp";
             vibration ← py_getitem real "vibration";
             power_draw ← py_getitem real "power_draw";
             position ← py_getitem real "position";
             inspection ← py_getitem real "inspection";
             Ok ({[ "spindle_temp" := spindle_temp;
                    "vibration" := vibration;
                    "power_draw" := power_draw;
                    "position" := position;
                    "inspection" := inspection ]} : pydict))
  else sensors_loop (sensors self) ∅.

Definition run_cycle (kg : KGTables) (env_MODE : option string) (now : float)
    (self : CNCFactory) (cycle_id : Z) : sim rng (cycle * CNCFactory) :=
  '(machine_data, machines') ← machines_loop (machines self) cycle_id ∅;
  sensor_readings ← read_sensor_readings env_MODE self;
  let msg := SimulationMessage_init now cycle_id machine_data sensor_readings in
  classification ← lift (classify_state sensor_readings machine_data);
  payload_json ← lift (to_json msg);
  record ← lift (send_to_KG kg payload_json classification);
  mret ({| machine_data := machine_data; sensor_readings := sensor_readings;
           classification := classification; emitted := record |},
        {| machines := machines'; sensors := sensors self |}).

End Simulator.

(** ** A scripted random source

    A deterministic instance of [Runtime]: the state is a counter, every
    draw advances it.  It runs the simulator on concrete inputs. *)
#[global] Program Instance counter_runtime : Runtime nat := {|
  randbelow n g := ((g mod n)%nat, S g);
  random_random g := (0.5%float, S g);
  py_round x _ := x
|}.
Next Obligation. intros n g Hn. simpl. apply Nat.mod_upper_bound. lia. Qed.

(** ** Vocabulary of the specification *)

(** The labels of the 10-rule cascade, in the documented order. *)
Definition labels : list string :=
  [ "Maintenance_KG:Possible_Overheating";
    "Cyberattack_KG:Possible_Glitch/Firmware";
    "Cyberattack_KG:Likely_Glitch/Firmware";
    "Maintenance_KG:Spindle_Overheat";
    "Cyberattack_KG:Possible_Vibration_Sabotage";
    "Cyberattack_KG:Likely_Vibration_Sabotage";
    "PowerDraw_KG:Possible_Elevated_Load";
    "PowerDraw_KG:High_Power_Consumption";
    "Maintenance_KG:Minor_Position_Drift";
    "Cyberattack_KG:Major_Position_Change";
    "Maintenance_KG:Tool_Change";
    "Normal_KG:Inspection_Fail";
    "Normal_KG:Operation_Normal" ].

(** A scalar reading: the entry is there and is a number. *)
Definition scalar (d : pydict) (k : string) : option num :=
  d !! k ≫= as_num.

(** The absolute deviation of one axis from its expected value. *)
Definition deviation (pos : pydict) (axis : string) : option num :=
  a ← pos !! axis;
  e ← EXPECTED_POSITION !! axis;
  match py_sub a e with
  | Ok d => Some (py_abs d)
  | Err _ => None
  end.

Definition num_max (a b : num) : num := if num_gt b a then b else a.

(** The largest deviation over X, Y, Z. *)
Definition max_dev (sensors : pydict) : option num :=
  match sensors !! "position" with
  | Some (VDict pos) =>
      dx ← deviation pos "X";
      dy ← deviation pos "Y";
      dz ← deviation pos "Z";
      Some (num_max (num_max dx dy) dz)
  | _ => None
  end.

(** Well-formed sensor readings: the three scalars are numbers, the
    position has three numeric axes whose deviation can be computed, and
    the inspection entry is there. *)
Definition wf_sensors (sensors : pydict) : bool :=
  bool_decide (is_Some (scalar sensors "spindle_temp"))
  && bool_decide (is_Some (scalar sensors "vibration"))
  && bool_decide (is_Some (scalar sensors "power_draw"))
  && bool_decide (is_Some (max_dev sensors))
  && bool_decide (is_Some (sensors !! "inspection")).

Definition sat {A} (o : option A) (P : A -> bool) : bool :=
  match o with
  | Some x => P x
  | None => false
  end.

(** Rule 8 as the classifier decides it: the tool id counts as present
    when its truth value is true. *)
Definition tool_change (machine : pydict) : bool :=
  sat (machine !! "tool_id")
      (fun t => py_truthy t && negb (py_in_ints t [1; 2; 3])).

(** Rule 8 as documented: the key is present and the value is not one of
    1, 2, 3. *)
Definition tool_change_documented (machine : pydict) : bool :=
  sat (machine !! "tool_id") (fun t => negb (py_in_ints t [1; 2; 3])).

(** The predicates of the cascade, rules 1 to 10. *)
Definition rule_holds (i : nat) (sensors machine : pydict) : bool :=
  match i with
  | 1%nat => sat (scalar sensors "spindle_temp")
               (fun t => num_gt t (NInt 75) && num_le t (NInt 90))
  | 2%nat => sat (scalar sensors "spindle_temp") (fun t => num_gt t (NInt 90))
  | 3%nat => sat (scalar sensors "vibration")
               (fun v => num_gt v (NFloat 1.5) && num_le v (NFloat 3.5))
  | 4%nat => sat (scalar sensors "vibration") (fun v => num_gt v (NFloat 3.5))
  | 5%nat => sat (scalar sensors "power_draw")
               (fun p => num_ge p (NInt 350) && num_lt p (NInt 400))
  | 6%nat => sat (scalar sensors "power_draw") (fun p => num_ge p (NInt 400))
  | 7%nat => sat (max_dev sensors)
               (fun d => num_gt d (NFloat 5) && num_le d (NFloat 10)
                         || num_gt d (NFloat 10))
  | 8%nat => tool_change machine
  | 9%nat => sat (sensors !! "inspection") (fun i => py_eq_str i "FAIL")
  | 10%nat => true
  | _ => false
  end.

(** The same with rule 8 as documented. *)
Definition rule_holds_documented (i : nat) (sensors machine : pydict) : bool :=
  if (i =? 8)%nat then tool_change_documented machine
  else rule_holds i sensors machine.

(** The label each rule gives; rules 2 and 7 choose among their
    sub-branches. *)
Definition rule_label (i : nat) (sensors : pydict) : string :=
  match i with
  | 1%nat => "Maintenance_KG:Possible_Overheating"
  | 2%nat =>
      if sat (scalar sensors "power_draw")
             (fun p => num_gt p (NInt 350) && num_lt p (NInt 400))
      then "Cyberattack_KG:Possible_Glitch/Firmware"
      else if sat (scalar sensors "power_draw") (fun p => num_ge p (NInt 400))
      then "Cyberattack_KG:Likely_Glitch/Firmware"
      else "Maintenance_KG:Spindle_Overheat"
  | 3%nat => "Cyberattack_KG:Possible_Vibration_Sabotage"
  | 4%nat => "Cyberattack_KG:Likely_Vibration_Sabotage"
  | 5%nat => "PowerDraw_KG:Possible_Elevated_Load"
  | 6%nat => "PowerDraw_KG:High_Power_Consumption"
  | 7%nat =>
      if sat (max_dev sensors)
             (fun d => num_gt d (NFloat 5) && num_le d (NFloat 10))
      then "Maintenance_KG:Minor_Position_Drift"
      else "Cyberattack_KG:Major_Position_Change"
  | 8%nat => "Maintenance_KG:Tool_Change"
  | 9%nat => "Normal_KG:Inspection_Fail"
  | _ => "Normal_KG:Operation_Normal"
  end.

(** Rule [i] is the first rule the input satisfies. *)
Definition first_match (i : nat) (sensors machine : pydict) : Prop :=
  (1 <= i <= 10)%nat
  /\ rule_holds i sensors machine = true
  /\ forall j : nat, (1 <= j < i)%nat -> rule_holds j sensors machine = false.

(** ** The cascade as a decision list

    The classifier reads its inputs lazily; on readings that are there
    it computes the two decision lists below, [head_rules] for rules 1
    to 6 and [tail_rules] for rules 7 to 10. *)

Definition head_rules (t v p : num) : option string :=
  if num_gt t (NInt 75) && num_le t (NInt 90)
  then Some "Maintenance_KG:Possible_Overheating"
  else if num_gt t (NInt 90)
  then Some (if num_gt p (NInt 350) && num_lt p (NInt 400)
             then "Cyberattack_KG:Possible_Glitch/Firmware"
             else if num_ge p (NInt 400)
             then "Cyberattack_KG:Likely_Glitch/Firmware"
             else "Maintenance_KG:Spindle_Overheat")
  else if num_gt v (NFloat 1.5) && num_le v (NFloat 3.5)
  then Some "Cyberattack_KG:Possible_Vibration_Sabotage"
  else if num_gt v (NFloat 3.5)
  then Some "Cyberattack_KG:Likely_Vibration_Sabotage"
  else if num_ge p (NInt 350) && num_lt p (NInt 400)
  then Some "PowerDraw_KG:Possible_Elevated_Load"
  else if num_ge p (NInt 400)
  then Some "PowerDraw_KG:High_Power_Consumption"
  else None.

Definition tail_rules (d : num) (machine : pydict) (insp : pyval) : string :=
  if num_gt d (NFloat 5) && num_le d (NFloat 10)
  then "Maintenance_KG:Minor_Position_Drift"
  else if num_gt d (NFloat 10)
  then "Cyberattack_KG:Major_Position_Change"
  else if tool_change machine
  then "Maintenance_KG:Tool_Change"
  else if py_eq_str insp "FAIL"
  then "Normal_KG:Inspection_Fail"
  else "Normal_KG:Operation_Normal".

(** ** Further vocabulary: categories, configurations, sample inputs *)

Inductive category : Type :=
| Maintenance_KG
| Cyberattack_KG
| Normal_KG
| PowerDraw_KG.

(** The category of a label [<Category>:<Reason>]. *)
Definition label_category (label : string) : option category :=
  if String.prefix "Maintenance_KG:" label then Some Maintenance_KG
  else if String.prefix "Cyberattack_KG:" label then Some Cyberattack_KG
  else if String.prefix "Normal_KG:" label then Some Normal_KG
  else if String.prefix "PowerDraw_KG:" label then Some PowerDraw_KG
  else None.

(** The reference table the program holds for a category: there is
    none for PowerDraw_KG. *)
Definition category_table (kg : KGTables) (c : category) : option pydict :=
  match c with
  | Maintenance_KG => Some (maintenance_map kg)
  | Cyberattack_KG => Some (cyberattack_map kg)
  | Normal_KG => Some (normal_map kg)
  | PowerDraw_KG => None
  end.

(** The triple [send_to_KG] looks up for a classification. *)
Definition looked_up (kg : KGTables) (classification : string) : pyval :=
  if str_contains "Maintenance_KG" classification
  then dict_get (maintenance_map kg) classification
  else if str_contains "Normal_KG" classification
  then dict_get (normal_map kg) classification
  else if str_contains "Cyberattack_KG" classification
  then dict_get (cyberattack_map kg) classification
  else VNone.

(** [send_to_KG] returns the record, and the record carries the label
    as kg_node and [triple] as kg_triple. *)
Definition attaches (kg : KGTables) (payload_json : json) (label : string)
    (triple : pyval) : Prop :=
  exists record : pydict,
    send_to_KG kg payload_json label = Ok record
    /\ record !! "kg_node" = Some (VStr label)
    /\ record !! "kg_triple" = Some triple.

(** The machines operated one after the other, as the loop of
    [run_cycle] asks: [operated cycle_id ms g rs ms' g'] when every
    machine of [ms], called in the order of the list and starting from
    the random state [g], returns; [rs] are the results in that order,
    [ms'] the machines after their calls and [g'] the random state after
    the last call. *)
Inductive operated {rng} `{!Runtime rng} (cycle_id : Z)
  : list Machine -> rng -> list pydict -> list Machine -> rng -> Prop :=
| operated_nil (g : rng) : operated cycle_id [] g [] [] g
| operated_cons (m m' : Machine) (ms ms' : list Machine) (r : pydict)
    (rs : list pydict) (g g1 g2 : rng) :
    perform_operation m cycle_id g = Ok ((r, m'), g1) ->
    operated cycle_id ms g1 rs ms' g2 ->
    operated cycle_id (m :: ms) g (r :: rs) (m' :: ms') g2.

(** The results merged into one dict, from the first to the last: a
    later result overwrites the fields it shares with an earlier one. *)
Definition merged (rs : list pydict) : pydict := foldl dict_update ∅ rs.

(** The entries of the tables can be written as JSON.  A table that
    [load_kg_csv] returns holds strings only, so it always is. *)
Definition table_ok (table : pydict) : bool := json_ok (VDict table).

Definition kg_ok (kg : KGTables) : bool :=
  table_ok (maintenance_map kg) && table_ok (normal_map kg)
  && table_ok (cyberattack_map kg).

(** The tool numbers of a tool changer can be written in decimal. *)
Definition tools_ok (atc : AutomaticToolChanger) : bool :=
  forallb int_str_ok (current_tool atc :: tools atc).

(** The substitute readings of the documented "real" mode. *)
#[warnings="-inexact-float"]
Definition substitute_bundle : pydict :=
  {[ "spindle_temp" := VFloat 82.5;
     "vibration" := VFloat 1.1;
     "power_draw" := VFloat 310.2;
     "position" := VDict {[ "X" := VFloat 50; "Y" := VFloat 30;
                            "Z" := VFloat 10 ]};
     "inspection" := VStr "PASS" ]}.

(** The configuration of the main program. *)
Definition default_sensors : list Sensor :=
  [ SpindleTempSensor "spindle_temp";
    VibrationSensor "vibration";
    PowerDrawSensor "power_draw";
    PositionEncoder "position";
    VisionQCSensor "inspection" ].

Definition default_tools : list Z := [1; 2; 3; 4; 5].

Definition default_machines (atc : AutomaticToolChanger) : list Machine :=
  [ CNCMill "CNC_Mill_1" atc;
    RoboticArm "Robotic_Arm_1";
    ConveyorBelt "Conveyor_1";
    InspectionSystem "Inspection_Station" ].

(** The field names of the machine variants. *)
Definition machine_fields : gset string :=
  {[ "operation"; "tool_id"; "robotic_arm_task"; "conveyor_position";
     "part_id"; "inspection_result"; "inspection_confidence" ]}.

(** A run of calls of the tool changer, one per cycle id. *)
Fixpoint tool_changer_run {rng} `{!Runtime rng}
    (self : AutomaticToolChanger) (cycle_ids : list Z)
  : sim rng AutomaticToolChanger :=
  match cycle_ids with
  | [] => mret self
  | c :: rest =>
      '(_, self') ← check_and_change_tool self c;
      tool_changer_run self' rest
  end.

(** Sample inputs of the classifier. *)
Definition sample_sensors (t v p x : float) (insp : string) : pydict :=
  {[ "spindle_temp" := VFloat t;
     "vibration" := VFloat v;
     "power_draw" := VFloat p;
     "position" := VDict {[ "X" := VFloat x; "Y" := VFloat 30;
                            "Z" := VFloat 10 ]};
     "inspection" := VStr insp ]}.

Definition sample_machine (tool : Z) : pydict :=
  {[ "operation" := VStr "cutting"; "tool_id" := VInt tool ]}.

(** One input for each label of the cascade, in the order of [labels]. *)
Definition label_samples : list (pydict * pydict) :=
  [ (sample_sensors 80 1 300 50 "PASS", sample_machine 1);
    (sample_sensors 95 1 375 50 "PASS", sample_machine 1);
    (sample_sensors 95 1 410 50 "PASS", sample_machine 1);
    (sample_sensors 95 1 300 50 "PASS", sample_machine 1);
    (sample_sensors 60 2 300 50 "PASS", sample_machine 1);
    (sample_sensors 60 3.75 300 50 "PASS", sample_machine 1);
    (sample_sensors 60 1 375 50 "PASS", sample_machine 1);
    (sample_sensors 60 1 410 50 "PASS", sample_machine 1);
    (sample_sensors 60 1 300 57 "PASS", sample_machine 1);
    (sample_sensors 60 1 300 61 "PASS", sample_machine 1);
    (sample_sensors 60 1 300 50 "PASS", sample_machine 4);
    (sample_sensors 60 1 300 50 "FAIL", sample_machine 1);
    (sample_sensors 60 1 300 50 "PASS", sample_machine 1) ].

(** Sample knowledge-graph tables, and a table as a PowerDraw_KG source
    would give it. *)
Definition sample_kg : KGTables :=
  {| maintenance_map :=
       {[ "Maintenance_KG:Tool_Change" :=
            VDict {[ "relationship" := VStr "requires";
                     "target_entity" := VStr "Tool_Replacement" ]} ]};
     normal_map := ∅;
     cyberattack_map :=
       {[ "Cyberattack_KG:Major_Position_Change" :=
            VDict {[ "relationship" := VStr "indicates";
                     "target_entity" := VStr "Axis_Tampering" ]} ]} |}.

(** A factory whose extra sensor is named like a machine field. *)
Definition colliding_factory : CNCFactory :=
  {| machines :=
       default_machines {| tools := default_tools; current_tool := 1 |};
     sensors := default_sensors ++ [PowerDrawSensor "tool_id"] |}.

(** ** The first revision of the engine

    The engine as it was before the CSV tables: the sensors, machines,
    message class and cycle engine are those above; the classifier has
    four rules and [send_to_KG] attaches no triple. *)
Module FirstRevision.

Definition classify_state (sensors machine : pydict) : result string :=
  WHEN (t ← dict_getitem sensors "spindle_temp"; py_gt t (NInt 90))
  RETURN "Maintenance_KG:Spindle_Overheat" ELSE
  WHEN (v ← dict_getitem sensors "vibration"; py_gt v (NFloat 3.5))
  RETURN "Cyberattack_KG:Vibration_Sabotage" ELSE
  WHEN Ok (py_truthy (dict_get machine "tool_id"))
     AND (t ← dict_getitem machine "tool_id";
          Ok (negb (py_in_ints t [1; 2; 3])))
  RETURN "Maintenance_KG:Tool_Change" ELSE
  WHEN (i ← dict_getitem sensors "inspection"; Ok (py_eq_str i "FAIL"))
  RETURN "Normal_KG:Inspection_Fail" ELSE
  Ok "Normal_KG:Operation_Normal".

Definition send_to_KG (payload_json : json) (classification : string)
  : result pydict :=
  record ← json_loads payload_json;
  let record := <["kg_node" := VStr classification]> record in
  _ ← json_dumps record;
  Ok record.

End FirstRevision.

(** ** Main execution

    [for cycle in range(1, NUM_CYCLES + 1): factory.run_cycle(cycle)];
    the pause between cycles has no part in what is computed, and
    [clock c] is what [time.time()] returns in cycle [c]. *)
Definition NUM_CYCLES : Z := 5.

Fixpoint cycles_loop {rng} `{!Runtime rng} (kg : KGTables)
    (env_MODE : option string) (clock : Z -> float) (factory : CNCFactory)
    (cycle_ids : list Z) : sim rng (list cycle * CNCFactory) :=
  match cycle_ids with
  | [] => mret ([], factory)
  | c :: rest =>
      '(out, factory') ← run_cycle kg env_MODE (clock c) factory c;
      '(outs, factory'') ← cycles_loop kg env_MODE clock factory' rest;
      mret (out :: outs, factory'')
  end.

Definition main {rng} `{!Runtime rng} (kg : KGTables)
    (env_MODE : option string) (clock : Z -> float)
  : sim rng (list cycle * CNCFactory) :=
  atc ← lift (AutomaticToolChanger_init [1; 2; 3; 4; 5]);
  let factory := {| machines := default_machines atc;
                    sensors := default_sensors |} in
  cycles_loop kg env_MODE clock factory (seqZ 1 NUM_CYCLES).

(** ** Vocabulary of the further properties *)

(** A machine after a call is the machine before it, up to the current
    tool of a mill. *)
Definition same_machine (m m' : Machine) : Prop :=
  m' = m
  \/ exists (name : string) (atc atc' : AutomaticToolChanger),
       m = CNCMill name atc /\ m' = CNCMill name atc'
       /\ tools atc' = tools atc.

(** A string that neither starts nor ends with whitespace. *)
Definition starts_clean (s : string) : Prop :=
  match s with
  | String c _ => is_space c = false
  | EmptyString => True
  end.

Fixpoint ends_clean (s : string) : Prop :=
  match s with
  | EmptyString => True
  | String c EmptyString => is_space c = false
  | String _ s' => ends_clean s'
  end.

(** A row of a knowledge-graph CSV file with its three columns filled. *)
Definition row_columns (row : pydict) (source relationship target : string)
  : Prop :=
  row !! "Source entity" = Some (VStr source)
  /\ row !! "relationship" = Some (VStr relationship)
  /\ row !! "target entity" = Some (VStr target).

Definition strip (s : string) : string := rstrip (lstrip s).

(** The entry [load_kg_csv] stores for a row. *)
Definition row_entry (relationship target : string) : pyval :=
  VDict {[ "relationship" := VStr (strip relationship);
           "target_entity" := VStr (strip target) ]}.

(** * Properties *)

(** ** Reading the classifier *)

#[local] Arguments num_gt : simpl never.
#[local] Arguments num_ge : simpl never.
#[local] Arguments num_lt : simpl never.
#[local] Arguments num_le : simpl never.
#[local] Arguments int_str_ok : simpl never.

(** Case analysis on the next comparison of the goal. *)
Ltac split_cmp :=
  match goal with
  | |- context [num_gt ?a ?b] => destruct (num_gt a b) eqn:?
  | |- context [num_le ?a ?b] => destruct (num_le a b) eqn:?
  | |- context [num_ge ?a ?b] => destruct (num_ge a b) eqn:?
  | |- context [num_lt ?a ?b] => destruct (num_lt a b) eqn:?
  end; cbn [mbind result_bind andb orb].

Lemma result_Ok_inv {A : Type} (r : result A) :
  match r with Ok _ => True | Err _ => False end -> exists a : A, r = Ok a.
Proof. destruct r as [a|e]; [by exists a|done]. Qed.

Lemma and_then_Ok (a b : bool) : (Ok a AND Ok b) = Ok (a && b).
Proof. by destruct a. Qed.

Lemma dict_getitem_Some (d : pydict) (k : string) (v : pyval) :
  d !! k = Some v -> dict_getitem d k = Ok v.
Proof. unfold dict_getitem. by intros ->. Qed.

Lemma scalar_Some (d : pydict) (k : string) (n : num) :
  scalar d k = Some n ->
  exists v, d !! k = Some v /\ as_num v = Some n.
Proof.
  unfold scalar. destruct (d !! k) as [v|]; simpl; [eauto | discriminate].
Qed.

Lemma py_cmp_scalar (op : num -> num -> bool) (d : pydict) (k : string)
    (n c : num) :
  scalar d k = Some n ->
  (x ← dict_getitem d k; py_cmp op x c) = Ok (op n c).
Proof.
  intros (v & Hv & Hn)%scalar_Some.
  unfold dict_getitem, py_cmp. rewrite Hv. simpl. by rewrite Hn.
Qed.

Lemma deviation_item (pos : pydict) (axis : string) (d : num) :
  deviation pos axis = Some d ->
  (a ← dict_getitem pos axis;
   e ← dict_getitem EXPECTED_POSITION axis;
   py_abs <$> py_sub a e) = Ok d.
Proof.
  unfold deviation, dict_getitem.
  destruct (pos !! axis) as [a|]; simpl; [|discriminate].
  destruct (EXPECTED_POSITION !! axis) as [e|]; simpl; [|discriminate].
  destruct (py_sub a e); simpl; congruence.
Qed.

Lemma max_dev_Some (sensors : pydict) (d : num) :
  max_dev sensors = Some d ->
  exists pos, sensors !! "position" = Some (VDict pos)
    /\ py_max ((fun axis => a ← py_getitem (VDict pos) axis;
                  e ← dict_getitem EXPECTED_POSITION axis;
                  py_abs <$> py_sub a e)
                 <$> ["X"; "Y"; "Z"]) = Ok d.
Proof.
  unfold max_dev.
  destruct (sensors !! "position") as [[| | | | |pos]|]; try discriminate.
  destruct (deviation pos "X") as [dx|] eqn:Hx; simpl; [|discriminate].
  destruct (deviation pos "Y") as [dy|] eqn:Hy; simpl; [|discriminate].
  destruct (deviation pos "Z") as [dz|] eqn:Hz; simpl; [|discriminate].
  intros [= <-]. exists pos. split; [done|].
  cbn [fmap list_fmap py_max max_loop py_getitem].
  rewrite (deviation_item _ _ _ Hx), (deviation_item _ _ _ Hy),
    (deviation_item _ _ _ Hz).
  reflexivity.
Qed.

(** Rules 1 to 6 read the three scalars only. *)
Lemma classify_state_head (sensors machine : pydict) (t v p : num) (l : string) :
  scalar sensors "spindle_temp" = Some t ->
  scalar sensors "vibration" = Some v ->
  scalar sensors "power_draw" = Some p ->
  head_rules t v p = Some l ->
  classify_state sensors machine = Ok l.
Proof.
  intros Ht Hv Hp. unfold classify_state, head_rules, py_gt, py_ge,
    py_lt, py_le.
  rewrite !(py_cmp_scalar _ _ _ _ _ Ht), !(py_cmp_scalar _ _ _ _ _ Hv),
    !(py_cmp_scalar _ _ _ _ _ Hp), !and_then_Ok.
  cbn [mbind result_bind].
  repeat (split_cmp; try discriminate; try (intros [= <-]; reflexivity)).
Qed.

Lemma tool_guard (machine : pydict) :
  (Ok (py_truthy (dict_get machine "tool_id"))
   AND (t ← dict_getitem machine "tool_id";
        Ok (negb (py_in_ints t [1; 2; 3]))))
  = Ok (tool_change machine).
Proof.
  unfold tool_change, dict_get, dict_getitem, and_then, sat.
  destruct (machine !! "tool_id") as [t|]; simpl; [|done].
  by destruct (py_truthy t).
Qed.

(** Rules 7 to 10, when none of rules 1 to 6 applies. *)
Lemma classify_state_tail (sensors machine : pydict) (t v p d : num)
    (insp : pyval) :
  scalar sensors "spindle_temp" = Some t ->
  scalar sensors "vibration" = Some v ->
  scalar sensors "power_draw" = Some p ->
  head_rules t v p = None ->
  max_dev sensors = Some d ->
  sensors !! "inspection" = Some insp ->
  classify_state sensors machine = Ok (tail_rules d machine insp).
Proof.
  intros Ht Hv Hp Hhead (pos & Hpos & Hmax)%max_dev_Some Hinsp.
  revert Hhead.
  unfold classify_state, head_rules, py_gt, py_ge, py_lt, py_le.
  rewrite !(py_cmp_scalar _ _ _ _ _ Ht), !(py_cmp_scalar _ _ _ _ _ Hv),
    !(py_cmp_scalar _ _ _ _ _ Hp), !and_then_Ok.
  cbn [mbind result_bind].
  repeat (split_cmp; try discriminate).
  all: intros _; rewrite (dict_getitem_Some _ _ _ Hpos).
  all: cbn [mbind result_bind]; rewrite Hmax; cbn [mbind result_bind].
  all: rewrite and_then_Ok, tool_guard, (dict_getitem_Some _ _ _ Hinsp).
  all: unfold tail_rules, TOLERANCE_WARNING, TOLERANCE_CRITICAL.
  all: cbn [mbind result_bind].
  all: repeat (split_cmp; try reflexivity).
  all: destruct (tool_change machine); cbn [mbind result_bind]; try reflexivity.
  all: destruct (py_eq_str insp "FAIL"); reflexivity.
Qed.

(** ** The cascade picks the first rule that holds *)

Lemma wf_sensors_readings (sensors : pydict) :
  wf_sensors sensors = true ->
  exists t v p d insp,
    scalar sensors "spindle_temp" = Some t
    /\ scalar sensors "vibration" = Some v
    /\ scalar sensors "power_draw" = Some p
    /\ max_dev sensors = Some d
    /\ sensors !! "inspection" = Some insp.
Proof.
  unfold wf_sensors. rewrite !andb_true_iff, !bool_decide_eq_true.
  intros [[[[[t Ht] [v Hv]] [p Hp]] [d Hd]] [insp Hi]].
  by exists t, v, p, d, insp.
Qed.

(** Readings that are floats, whatever their values, are well formed. *)
Lemma float_readings_wf (sensors pos : pydict) (t v p x y z : float)
    (insp : pyval) :
  sensors !! "spindle_temp" = Some (VFloat t) ->
  sensors !! "vibration" = Some (VFloat v) ->
  sensors !! "power_draw" = Some (VFloat p) ->
  sensors !! "position" = Some (VDict pos) ->
  pos !! "X" = Some (VFloat x) ->
  pos !! "Y" = Some (VFloat y) ->
  pos !! "Z" = Some (VFloat z) ->
  sensors !! "inspection" = Some insp ->
  wf_sensors sensors = true.
Proof.
  intros Ht Hv Hp Hpos Hx Hy Hz Hi.
  unfold wf_sensors, scalar, max_dev, deviation.
  rewrite Ht, Hv, Hp, Hpos, Hx, Hy, Hz, Hi. reflexivity.
Qed.

Ltac rew_hyps :=
  repeat match goal with
         | H : ?x = _ |- context [?x] => rewrite H
         end.

(** Evaluate the rule predicates and labels of the goal with the
    readings and comparisons of the context. *)
Ltac eval_rules :=
  repeat (progress (cbn [rule_holds rule_label sat orb]; rew_hyps)).

(** Decide [rule_holds j] for every [j] below a bound from the
    comparisons in the context. *)
Ltac below_bound j Hj :=
  intros j Hj;
  do 11 (destruct j as [|j]; [try lia; eval_rules; try reflexivity|]);
  try lia.

Lemma head_rules_first (sensors machine : pydict) (t v p : num) (l : string) :
  scalar sensors "spindle_temp" = Some t ->
  scalar sensors "vibration" = Some v ->
  scalar sensors "power_draw" = Some p ->
  head_rules t v p = Some l ->
  exists i : nat, (i <= 6)%nat /\ first_match i sensors machine
                  /\ rule_label i sensors = l.
Proof.
  intros Ht Hv Hp. unfold head_rules, first_match.
  destruct (num_gt t (NInt 75) && num_le t (NInt 90)) eqn:E1.
  { intros [= <-]. exists 1%nat. eval_rules.
    repeat split; try lia. }
  destruct (num_gt t (NInt 90)) eqn:E2.
  { intros [= <-]. exists 2%nat. eval_rules.
    repeat split; try lia; try done. below_bound j Hj. }
  destruct (num_gt v (NFloat 1.5) && num_le v (NFloat 3.5)) eqn:E3.
  { intros [= <-]. exists 3%nat. eval_rules.
    repeat split; try lia. below_bound j Hj. }
  destruct (num_gt v (NFloat 3.5)) eqn:E4.
  { intros [= <-]. exists 4%nat. eval_rules.
    repeat split; try lia. below_bound j Hj. }
  destruct (num_ge p (NInt 350) && num_lt p (NInt 400)) eqn:E5.
  { intros [= <-]. exists 5%nat. eval_rules.
    repeat split; try lia. below_bound j Hj. }
  destruct (num_ge p (NInt 400)) eqn:E6; [|discriminate].
  intros [= <-]. exists 6%nat. eval_rules.
  repeat split; try lia. below_bound j Hj.
Qed.

Lemma head_rules_none (sensors machine : pydict) (t v p : num) :
  scalar sensors "spindle_temp" = Some t ->
  scalar sensors "vibration" = Some v ->
  scalar sensors "power_draw" = Some p ->
  head_rules t v p = None ->
  forall j : nat, (1 <= j <= 6)%nat -> rule_holds j sensors machine = false.
Proof.
  intros Ht Hv Hp. unfold head_rules.
  destruct (num_gt t (NInt 75) && num_le t (NInt 90)) eqn:E1; [done|].
  destruct (num_gt t (NInt 90)) eqn:E2; [done|].
  destruct (num_gt v (NFloat 1.5) && num_le v (NFloat 3.5)) eqn:E3; [done|].
  destruct (num_gt v (NFloat 3.5)) eqn:E4; [done|].
  destruct (num_ge p (NInt 350) && num_lt p (NInt 400)) eqn:E5; [done|].
  destruct (num_ge p (NInt 400)) eqn:E6; [done|].
  intros _. below_bound j Hj.
Qed.

Lemma tail_rules_first (sensors machine : pydict) (d : num) (insp : pyval) :
  (forall j : nat, (1 <= j <= 6)%nat -> rule_holds j sensors machine = false) ->
  max_dev sensors = Some d ->
  sensors !! "inspection" = Some insp ->
  exists i : nat, (7 <= i)%nat /\ first_match i sensors machine
                  /\ rule_label i sensors = tail_rules d machine insp.
Proof.
  intros Hhead Hd Hi. unfold tail_rules, first_match.
  assert (Hlow : forall (i j : nat),
             (1 <= j < i)%nat ->
             (forall k : nat, (7 <= k < i)%nat ->
                              rule_holds k sensors machine = false) ->
             rule_holds j sensors machine = false).
  { intros i j Hj Hk. destruct (decide (j <= 6)%nat); [apply Hhead; lia|].
    apply Hk. lia. }
  destruct (num_gt d (NFloat 5) && num_le d (NFloat 10)) eqn:E7.
  { exists 7%nat. eval_rules. repeat split; try lia. intros j Hj. apply Hhead. lia. }
  destruct (num_gt d (NFloat 10)) eqn:E7'.
  { exists 7%nat. eval_rules. repeat split; try lia. intros j Hj. apply Hhead. lia. }
  destruct (tool_change machine) eqn:E8.
  { exists 8%nat. eval_rules. repeat split; try lia; try done.
    intros j Hj. apply (Hlow 8%nat); [done|]. below_bound k Hk. }
  destruct (py_eq_str insp "FAIL") eqn:E9.
  { exists 9%nat. eval_rules.
    repeat split; try lia; try done.
    intros j Hj. apply (Hlow 9%nat); [done|]. below_bound k Hk. }
  exists 10%nat. eval_rules. repeat split; try lia.
  intros j Hj. apply (Hlow 10%nat); [done|]. below_bound k Hk.
Qed.

Lemma rule_label_in_labels (i : nat) (sensors : pydict) :
  rule_label i sensors ∈ labels.
Proof.
  unfold labels.
  do 11 (destruct i as [|i];
         [cbn [rule_label];
          repeat match goal with
                 | |- context [sat ?o ?P] => destruct (sat o P)
                 end;
          repeat constructor|]).
  cbn [rule_label]. repeat constructor.
Qed.

(** On well-formed readings the classifier returns the label of the
    first rule of the cascade that holds, and some rule always holds. *)
Lemma cascade_first_match (sensors machine : pydict) :
  wf_sensors sensors = true ->
  exists i : nat, first_match i sensors machine
                  /\ classify_state sensors machine = Ok (rule_label i sensors).
Proof.
  intros (t & v & p & d & insp & Ht & Hv & Hp & Hd & Hi)%wf_sensors_readings.
  destruct (head_rules t v p) as [l|] eqn:Hhead.
  - destruct (head_rules_first sensors machine t v p l) as (i & _ & Hi1 & Hi2);
      try done.
    exists i. split; [done|]. rewrite Hi2.
    by apply (classify_state_head _ _ t v p).
  - destruct (tail_rules_first sensors machine d insp) as (i & _ & Hi1 & Hi2);
      try done.
    { by apply (head_rules_none _ _ t v p). }
    exists i. split; [done|]. rewrite Hi2.
    by apply (classify_state_tail _ _ t v p).
Qed.

(** The first rule that holds is unique. *)
Lemma first_match_unique (i j : nat) (sensors machine : pydict) :
  first_match i sensors machine -> first_match j sensors machine -> i = j.
Proof.
  intros (Hi & Hti & Hbi) (Hj & Htj & Hbj).
  destruct (Nat.lt_trichotomy i j) as [Hlt|[->|Hgt]]; [|done|].
  - rewrite Hbj in Hti; [done|lia].
  - rewrite Hbi in Htj; [done|lia].
Qed.

(** ** Every label of the cascade is reached *)

Lemma labels_NoDup : NoDup labels.
Proof. apply (bool_decide_unpack _). vm_compute. exact I. Qed.

Lemma label_samples_classified :
  (fun sm => classify_state sm.1 sm.2) <$> label_samples = Ok <$> labels.
Proof. vm_compute. reflexivity. Qed.

Lemma label_samples_wf :
  Forall (fun sm => wf_sensors sm.1 = true) label_samples.
Proof. repeat constructor. Qed.

Lemma labels_attained (l : string) :
  l ∈ labels ->
  exists sensors machine,
    wf_sensors sensors = true /\ classify_state sensors machine = Ok l.
Proof.
  intros (i & Hi)%list_elem_of_lookup.
  assert (Hl : (Ok <$> labels) !! i = Some (Ok l)) by by rewrite list_lookup_fmap, Hi.
  rewrite <- label_samples_classified, list_lookup_fmap in Hl.
  destruct (label_samples !! i) as [[s m]|] eqn:Hs; [|done].
  injection Hl as Hl. exists s, m. split; [|done].
  by apply (proj1 (Forall_lookup _ _) label_samples_wf i (s, m)).
Qed.

Lemma rule_label_vibration (i : nat) (sensors : pydict) :
  rule_label i sensors = "Cyberattack_KG:Possible_Vibration_Sabotage" ->
  i = 3%nat.
Proof.
  do 11 (destruct i as [|i];
         [cbn [rule_label];
          repeat match goal with
                 | |- context [sat ?o ?P] => destruct (sat o P)
                 end;
          (discriminate || reflexivity)|]).
  discriminate.
Qed.

(** ** The classifier: claims *)

(** C1 (as stated, refuted).  With rule 8 read as documented (tool id
    present and not 1, 2 or 3) the first rule that an input with tool id
    0 satisfies is rule 8, yet the classifier answers with the default
    label of rule 10; and no list of ten labels holds every answer of the
    classifier. *)
Lemma classify_state_documented_cascade_fails :
  (wf_sensors (sample_sensors 60 1 300 50 "PASS") = true
   /\ rule_holds_documented 8 (sample_sensors 60 1 300 50 "PASS")
        (sample_machine 0) = true
   /\ (forall j : nat, (1 <= j < 8)%nat ->
         rule_holds_documented j (sample_sensors 60 1 300 50 "PASS")
           (sample_machine 0) = false)
   /\ classify_state (sample_sensors 60 1 300 50 "PASS") (sample_machine 0)
      = Ok "Normal_KG:Operation_Normal"
   /\ rule_label 8 (sample_sensors 60 1 300 50 "PASS")
      <> "Normal_KG:Operation_Normal")
  /\ ~ (exists ten : list string,
          length ten = 10%nat
          /\ forall sensors machine,
               wf_sensors sensors = true ->
               exists l, classify_state sensors machine = Ok l /\ l ∈ ten).
Proof.
  split.
  - split; [reflexivity|]. split; [reflexivity|]. split.
    + intros j Hj.
      do 8 (destruct j as [|j]; [try lia; vm_compute; reflexivity|]). lia.
    + split; [vm_compute; reflexivity | discriminate].
  - intros (ten & Hlen & Hten).
    assert (Hsub : labels ⊆+ ten).
    { apply NoDup_submseteq; [apply labels_NoDup|].
      intros l (s & m & Hwf & Hc)%labels_attained.
      destruct (Hten s m Hwf) as (l' & Hl' & Hin). congruence. }
    apply submseteq_length in Hsub. rewrite Hlen in Hsub.
    vm_compute in Hsub. lia.
Qed.

(** C1 (amended).  For every well-formed input the classifier returns
    exactly one of the thirteen labels of the 10-rule cascade, the label
    of the first rule, in the documented order, whose predicate the input
    satisfies, where rule 8 holds when the tool id has a true truth value
    (is present and not 0) and is not 1, 2 or 3. *)
Theorem classify_state_first_rule (sensors machine : pydict) :
  wf_sensors sensors = true ->
  (exists i : nat,
      first_match i sensors machine
      /\ classify_state sensors machine = Ok (rule_label i sensors))
  /\ (forall i : nat,
        first_match i sensors machine ->
        classify_state sensors machine = Ok (rule_label i sensors)
        /\ rule_label i sensors ∈ labels)
  /\ length labels = 13%nat
  /\ NoDup labels.
Proof.
  intros Hwf.
  destruct (cascade_first_match sensors machine Hwf) as (i & Hi & Hc).
  split; [by exists i|]. split.
  - intros j Hj. rewrite (first_match_unique j i sensors machine Hj Hi).
    split; [done | apply rule_label_in_labels].
  - split; [reflexivity | apply labels_NoDup].
Qed.

Lemma classify_state_first_rule_witness :
  wf_sensors (sample_sensors 95 1 410 50 "PASS") = true
  /\ ((exists i : nat,
          first_match i (sample_sensors 95 1 410 50 "PASS") (sample_machine 4)
          /\ classify_state (sample_sensors 95 1 410 50 "PASS")
               (sample_machine 4)
             = Ok (rule_label i (sample_sensors 95 1 410 50 "PASS")))
      /\ (forall i : nat,
            first_match i (sample_sensors 95 1 410 50 "PASS")
              (sample_machine 4) ->
            classify_state (sample_sensors 95 1 410 50 "PASS")
              (sample_machine 4)
            = Ok (rule_label i (sample_sensors 95 1 410 50 "PASS"))
            /\ rule_label i (sample_sensors 95 1 410 50 "PASS") ∈ labels)
      /\ length labels = 13%nat
      /\ NoDup labels).
Proof.
  split; [reflexivity|].
  apply (classify_state_first_rule (sample_sensors 95 1 410 50 "PASS")
           (sample_machine 4)).
  reflexivity.
Defined.

(** C2 (as stated, refuted).  A well-formed input with spindle_temp
    exactly 90.0 yields Maintenance_KG:Possible_Overheating. *)
Lemma spindle_temp_90_overheating :
  wf_sensors (sample_sensors 90 1 300 50 "PASS") = true
  /\ sample_sensors 90 1 300 50 "PASS" !! "spindle_temp" = Some (VFloat 90)
  /\ classify_state (sample_sensors 90 1 300 50 "PASS") (sample_machine 1)
     = Ok "Maintenance_KG:Possible_Overheating".
Proof. split; [reflexivity|]. split; [reflexivity|]. vm_compute. reflexivity. Qed.

(** C2 (amended).  For every input with spindle_temp exactly 90.0 the
    tie resolves to branch 1 ([75 < spindle_temp <= 90]), not branch 2:
    the classifier yields Maintenance_KG:Possible_Overheating. *)
Theorem spindle_temp_90_branch_1 (sensors machine : pydict) :
  sensors !! "spindle_temp" = Some (VFloat 90) ->
  rule_holds 1 sensors machine = true
  /\ rule_holds 2 sensors machine = false
  /\ classify_state sensors machine = Ok "Maintenance_KG:Possible_Overheating".
Proof.
  intros Ht.
  assert (Hs : scalar sensors "spindle_temp" = Some (NFloat 90))
    by (unfold scalar; by rewrite Ht).
  assert (H75 : num_gt (NFloat 90) (NInt 75) = true) by (vm_compute; reflexivity).
  assert (H90 : num_le (NFloat 90) (NInt 90) = true) by (vm_compute; reflexivity).
  assert (H90' : num_gt (NFloat 90) (NInt 90) = false) by (vm_compute; reflexivity).
  split; [|split].
  - cbn [rule_holds]. rewrite Hs. cbn [sat]. by rewrite H75, H90.
  - cbn [rule_holds]. rewrite Hs. cbn [sat]. by rewrite H90'.
  - unfold classify_state, py_gt, py_le.
    rewrite !(py_cmp_scalar _ _ _ _ _ Hs), and_then_Ok, H75, H90.
    reflexivity.
Qed.

Lemma spindle_temp_90_branch_1_witness :
  sample_sensors 90 1 300 50 "PASS" !! "spindle_temp" = Some (VFloat 90)
  /\ rule_holds 1 (sample_sensors 90 1 300 50 "PASS") (sample_machine 1) = true
  /\ rule_holds 2 (sample_sensors 90 1 300 50 "PASS") (sample_machine 1) = false
  /\ classify_state (sample_sensors 90 1 300 50 "PASS") (sample_machine 1)
     = Ok "Maintenance_KG:Possible_Overheating".
Proof.
  split; [reflexivity|].
  apply (spindle_temp_90_branch_1 (sample_sensors 90 1 300 50 "PASS")
           (sample_machine 1)).
  reflexivity.
Defined.

(** C4 (as stated, refuted).  None of rules 1 to 7 matches, machine_data
    holds tool_id = 0, which is not 1, 2 or 3, and the classifier does not
    return Maintenance_KG:Tool_Change. *)
Lemma tool_id_0_no_tool_change :
  wf_sensors (sample_sensors 60 1 300 50 "PASS") = true
  /\ (forall j : nat, (1 <= j <= 7)%nat ->
        rule_holds j (sample_sensors 60 1 300 50 "PASS") (sample_machine 0)
        = false)
  /\ sample_machine 0 !! "tool_id" = Some (VInt 0)
  /\ py_in_ints (VInt 0) [1; 2; 3] = false
  /\ classify_state (sample_sensors 60 1 300 50 "PASS") (sample_machine 0)
     = Ok "Normal_KG:Operation_Normal"
  /\ classify_state (sample_sensors 60 1 300 50 "PASS") (sample_machine 0)
     <> Ok "Maintenance_KG:Tool_Change".
Proof.
  split; [reflexivity|]. split.
  { intros j Hj.
    do 8 (destruct j as [|j]; [try lia; vm_compute; reflexivity|]). lia. }
  split; [reflexivity|]. split; [reflexivity|].
  assert (H : classify_state (sample_sensors 60 1 300 50 "PASS")
                (sample_machine 0) = Ok "Normal_KG:Operation_Normal")
    by (vm_compute; reflexivity).
  split; [exact H | rewrite H; discriminate].
Qed.

(** C4 (amended).  For every well-formed input where none of rules 1 to
    7 matches and machine_data holds a tool_id that is not 1, 2 or 3: when
    the tool id has a true truth value (it is not 0) the classifier returns
    Maintenance_KG:Tool_Change; when it has a false one (0) the input falls
    through to rules 9 and 10, as if the tool id were absent. *)
Theorem tool_change_rule (sensors machine : pydict) (t : pyval) :
  wf_sensors sensors = true ->
  (forall j : nat, (1 <= j <= 7)%nat -> rule_holds j sensors machine = false) ->
  machine !! "tool_id" = Some t ->
  py_in_ints t [1; 2; 3] = false ->
  (py_truthy t = true ->
   classify_state sensors machine = Ok "Maintenance_KG:Tool_Change")
  /\ (py_truthy t = false ->
      classify_state sensors machine
      = Ok (if rule_holds 9 sensors machine
            then "Normal_KG:Inspection_Fail"
            else "Normal_KG:Operation_Normal")).
Proof.
  intros Hwf Hlow Ht Hin.
  destruct (cascade_first_match sensors machine Hwf) as (i & Hi & Hc).
  assert (H8 : rule_holds 8 sensors machine = py_truthy t).
  { cbn [rule_holds]. unfold tool_change. rewrite Ht. cbn [sat].
    rewrite Hin. by destruct (py_truthy t). }
  split; intros Htruth; rewrite Htruth in H8.
  - assert (Hf : first_match 8 sensors machine).
    { repeat split; try lia; [done|]. intros j Hj. apply Hlow. lia. }
    by rewrite Hc, (first_match_unique i 8%nat sensors machine Hi Hf).
  - destruct (rule_holds 9 sensors machine) eqn:H9.
    + assert (Hf : first_match 9 sensors machine).
      { repeat split; try lia; [done|]. intros j Hj.
        destruct (decide (j = 8%nat)) as [->|]; [done|]. apply Hlow. lia. }
      by rewrite Hc, (first_match_unique i 9%nat sensors machine Hi Hf).
    + assert (Hf : first_match 10 sensors machine).
      { repeat split; try lia. intros j Hj.
        destruct (decide (j = 8%nat)) as [->|]; [done|].
        destruct (decide (j = 9%nat)) as [->|]; [done|]. apply Hlow. lia. }
      by rewrite Hc, (first_match_unique i 10%nat sensors machine Hi Hf).
Qed.

Lemma tool_change_rule_witness :
  classify_state (sample_sensors 60 0.5 250 50 "PASS") (sample_machine 4)
  = Ok "Maintenance_KG:Tool_Change".
Proof.
  refine (proj1 (tool_change_rule (sample_sensors 60 0.5 250 50 "PASS")
                   (sample_machine 4) (VInt 4) _ _ _ _) _);
    try reflexivity.
  intros j Hj.
  do 8 (destruct j as [|j]; [try lia; vm_compute; reflexivity|]). lia.
Defined.

(** C7.  For every well-formed input with vibration exactly 1.5 the
    lower bound of rule 3 is strict: rule 3 does not hold (nor rule 4),
    the classifier does not return
    Cyberattack_KG:Possible_Vibration_Sabotage, and when no earlier rule
    matches the answer is that of the first matching rule among rules 5
    to 10. *)
Theorem vibration_lower_bound_strict (sensors machine : pydict) :
  wf_sensors sensors = true ->
  sensors !! "vibration" = Some (VFloat 1.5) ->
  rule_holds 3 sensors machine = false
  /\ rule_holds 4 sensors machine = false
  /\ classify_state sensors machine
     <> Ok "Cyberattack_KG:Possible_Vibration_Sabotage"
  /\ (rule_holds 1 sensors machine = false ->
      rule_holds 2 sensors machine = false ->
      exists i : nat,
        (5 <= i)%nat
        /\ first_match i sensors machine
        /\ classify_state sensors machine = Ok (rule_label i sensors)).
Proof.
  intros Hwf Hv.
  assert (Hs : scalar sensors "vibration" = Some (NFloat 1.5))
    by (unfold scalar; by rewrite Hv).
  assert (H3 : rule_holds 3 sensors machine = false).
  { cbn [rule_holds]. rewrite Hs. vm_compute. reflexivity. }
  assert (H4 : rule_holds 4 sensors machine = false).
  { cbn [rule_holds]. rewrite Hs. vm_compute. reflexivity. }
  destruct (cascade_first_match sensors machine Hwf) as (i & Hi & Hc).
  split; [done|]. split; [done|]. split.
  - rewrite Hc. intros [= Hl]. apply rule_label_vibration in Hl. subst i.
    destruct Hi as (_ & Hi & _). congruence.
  - intros H1 H2. exists i. split; [|done].
    destruct Hi as (Hr & Hi & _).
    destruct (decide (5 <= i)%nat) as [|Hn]; [done|]. exfalso.
    assert (Hcase : i = 1%nat \/ i = 2%nat \/ i = 3%nat \/ i = 4%nat) by lia.
    destruct Hcase as [-> | [-> | [-> | ->]]]; congruence.
Qed.

Lemma vibration_lower_bound_strict_witness :
  classify_state (sample_sensors 70 1.5 300 50 "PASS") (sample_machine 1)
  <> Ok "Cyberattack_KG:Possible_Vibration_Sabotage".
Proof.
  refine (proj1 (proj2 (proj2
            (vibration_lower_bound_strict
               (sample_sensors 70 1.5 300 50 "PASS") (sample_machine 1) _ _))));
    reflexivity.
Defined.

(** C9.  When the three scalar readings are numbers and one of rules 1
    to 6 holds, the classifier returns a label and reads neither the
    position nor the inspection entry: the answer is the same when both
    keys are absent, and for any other input with the same three
    scalars. *)
Theorem early_rules_skip_position (sensors machine : pydict) :
  is_Some (scalar sensors "spindle_temp") ->
  is_Some (scalar sensors "vibration") ->
  is_Some (scalar sensors "power_draw") ->
  (exists i : nat, (1 <= i <= 6)%nat /\ rule_holds i sensors machine = true) ->
  exists l : string,
    classify_state sensors machine = Ok l
    /\ l ∈ labels
    /\ classify_state (delete "position" (delete "inspection" sensors)) machine
       = Ok l
    /\ forall sensors' machine' : pydict,
         scalar sensors' "spindle_temp" = scalar sensors "spindle_temp" ->
         scalar sensors' "vibration" = scalar sensors "vibration" ->
         scalar sensors' "power_draw" = scalar sensors "power_draw" ->
         classify_state sensors' machine' = Ok l.
Proof.
  intros [t Ht] [v Hv] [p Hp] (i & Hi & Hr).
  destruct (head_rules t v p) as [l|] eqn:Hhead.
  2:{ rewrite (head_rules_none sensors machine t v p) in Hr; done. }
  exists l. split; [by apply (classify_state_head _ _ t v p)|]. split.
  { destruct (head_rules_first sensors machine t v p l) as (k & _ & _ & Hk);
      try done. rewrite <- Hk. apply rule_label_in_labels. }
  split.
  - apply (classify_state_head _ _ t v p); try done;
      unfold scalar; rewrite !lookup_delete_ne by done; done.
  - intros s' m' Ht' Hv' Hp'.
    apply (classify_state_head _ _ t v p); congruence.
Qed.

Lemma early_rules_skip_position_witness :
  exists l : string,
    classify_state
      {[ "spindle_temp" := VFloat 60; "vibration" := VFloat 2;
         "power_draw" := VFloat 300 ]} ∅ = Ok l
    /\ l ∈ labels.
Proof.
  destruct (early_rules_skip_position
              {[ "spindle_temp" := VFloat 60; "vibration" := VFloat 2;
                 "power_draw" := VFloat 300 ]} ∅) as (l & Hl & Hin & _).
  - by eexists.
  - by eexists.
  - by eexists.
  - exists 3%nat. split; [lia | reflexivity].
  - by exists l.
Defined.

(** ** JSON text and the digit limit *)

Lemma json_ok_dict (d : pydict) :
  json_ok (VDict d) = true <-> map_Forall (fun _ v => json_ok v = true) d.
Proof.
  cbn [json_ok].
  apply (map_fold_weak_ind
           (fun r m => r = true <-> map_Forall (fun _ v => json_ok v = true) m)).
  - split; [intros _; apply map_Forall_empty | done].
  - intros k v m r Hk IH.
    rewrite map_Forall_insert by done. by rewrite andb_true_iff, IH.
Qed.

Lemma json_ok_empty : json_ok (VDict ∅) = true.
Proof. apply json_ok_dict, map_Forall_empty. Qed.

Lemma json_ok_lookup (d : pydict) (k : string) (v : pyval) :
  json_ok (VDict d) = true -> d !! k = Some v -> json_ok v = true.
Proof. intros Hd%json_ok_dict Hk. by apply (Hd k). Qed.

Lemma json_ok_insert (d : pydict) (k : string) (v : pyval) :
  json_ok v = true -> json_ok (VDict d) = true ->
  json_ok (VDict (<[k := v]> d)) = true.
Proof.
  rewrite !json_ok_dict. intros Hv Hd. by apply map_Forall_insert_2.
Qed.

Lemma json_ok_singleton (k : string) (v : pyval) :
  json_ok v = true -> json_ok (VDict {[ k := v ]}) = true.
Proof.
  intros Hv. apply json_ok_dict, map_Forall_singleton. exact Hv.
Qed.

Lemma json_ok_update (d new : pydict) :
  json_ok (VDict d) = true -> json_ok (VDict new) = true ->
  json_ok (VDict (dict_update d new)) = true.
Proof.
  rewrite !json_ok_dict. intros Hd Hnew. by apply map_Forall_union_2.
Qed.

Lemma json_ok_dict_get (d : pydict) (k : string) :
  json_ok (VDict d) = true -> json_ok (dict_get d k) = true.
Proof.
  intros Hd. unfold dict_get. destruct (d !! k) as [v|] eqn:Hk; [|done].
  by apply (json_ok_lookup d k).
Qed.

Lemma json_dumps_Ok (d : pydict) :
  json_ok (VDict d) = true -> json_dumps d = Ok (JSON d).
Proof. unfold json_dumps. by intros ->. Qed.

Lemma json_dumps_inv (d : pydict) (j : json) :
  json_dumps d = Ok j -> j = JSON d /\ json_ok (VDict d) = true.
Proof.
  unfold json_dumps. destruct (json_ok (VDict d)); [|done]. by intros [= <-].
Qed.

Lemma json_loads_inv (j : json) (d : pydict) :
  json_loads j = Ok d -> j = JSON d /\ json_ok (VDict d) = true.
Proof.
  destruct j as [d']. unfold json_loads.
  destruct (json_ok (VDict d')) eqn:Hok; [|done]. by intros [= <-].
Qed.

(** What [json.dumps] wrote, [json.loads] reads back. *)
Lemma json_loads_dumps (d : pydict) (j : json) :
  json_dumps d = Ok j -> json_loads j = Ok d.
Proof.
  intros [-> Hok]%json_dumps_inv. unfold json_loads. by rewrite Hok.
Qed.

(** ** Attaching the triple *)

Lemma send_to_KG_inv (kg : KGTables) (payload_json : json) (c : string)
    (record : pydict) :
  send_to_KG kg payload_json c = Ok record ->
  exists doc : pydict,
    json_loads payload_json = Ok doc
    /\ record = <["kg_triple" := looked_up kg c]> (<["kg_node" := VStr c]> doc)
    /\ json_ok (looked_up kg c) = true.
Proof.
  unfold send_to_KG. fold (looked_up kg c).
  destruct (json_loads payload_json) as [doc|e]; [|done].
  cbn [mbind result_bind].
  destruct (json_dumps _) as [j|e] eqn:Hj; [|done].
  intros [= <-]. exists doc. split; [done|]. split; [done|].
  apply json_dumps_inv in Hj as [_ Hok].
  apply (json_ok_lookup _ "kg_triple" _ Hok), lookup_insert_eq.
Qed.

Lemma send_to_KG_Ok (kg : KGTables) (payload_json : json) (c : string)
    (doc : pydict) :
  json_loads payload_json = Ok doc ->
  json_ok (looked_up kg c) = true ->
  send_to_KG kg payload_json c
  = Ok (<["kg_triple" := looked_up kg c]> (<["kg_node" := VStr c]> doc)).
Proof.
  intros Hdoc Hok. unfold send_to_KG. fold (looked_up kg c).
  rewrite Hdoc. cbn [mbind result_bind].
  apply json_loads_inv in Hdoc as [_ Hd].
  rewrite json_dumps_Ok; [done|].
  by repeat apply json_ok_insert.
Qed.

Lemma send_to_KG_kg_triple (kg : KGTables) (payload_json : json) (c : string)
    (record : pydict) :
  send_to_KG kg payload_json c = Ok record ->
  record !! "kg_triple" = Some (looked_up kg c).
Proof. intros (doc & _ & -> & _)%send_to_KG_inv. apply lookup_insert_eq. Qed.

Lemma dict_get_Some (d : pydict) (k : string) (v : pyval) :
  d !! k = Some v -> dict_get d k = v.
Proof. unfold dict_get. by intros ->. Qed.

Lemma dict_get_None (d : pydict) (k : string) :
  d !! k = None -> dict_get d k = VNone.
Proof. unfold dict_get. by intros ->. Qed.

(** The tables that [load_kg_csv] returns hold strings only. *)
Lemma load_kg_csv_table_ok (file : option (list pydict)) (table : pydict) :
  load_kg_csv file = Ok table -> table_ok table = true.
Proof.
  destruct file as [rows|]; [|intros [= <-]; apply json_ok_empty].
  revert table. induction rows as [|row rows IH] using rev_ind; intros table.
  - intros [= <-]. apply json_ok_empty.
  - unfold load_kg_csv. rewrite foldl_app. cbn [foldl].
    fold (load_kg_csv (Some rows)).
    destruct (load_kg_csv (Some rows)) as [mapping|e]; [|done].
    cbn [mbind result_bind].
    destruct (dict_getitem row "Source entity" ≫= py_strip) as [s|e]; [|done].
    destruct (dict_getitem row "relationship" ≫= py_strip) as [r|e]; [|done].
    destruct (dict_getitem row "target entity" ≫= py_strip) as [t|e]; [|done].
    cbn [mbind result_bind]. intros [= <-].
    apply json_ok_insert; [|by apply IH].
    by repeat apply json_ok_insert.
Qed.

(** C3.  For every label the classifier emits, [send_to_KG] returns the
    record (given a payload that parses), its kg_node is the label, and
    its kg_triple is the entry of the label in the reference table of the
    label's category when that table holds the exact label string, and
    null when the table does not hold it (an empty table, which is what a
    missing source file loads as) or when there is no table, as for
    PowerDraw_KG.  A lookup miss never raises.  The entry that is attached
    is one that can be printed, as every entry of a loaded table can. *)
Theorem kg_triple_attachment (kg : KGTables) (payload_json : json)
    (doc : pydict) (l : string) :
  l ∈ labels ->
  json_loads payload_json = Ok doc ->
  (exists c : category,
      label_category l = Some c
      /\ match category_table kg c with
         | Some table =>
             (forall e : pyval,
                 table !! l = Some e -> json_ok e = true ->
                 attaches kg payload_json l e)
             /\ (table !! l = None -> attaches kg payload_json l VNone)
         | None => c = PowerDraw_KG /\ attaches kg payload_json l VNone
         end)
  /\ load_kg_csv None = Ok ∅
  /\ (forall (file : option (list pydict)) (table : pydict) (e : pyval),
         load_kg_csv file = Ok table -> table !! l = Some e ->
         json_ok e = true).
Proof.
  intros Hl Hdoc. split; [|split; [reflexivity|]].
  - assert (Hatt : json_ok (looked_up kg l) = true ->
                   attaches kg payload_json l (looked_up kg l)).
    { intros Hok. eexists. split; [by apply (send_to_KG_Ok _ _ _ doc)|].
      split; [|apply lookup_insert_eq].
      rewrite lookup_insert_ne by done. apply lookup_insert_eq. }
    revert Hatt. unfold looked_up.
    unfold labels in Hl. rewrite !elem_of_cons, elem_of_nil in Hl.
    repeat (destruct Hl as [->|Hl];
            [simpl (label_category _); simpl (str_contains _ _);
             intros Hatt; eexists; (split; [reflexivity|]);
             cbn [category_table];
             split; first [reflexivity
                          | intros e He Hok;
                            rewrite (dict_get_Some _ _ _ He) in Hatt;
                            by apply Hatt
                          | intros He;
                            rewrite (dict_get_None _ _ He) in Hatt;
                            by apply Hatt
                          | by apply Hatt] |]).
    done.
  - intros file table e Hload He.
    apply load_kg_csv_table_ok in Hload. by apply (json_ok_lookup table l).
Qed.

Lemma kg_triple_attachment_witness :
  exists payload_json : json,
    to_json (SimulationMessage_init 0 1 (sample_machine 4)
               (sample_sensors 60 1 300 50 "PASS")) = Ok payload_json
    /\ attaches sample_kg payload_json "Maintenance_KG:Tool_Change"
         (VDict {[ "relationship" := VStr "requires";
                   "target_entity" := VStr "Tool_Replacement" ]}).
Proof.
  destruct (result_Ok_inv
              (to_json (SimulationMessage_init 0 1 (sample_machine 4)
                          (sample_sensors 60 1 300 50 "PASS"))))
    as (payload_json & Hj); [by vm_compute|].
  exists payload_json. split; [exact Hj|].
  destruct (kg_triple_attachment sample_kg payload_json _
              "Maintenance_KG:Tool_Change"
              ltac:(unfold labels; rewrite !elem_of_cons; tauto)
              (json_loads_dumps _ _ Hj)) as ((c & Hc & Ht) & _).
  injection Hc as <-. apply (proj1 Ht); reflexivity.
Defined.

(** ** The tool changer *)

Section ToolChanger.
Context {rng : Type} `{!Runtime rng}.

Lemma random_choice_elem {A : Type} (seq : list A) (g : rng) :
  seq <> [] ->
  exists (x : A) (g' : rng), random_choice seq g = Ok (x, g') /\ x ∈ seq.
Proof.
  intros Hne. unfold random_choice.
  destruct seq as [|a seq]; [done|].
  pose proof (randbelow_lt (length (a :: seq)) g) as Hlt.
  destruct (randbelow (length (a :: seq)) g) as [i g'].
  destruct (lookup_lt_is_Some_2 (a :: seq) i) as [x Hx].
  { apply Hlt. simpl. lia. }
  exists x, g'. rewrite Hx. split; [done|].
  by apply (list_elem_of_lookup_2 _ i).
Qed.

Lemma check_and_change_tool_stable (self : AutomaticToolChanger)
    (cycle_id : Z) (g : rng) :
  cycle_id mod 10 <> 0 ->
  check_and_change_tool self cycle_id g = Ok ((current_tool self, self), g).
Proof.
  intros Hmod. unfold check_and_change_tool.
  destruct (Z.eqb_spec (cycle_id mod 10) 0) as [|_]; [done|]. reflexivity.
Qed.

Lemma check_and_change_tool_changing (self : AutomaticToolChanger)
    (cycle_id : Z) (g : rng) :
  cycle_id mod 10 = 0 ->
  tools self <> [] ->
  exists (t : Z) (g' : rng),
    check_and_change_tool self cycle_id g
    = Ok ((t, {| tools := tools self; current_tool := t |}), g')
    /\ t ∈ tools self.
Proof.
  intros Hmod Hne. unfold check_and_change_tool. rewrite Hmod. simpl.
  destruct (random_choice_elem (tools self) g Hne) as (t & g' & Hc & Hin).
  exists t, g'. split; [|done].
  unfold mbind, sim_bind. by rewrite Hc.
Qed.

(** Any call keeps the tool list and leaves a current tool of the list. *)
Lemma check_and_change_tool_member (self : AutomaticToolChanger)
    (cycle_id : Z) (g : rng) :
  current_tool self ∈ tools self ->
  exists (t : Z) (self' : AutomaticToolChanger) (g' : rng),
    check_and_change_tool self cycle_id g = Ok ((t, self'), g')
    /\ t = current_tool self'
    /\ tools self' = tools self
    /\ current_tool self' ∈ tools self.
Proof.
  intros Hin.
  destruct (decide (cycle_id mod 10 = 0)) as [Hmod|Hmod].
  - destruct (check_and_change_tool_changing self cycle_id g Hmod)
      as (t & g' & Hc & Ht).
    { intros Hnil. rewrite Hnil in Hin. by apply elem_of_nil in Hin. }
    by exists t, {| tools := tools self; current_tool := t |}, g'.
  - exists (current_tool self), self, g.
    by rewrite check_and_change_tool_stable.
Qed.

Lemma tool_changer_run_member (self : AutomaticToolChanger)
    (cycle_ids : list Z) (g : rng) :
  current_tool self ∈ tools self ->
  exists (self' : AutomaticToolChanger) (g' : rng),
    tool_changer_run self cycle_ids g = Ok (self', g')
    /\ tools self' = tools self
    /\ current_tool self' ∈ tools self.
Proof.
  revert self g. induction cycle_ids as [|c rest IH]; intros self g Hin.
  - by exists self, g.
  - destruct (check_and_change_tool_member self c g Hin)
      as (t & self1 & g1 & Hc & _ & Htools & Hcur).
    destruct (IH self1 g1) as (self2 & g2 & Hrun & Htools2 & Hcur2).
    { by rewrite Htools. }
    exists self2, g2. cbn [tool_changer_run]. unfold mbind, sim_bind.
    rewrite Hc. split; [done|]. rewrite Htools2, Htools in *. done.
Qed.

(** C5.  The tool changer starts on the first tool of the configured
    list; a call with a cycle id that is not a multiple of 10 leaves the
    changer as it is and returns the current tool; a call with a multiple
    of 10 sets the current tool to a member of the list and returns it;
    so after any run of calls the current tool is a member of the
    configured, non-empty list. *)
Theorem tool_changer_invariant (configured : list Z) :
  configured <> [] ->
  exists a0 : AutomaticToolChanger,
    AutomaticToolChanger_init configured = Ok a0
    /\ tools a0 = configured
    /\ head configured = Some (current_tool a0)
    /\ (forall (self : AutomaticToolChanger) (cycle_id : Z) (g : rng),
          cycle_id mod 10 <> 0 ->
          check_and_change_tool self cycle_id g
          = Ok ((current_tool self, self), g))
    /\ (forall (self : AutomaticToolChanger) (cycle_id : Z) (g : rng),
          cycle_id mod 10 = 0 ->
          tools self <> [] ->
          exists (t : Z) (g' : rng),
            check_and_change_tool self cycle_id g
            = Ok ((t, {| tools := tools self; current_tool := t |}), g')
            /\ t ∈ tools self)
    /\ (forall (cycle_ids : list Z) (g : rng),
          exists (self : AutomaticToolChanger) (g' : rng),
            tool_changer_run a0 cycle_ids g = Ok (self, g')
            /\ tools self = configured
            /\ current_tool self ∈ configured).
Proof.
  intros Hne. destruct configured as [|t ts]; [done|].
  exists {| tools := t :: ts; current_tool := t |}.
  split; [done|]. split; [done|]. split; [done|].
  split; [apply check_and_change_tool_stable|].
  split; [apply check_and_change_tool_changing|].
  intros cycle_ids g.
  apply (tool_changer_run_member {| tools := t :: ts; current_tool := t |}).
  simpl. apply list_elem_of_here.
Qed.

End ToolChanger.

Lemma tool_changer_invariant_witness :
  exists (self : AutomaticToolChanger) (g' : nat),
    tool_changer_run {| tools := default_tools; current_tool := 1 |}
      [1; 2; 10; 11; 20] 7%nat = Ok (self, g')
    /\ current_tool self ∈ default_tools.
Proof.
  destruct (tool_changer_invariant (rng := nat) default_tools)
    as (a0 & Hinit & _ & _ & _ & _ & Hrun).
  - discriminate.
  - injection Hinit as <-.
    destruct (Hrun [1; 2; 10; 11; 20] 7%nat) as (self & g' & Hr & _ & Hin).
    by exists self, g'.
Defined.

(** ** The cycle engine *)

Lemma sim_bind_Ok {rng A B : Type} (m : sim rng A) (f : A -> sim rng B)
    (g g' : rng) (a : A) :
  m g = Ok (a, g') -> (m ≫= f) g = f a g'.
Proof. intros H. unfold mbind, sim_bind. by rewrite H. Qed.

Lemma sim_bind_Err {rng A B : Type} (m : sim rng A) (f : A -> sim rng B)
    (g : rng) (e : exn) :
  m g = Err e -> (m ≫= f) g = Err e.
Proof. intros H. unfold mbind, sim_bind. by rewrite H. Qed.

Lemma sim_bind_inv {rng A B : Type} (m : sim rng A) (f : A -> sim rng B)
    (g g'' : rng) (b : B) :
  (m ≫= f) g = Ok (b, g'') ->
  exists (a : A) (g' : rng), m g = Ok (a, g') /\ f a g' = Ok (b, g'').
Proof.
  unfold mbind, sim_bind. destruct (m g) as [[a g']|e]; [|done]. eauto.
Qed.

Lemma lift_inv {rng A : Type} (r : result A) (g g' : rng) (a : A) :
  lift r g = Ok (a, g') -> r = Ok a /\ g' = g.
Proof. unfold lift. destruct r; [|done]. by intros [= -> ->]. Qed.

Lemma substitute_bundle_classified (machine : pydict) :
  classify_state substitute_bundle machine
  = Ok "Maintenance_KG:Possible_Overheating".
Proof.
  eapply classify_state_head; [reflexivity..|]. vm_compute. reflexivity.
Qed.

Section Engine.
Context {rng : Type} `{!Runtime rng}.

Lemma lift_Ok {A : Type} (r : result A) (a : A) (g : rng) :
  r = Ok a -> lift r g = Ok (a, g).
Proof. by intros ->. Qed.

Lemma read_sensor_readings_real (self : CNCFactory) (g : rng) :
  read_sensor_readings (Some "REAL") self g = Ok (substitute_bundle, g).
Proof. reflexivity. Qed.

(** *** What each machine returns *)

Lemma check_and_change_tool_total (self : AutomaticToolChanger)
    (cycle_id : Z) (g : rng) :
  tools self <> [] ->
  exists (t : Z) (self' : AutomaticToolChanger) (g' : rng),
    check_and_change_tool self cycle_id g = Ok ((t, self'), g')
    /\ tools self' = tools self.
Proof.
  intros Hne. destruct (decide (cycle_id mod 10 = 0)) as [Hmod|Hmod].
  - destruct (check_and_change_tool_changing self cycle_id g Hmod Hne)
      as (t & g' & Hc & _).
    by exists t, {| tools := tools self; current_tool := t |}, g'.
  - exists (current_tool self), self, g.
    by rewrite check_and_change_tool_stable.
Qed.

Lemma perform_operation_CNCMill (name : string) (atc : AutomaticToolChanger)
    (cycle_id : Z) (g : rng) :
  tools atc <> [] ->
  exists (op : string) (tool : Z) (atc' : AutomaticToolChanger) (g' : rng),
    perform_operation (CNCMill name atc) cycle_id g
    = Ok (({[ "operation" := VStr op; "tool_id" := VInt tool ]},
           CNCMill name atc'), g')
    /\ tools atc' = tools atc.
Proof.
  intros Hne.
  destruct (random_choice_elem ["cutting"; "drilling"; "idle"] g)
    as (op & g1 & Hop & _); [done|].
  destruct (check_and_change_tool_total atc cycle_id g1 Hne)
    as (tool & atc' & g2 & Ht & Htools).
  exists op, tool, atc', g2. split; [|done].
  cbn [perform_operation]. rewrite (sim_bind_Ok _ _ _ _ _ Hop).
  by rewrite (sim_bind_Ok _ _ _ _ _ Ht).
Qed.

Lemma perform_operation_RoboticArm (name : string) (cycle_id : Z) (g : rng) :
  exists (task : string) (g' : rng),
    perform_operation (RoboticArm name) cycle_id g
    = Ok (({[ "robotic_arm_task" := VStr task ]}, RoboticArm name), g').
Proof.
  destruct (random_choice_elem
              ["load_material"; "unload_part"; "assemble_component"; "idle"] g)
    as (task & g1 & Htask & _); [done|].
  exists task, g1. cbn [perform_operation].
  by rewrite (sim_bind_Ok _ _ _ _ _ Htask).
Qed.

(** The conveyor returns when the part number can be written, and
    raises ValueError when it has too many digits. *)
Lemma perform_operation_ConveyorBelt (name : string) (cycle_id : Z) (g : rng) :
  int_str_ok (1000 + cycle_id) = true ->
  exists (position : string) (g' : rng),
    perform_operation (ConveyorBelt name) cycle_id g
    = Ok (({[ "conveyor_position" := VStr position;
              "part_id" := VStr ("PART-" +:+ int_repr (1000 + cycle_id)) ]},
           ConveyorBelt name), g').
Proof.
  intros Hok.
  destruct (random_choice_elem
              ["Station A"; "Station B"; "Inspection"; "Exit"] g)
    as (position & g1 & Hpos & _); [done|].
  exists position, g1. cbn [perform_operation].
  rewrite (sim_bind_Ok _ _ _ _ _ Hpos).
  unfold py_str_int. by rewrite Hok.
Qed.

Lemma perform_operation_ConveyorBelt_Err (name : string) (cycle_id : Z)
    (g : rng) :
  int_str_ok (1000 + cycle_id) = false ->
  perform_operation (ConveyorBelt name) cycle_id g = Err ValueError.
Proof.
  intros Hok.
  destruct (random_choice_elem
              ["Station A"; "Station B"; "Inspection"; "Exit"] g)
    as (position & g1 & Hpos & _); [done|].
  cbn [perform_operation]. rewrite (sim_bind_Ok _ _ _ _ _ Hpos).
  unfold py_str_int. by rewrite Hok.
Qed.

Lemma perform_operation_InspectionSystem (name : string) (cycle_id : Z)
    (g : rng) :
  exists (decision : string) (confidence : float) (g' : rng),
    perform_operation (InspectionSystem name) cycle_id g
    = Ok (({[ "inspection_result" := VStr decision;
              "inspection_confidence" := VFloat confidence ]},
           InspectionSystem name), g').
Proof.
  destruct (random_choice_elem ["PASS"; "FAIL"] g)
    as (decision & g1 & Hd & _); [done|].
  cbn [perform_operation]. rewrite (sim_bind_Ok _ _ _ _ _ Hd).
  unfold random_uniform, mbind, sim_bind, mret, sim_ret.
  destruct (random_random g1) as [u g2]. by eexists _, _, _.
Qed.

(** *** The loop over the machines *)

Lemma machines_loop_cons (m m' : Machine) (rest rest' : list Machine)
    (cycle_id : Z) (md r md' : pydict) (g g1 g2 : rng) :
  perform_operation m cycle_id g = Ok ((r, m'), g1) ->
  machines_loop rest cycle_id (dict_update md r) g1 = Ok ((md', rest'), g2) ->
  machines_loop (m :: rest) cycle_id md g = Ok ((md', m' :: rest'), g2).
Proof.
  intros Hm Hrest. cbn [machines_loop].
  rewrite (sim_bind_Ok _ _ _ _ _ Hm). cbn beta iota.
  by rewrite (sim_bind_Ok _ _ _ _ _ Hrest).
Qed.

(** The loop returns exactly when every machine, called in order,
    returns, and it merges their results in that order. *)
Lemma machines_loop_operated (ms ms' : list Machine) (cycle_id : Z)
    (md md' : pydict) (g g' : rng) :
  machines_loop ms cycle_id md g = Ok ((md', ms'), g')
  <-> exists rs : list pydict,
        operated cycle_id ms g rs ms' g' /\ md' = foldl dict_update md rs.
Proof.
  revert ms' md md' g g'.
  induction ms as [|m ms IH]; intros ms' md md' g g'; cbn [machines_loop].
  - split.
    + intros [= <- <- <-]. exists []. split; [constructor|done].
    + intros (rs & Hop & ->). by inversion Hop; subst.
  - split.
    + intros ([r m1] & g1 & Hm & H)%sim_bind_inv.
      apply sim_bind_inv in H as ([md1 ms1] & g2 & Hrest & H).
      injection H as <- <- <-.
      apply IH in Hrest as (rs & Hop & ->).
      exists (r :: rs). split; [by econstructor|done].
    + intros (rs & Hop & ->).
      inversion Hop as [|? m1 ? ms1 r rs1 ? g1 ? Hm Hrest]; subst.
      apply (machines_loop_cons _ _ _ _ _ _ r _ _ g1); [done|].
      apply IH. by exists rs1.
Qed.

(** The exception of the first machine that raises is the exception of
    the loop. *)
Lemma machines_loop_raises (before after ms' : list Machine) (m : Machine)
    (cycle_id : Z) (md : pydict) (rs : list pydict) (g g1 : rng) (e : exn) :
  operated cycle_id before g rs ms' g1 ->
  perform_operation m cycle_id g1 = Err e ->
  machines_loop (before ++ m :: after) cycle_id md g = Err e.
Proof.
  intros Hop. revert md.
  induction Hop as [g|m0 m0' ms0 ms0' r rs0 g g1 g2 Hm Hrest IH];
    intros md He; cbn [app machines_loop].
  - by rewrite (sim_bind_Err _ _ _ _ He).
  - rewrite (sim_bind_Ok _ _ _ _ _ Hm). cbn beta iota.
    by rewrite (sim_bind_Err _ _ _ _ (IH _ He)).
Qed.

(** Merging four results with pairwise distinct field names loses none. *)
Lemma merge_disjoint (r1 r2 r3 r4 : pydict) :
  r1 ##ₘ r2 -> r1 ##ₘ r3 -> r1 ##ₘ r4 ->
  r2 ##ₘ r3 -> r2 ##ₘ r4 -> r3 ##ₘ r4 ->
  let md := dict_update (dict_update (dict_update (dict_update ∅ r1) r2) r3) r4 in
  r1 ⊆ md /\ r2 ⊆ md /\ r3 ⊆ md /\ r4 ⊆ md.
Proof.
  intros H12 H13 H14 H23 H24 H34. unfold dict_update. cbn zeta.
  rewrite (right_id_L ∅ (∪) r1).
  split; [|split; [|split]].
  - etrans; [|apply map_union_subseteq_r; solve_map_disjoint].
    etrans; [|apply map_union_subseteq_r; solve_map_disjoint].
    apply map_union_subseteq_r; solve_map_disjoint.
  - etrans; [|apply map_union_subseteq_r; solve_map_disjoint].
    etrans; [|apply map_union_subseteq_r; solve_map_disjoint].
    apply map_union_subseteq_l.
  - etrans; [|apply map_union_subseteq_r; solve_map_disjoint].
    apply map_union_subseteq_l.
  - apply map_union_subseteq_l.
Qed.

(** C8.  In the default configuration the four machines return results
    with the field names [{operation, tool_id}], [{robotic_arm_task}],
    [{conveyor_position, part_id}] and
    [{inspection_result, inspection_confidence}]; these are pairwise
    disjoint, so the merged [machine_data] holds every field of every
    result.  This is so for every cycle id at which the four machines
    return, that is, every id whose part number 1000 + id can be written
    in decimal; at any other id the conveyor raises ValueError and there
    is no [machine_data]. *)
Theorem default_machine_fields_disjoint (current : Z) (cycle_id : Z) (g : rng) :
  (int_str_ok (1000 + cycle_id) = true ->
   exists (r1 r2 r3 r4 : pydict) (atc' : AutomaticToolChanger)
          (g1 g2 g3 g4 : rng),
     perform_operation
       (CNCMill "CNC_Mill_1"
          {| tools := default_tools; current_tool := current |})
       cycle_id g = Ok ((r1, CNCMill "CNC_Mill_1" atc'), g1)
     /\ perform_operation (RoboticArm "Robotic_Arm_1") cycle_id g1
        = Ok ((r2, RoboticArm "Robotic_Arm_1"), g2)
     /\ perform_operation (ConveyorBelt "Conveyor_1") cycle_id g2
        = Ok ((r3, ConveyorBelt "Conveyor_1"), g3)
     /\ perform_operation (InspectionSystem "Inspection_Station") cycle_id g3
        = Ok ((r4, InspectionSystem "Inspection_Station"), g4)
     /\ dom r1 = {[ "operation"; "tool_id" ]}
     /\ dom r2 = {[ "robotic_arm_task" ]}
     /\ dom r3 = {[ "conveyor_position"; "part_id" ]}
     /\ dom r4 = {[ "inspection_result"; "inspection_confidence" ]}
     /\ (r1 ##ₘ r2 /\ r1 ##ₘ r3 /\ r1 ##ₘ r4
         /\ r2 ##ₘ r3 /\ r2 ##ₘ r4 /\ r3 ##ₘ r4)
     /\ exists md : pydict,
          machines_loop
            (default_machines
               {| tools := default_tools; current_tool := current |})
            cycle_id ∅ g
          = Ok ((md, default_machines atc'), g4)
          /\ r1 ⊆ md /\ r2 ⊆ md /\ r3 ⊆ md /\ r4 ⊆ md
          /\ dom md = machine_fields)
  /\ (int_str_ok (1000 + cycle_id) = false ->
      machines_loop
        (default_machines
           {| tools := default_tools; current_tool := current |})
        cycle_id ∅ g
      = Err ValueError).
Proof.
  destruct (perform_operation_CNCMill "CNC_Mill_1"
              {| tools := default_tools; current_tool := current |} cycle_id g)
    as (op & tool & atc' & g1 & H1 & _); [done|].
  destruct (perform_operation_RoboticArm "Robotic_Arm_1" cycle_id g1)
    as (task & g2 & H2).
  split; intros Hok.
  2:{ eapply (machines_loop_raises
                [CNCMill "CNC_Mill_1"
                   {| tools := default_tools; current_tool := current |};
                 RoboticArm "Robotic_Arm_1"]
                [InspectionSystem "Inspection_Station"]).
      - econstructor; [exact H1|]. econstructor; [exact H2|]. constructor.
      - by apply perform_operation_ConveyorBelt_Err. }
  destruct (perform_operation_ConveyorBelt "Conveyor_1" cycle_id g2 Hok)
    as (position & g3 & H3).
  destruct (perform_operation_InspectionSystem "Inspection_Station" cycle_id g3)
    as (decision & confidence & g4 & H4).
  eexists _, _, _, _, atc', g1, g2, g3, g4.
  split; [exact H1|]. split; [exact H2|]. split; [exact H3|].
  split; [exact H4|].
  split; [set_solver|]. split; [set_solver|]. split; [set_solver|].
  split; [set_solver|].
  assert (Hdisj :
    ({[ "operation" := VStr op; "tool_id" := VInt tool ]} : pydict)
      ##ₘ {[ "robotic_arm_task" := VStr task ]}
    /\ ({[ "operation" := VStr op; "tool_id" := VInt tool ]} : pydict)
      ##ₘ {[ "conveyor_position" := VStr position;
             "part_id" := VStr ("PART-" +:+ int_repr (1000 + cycle_id)) ]}
    /\ ({[ "operation" := VStr op; "tool_id" := VInt tool ]} : pydict)
      ##ₘ {[ "inspection_result" := VStr decision;
             "inspection_confidence" := VFloat confidence ]}
    /\ ({[ "robotic_arm_task" := VStr task ]} : pydict)
      ##ₘ {[ "conveyor_position" := VStr position;
             "part_id" := VStr ("PART-" +:+ int_repr (1000 + cycle_id)) ]}
    /\ ({[ "robotic_arm_task" := VStr task ]} : pydict)
      ##ₘ {[ "inspection_result" := VStr decision;
             "inspection_confidence" := VFloat confidence ]}
    /\ ({[ "conveyor_position" := VStr position;
           "part_id" := VStr ("PART-" +:+ int_repr (1000 + cycle_id)) ]}
          : pydict)
      ##ₘ {[ "inspection_result" := VStr decision;
             "inspection_confidence" := VFloat confidence ]}).
  { repeat split; apply map_disjoint_dom;
      rewrite ?dom_insert_L, ?dom_singleton_L;
      rewrite ?disjoint_union_l, ?disjoint_union_r, ?disjoint_singleton_l,
        ?not_elem_of_singleton; repeat split; discriminate. }
  split; [exact Hdisj|].
  destruct Hdisj as (H12 & H13 & H14 & H23 & H24 & H34).
  eexists. split.
  { unfold default_machines.
    eapply machines_loop_cons; [exact H1|].
    eapply machines_loop_cons; [exact H2|].
    eapply machines_loop_cons; [exact H3|].
    eapply machines_loop_cons; [exact H4|]. reflexivity. }
  pose proof (merge_disjoint _ _ _ _ H12 H13 H14 H23 H24 H34) as Hm.
  cbn zeta in Hm. destruct Hm as (? & ? & ? & ?).
  repeat (split; [done|]).
  unfold dict_update, machine_fields. set_solver.
Qed.

(** *** The emitted record *)

(** A result whose keys are spelled out holds machine fields only. *)
Ltac solve_fields :=
  unfold machine_fields; rewrite ?dom_insert_L, ?dom_singleton_L;
  apply elem_of_subseteq; intros ?;
  rewrite !elem_of_union, !elem_of_singleton; tauto.

Lemma py_str_int_inv (z : Z) (s : string) (g g' : rng) :
  lift (py_str_int z) g = Ok (s, g') ->
  s = int_repr z /\ int_str_ok z = true /\ g' = g.
Proof.
  unfold py_str_int. destruct (int_str_ok z); [|done]. by intros [= <- <-].
Qed.

Lemma perform_operation_fields (m m' : Machine) (cycle_id : Z) (r : pydict)
    (g g' : rng) :
  perform_operation m cycle_id g = Ok ((r, m'), g') ->
  dom r ⊆ machine_fields.
Proof.
  destruct m as [name|name atc|name|name|name]; cbn [perform_operation].
  - done.
  - intros (op & g1 & _ & H)%sim_bind_inv.
    apply sim_bind_inv in H as ([tool atc'] & g2 & _ & H).
    injection H as <- _ _. solve_fields.
  - intros (task & g1 & _ & H)%sim_bind_inv.
    injection H as <- _ _. solve_fields.
  - intros (position & g1 & _ & H)%sim_bind_inv.
    apply sim_bind_inv in H as (digits & g2 & _ & H).
    injection H as <- _ _. solve_fields.
  - intros (decision & g1 & _ & H)%sim_bind_inv.
    apply sim_bind_inv in H as (u & g2 & _ & H).
    injection H as <- _ _. solve_fields.
Qed.

Lemma machines_loop_fields (ms ms' : list Machine) (cycle_id : Z)
    (md md' : pydict) (g g' : rng) :
  machines_loop ms cycle_id md g = Ok ((md', ms'), g') ->
  dom md' ⊆ dom md ∪ machine_fields.
Proof.
  revert ms' md md' g g'.
  induction ms as [|m rest IH]; intros ms' md md' g g'; cbn [machines_loop].
  - intros [= <- _ _]. set_solver.
  - intros ([r m1] & g1 & Hm & H)%sim_bind_inv.
    apply sim_bind_inv in H as ([md1 rest1] & g2 & Hrest & H).
    injection H as <- _ _.
    apply perform_operation_fields in Hm. apply IH in Hrest.
    unfold dict_update in Hrest. rewrite dom_union_L in Hrest.
    etrans; [exact Hrest|].
    apply union_least; [apply union_least|];
      [ etrans; [exact Hm | apply union_subseteq_r]
      | apply union_subseteq_l
      | apply union_subseteq_r ].
Qed.

(** What [to_json] wrote and [json.loads] read back is the payload. *)
Lemma json_loads_to_json (self : SimulationMessage) (doc : pydict) :
  to_json self ≫= json_loads = Ok doc -> doc = payload self.
Proof.
  unfold to_json. destruct (json_dumps (payload self)) as [j|e] eqn:Hj; [|done].
  cbn [mbind result_bind]. rewrite (json_loads_dumps _ _ Hj). by intros [= <-].
Qed.

Lemma payload_lookup (self : SimulationMessage) (k : string) :
  payload self !! k
  = match msg_sensors self !! k with
    | Some v => Some v
    | None =>
        match msg_machine self !! k with
        | Some v => Some v
        | None =>
            if decide (k = "timestamp")
            then Some (VFloat (msg_timestamp self))
            else if decide (k = "cycle_id")
            then Some (VInt (msg_cycle_id self))
            else None
        end
    end.
Proof.
  unfold payload, dict_update. rewrite !lookup_union.
  destruct (msg_sensors self !! k) as [v|]; [by rewrite union_Some_l|].
  rewrite (left_id_L None union).
  destruct (msg_machine self !! k) as [v|]; [by rewrite union_Some_l|].
  rewrite (left_id_L None union).
  destruct (decide (k = "timestamp")) as [->|Hts]; [by rewrite lookup_insert_eq|].
  rewrite lookup_insert_ne by done.
  destruct (decide (k = "cycle_id")) as [->|Hid]; [by rewrite lookup_insert_eq|].
  by rewrite lookup_insert_ne.
Qed.

(** The payload can be written when the cycle id, the machine data and
    the sensor readings can. *)
Lemma payload_ok (now : float) (cycle_id : Z) (md sr : pydict) :
  int_str_ok cycle_id = true ->
  json_ok (VDict md) = true -> json_ok (VDict sr) = true ->
  json_ok (VDict (payload (SimulationMessage_init now cycle_id md sr))) = true.
Proof.
  intros Hid Hmd Hsr. unfold payload.
  cbn [msg_sensors msg_machine msg_timestamp msg_cycle_id
       SimulationMessage_init].
  apply json_ok_update; [|exact Hsr]. apply json_ok_update; [|exact Hmd].
  apply json_ok_insert; [reflexivity|].
  apply json_ok_insert; [exact Hid|apply json_ok_empty].
Qed.

Lemma kg_ok_looked_up (kg : KGTables) (c : string) :
  kg_ok kg = true -> json_ok (looked_up kg c) = true.
Proof.
  unfold kg_ok, table_ok. rewrite !andb_true_iff. intros [[Hm Hn] Hc].
  unfold looked_up. repeat case_match; try done; by apply json_ok_dict_get.
Qed.

(** *** The steps of a cycle *)

Lemma run_cycle_steps (kg : KGTables) (env_MODE : option string) (now : float)
    (self self' : CNCFactory) (cycle_id : Z) (c : cycle) (g g' : rng) :
  run_cycle kg env_MODE now self cycle_id g = Ok ((c, self'), g')
  <-> exists (g1 : rng) (payload_json : json),
        machines_loop (machines self) cycle_id ∅ g
        = Ok ((machine_data c, machines self'), g1)
        /\ read_sensor_readings env_MODE self g1
           = Ok (sensor_readings c, g')
        /\ classify_state (sensor_readings c) (machine_data c)
           = Ok (classification c)
        /\ to_json (SimulationMessage_init now cycle_id (machine_data c)
                      (sensor_readings c)) = Ok payload_json
        /\ send_to_KG kg payload_json (classification c) = Ok (emitted c)
        /\ sensors self' = sensors self.
Proof.
  unfold run_cycle. split.
  - intros ([md ms'] & g1 & Hm & H)%sim_bind_inv.
    apply sim_bind_inv in H as (sr & g2 & Hsr & H).
    apply sim_bind_inv in H as (cl & g3 & [Hcl ->]%lift_inv & H).
    apply sim_bind_inv in H as (j & g4 & [Hj ->]%lift_inv & H).
    apply sim_bind_inv in H as (record & g5 & [Hrec ->]%lift_inv & H).
    injection H as <- <- <-. by exists g1, j.
  - intros (g1 & j & Hm & Hsr & Hcl & Hj & Hrec & Hs).
    destruct c as [md sr cl record], self' as [ms' ss']. cbn in *. subst ss'.
    rewrite (sim_bind_Ok _ _ _ _ _ Hm). cbn beta iota.
    rewrite (sim_bind_Ok _ _ _ _ _ Hsr).
    rewrite (sim_bind_Ok _ _ _ _ _ (lift_Ok _ _ _ Hcl)).
    rewrite (sim_bind_Ok _ _ _ _ _ (lift_Ok _ _ _ Hj)).
    by rewrite (sim_bind_Ok _ _ _ _ _ (lift_Ok _ _ _ Hrec)).
Qed.

(** A cycle returns when its machines, its sensors and the classifier
    return and the identifiers and tables can be written. *)
Lemma run_cycle_Ok (kg : KGTables) (env_MODE : option string) (now : float)
    (self : CNCFactory) (cycle_id : Z) (md sr : pydict) (ms' : list Machine)
    (cl : string) (g g1 g2 : rng) :
  machines_loop (machines self) cycle_id ∅ g = Ok ((md, ms'), g1) ->
  read_sensor_readings env_MODE self g1 = Ok (sr, g2) ->
  classify_state sr md = Ok cl ->
  int_str_ok cycle_id = true ->
  json_ok (VDict md) = true -> json_ok (VDict sr) = true ->
  json_ok (looked_up kg cl) = true ->
  exists c : cycle,
    run_cycle kg env_MODE now self cycle_id g
    = Ok ((c, {| machines := ms'; sensors := sensors self |}), g2)
    /\ machine_data c = md /\ sensor_readings c = sr
    /\ classification c = cl.
Proof.
  intros Hm Hsr Hcl Hid Hmd Hsrok Hkg.
  pose proof (payload_ok now cycle_id md sr Hid Hmd Hsrok) as Hpay.
  exists {| machine_data := md; sensor_readings := sr; classification := cl;
            emitted := <["kg_triple" := looked_up kg cl]>
                         (<["kg_node" := VStr cl]>
                            (payload (SimulationMessage_init now cycle_id
                                        md sr))) |}.
  split; [|done]. apply run_cycle_steps.
  exists g1, (JSON (payload (SimulationMessage_init now cycle_id md sr))).
  cbn [machine_data sensor_readings classification emitted machines sensors].
  split; [done|]. split; [done|]. split; [done|].
  split; [by apply json_dumps_Ok|]. split; [|done].
  apply send_to_KG_Ok; [|done]. unfold json_loads. by rewrite Hpay.
Qed.

Lemma run_cycle_inv (kg : KGTables) (env_MODE : option string) (now : float)
    (self self' : CNCFactory) (cycle_id : Z) (c : cycle) (g g' : rng) :
  run_cycle kg env_MODE now self cycle_id g = Ok ((c, self'), g') ->
  dom (machine_data c) ⊆ machine_fields
  /\ emitted c
     = <["kg_triple" := looked_up kg (classification c)]>
         (<["kg_node" := VStr (classification c)]>
            (payload (SimulationMessage_init now cycle_id (machine_data c)
                        (sensor_readings c)))).
Proof.
  intros (g1 & j & Hm & _ & _ & Hj & Hrec & _)%run_cycle_steps. split.
  - apply machines_loop_fields in Hm. set_solver.
  - apply send_to_KG_inv in Hrec as (doc & Hdoc & -> & _).
    apply json_loads_dumps in Hj. rewrite Hj in Hdoc. by injection Hdoc as <-.
Qed.

(** C6.  When MODE is REAL, a cycle that returns has taken exactly the
    fixed substitute bundle as its sensor readings and has drawn nothing
    for the sensors: every machine of the factory was operated, in the
    order of the list, each from the random state its predecessor left,
    the random state after the last machine is that of the cycle, and
    [machine_data] is the results merged in that order.  The machines do
    the same in every mode: whenever they all return, the [machine_data]
    and the machines of a cycle are the merged results and the machines
    after their calls, whatever the mode; the REAL cycle then returns
    (provided the cycle id, the merged results and the tables can be
    written as JSON); and when a machine raises, the cycle raises its
    exception in every mode. *)
Theorem real_mode_substitutes_sensors (kg : KGTables) (now : float)
    (self : CNCFactory) (cycle_id : Z) (g : rng) :
  (forall (c : cycle) (self' : CNCFactory) (g' : rng),
      run_cycle kg (Some "REAL") now self cycle_id g = Ok ((c, self'), g') ->
      sensor_readings c = substitute_bundle
      /\ classification c = "Maintenance_KG:Possible_Overheating"
      /\ sensors self' = sensors self
      /\ exists rs : list pydict,
           operated cycle_id (machines self) g rs (machines self') g'
           /\ machine_data c = merged rs)
  /\ (forall (rs : list pydict) (ms' : list Machine) (g1 : rng),
        operated cycle_id (machines self) g rs ms' g1 ->
        (forall (env_MODE : option string) (c : cycle) (self' : CNCFactory)
                (g' : rng),
            run_cycle kg env_MODE now self cycle_id g = Ok ((c, self'), g') ->
            machine_data c = merged rs /\ machines self' = ms')
        /\ (int_str_ok cycle_id = true ->
            json_ok (VDict (merged rs)) = true ->
            kg_ok kg = true ->
            exists c : cycle,
              run_cycle kg (Some "REAL") now self cycle_id g
              = Ok ((c, {| machines := ms'; sensors := sensors self |}), g1)))
  /\ (forall (before after ms' : list Machine) (m : Machine)
             (rs : list pydict) (g1 : rng) (e : exn),
        machines self = (before ++ m :: after)%list ->
        operated cycle_id before g rs ms' g1 ->
        perform_operation m cycle_id g1 = Err e ->
        forall env_MODE : option string,
          run_cycle kg env_MODE now self cycle_id g = Err e).
Proof.
  split; [|split].
  - intros c self' g' (g1 & j & Hm & Hsr & Hcl & _ & _ & Hs)%run_cycle_steps.
    rewrite read_sensor_readings_real in Hsr. injection Hsr as Hsr <-.
    rewrite <- Hsr in Hcl |- *.
    rewrite substitute_bundle_classified in Hcl. injection Hcl as <-.
    split; [done|]. split; [done|]. split; [done|].
    by apply machines_loop_operated in Hm.
  - intros rs ms' g1 Hop.
    assert (Hm : machines_loop (machines self) cycle_id ∅ g
                 = Ok ((merged rs, ms'), g1))
      by (apply machines_loop_operated; by exists rs).
    split.
    + intros env_MODE c self' g' (g2 & j & Hm' & _)%run_cycle_steps.
      rewrite Hm in Hm'. by injection Hm' as <- <- _.
    + intros Hid Hmd Hkg.
      assert (Hsr : json_ok (VDict substitute_bundle) = true)
        by (vm_compute; reflexivity).
      destruct (run_cycle_Ok kg (Some "REAL") now self cycle_id (merged rs)
                  substitute_bundle ms' "Maintenance_KG:Possible_Overheating"
                  g g1 g1 Hm (read_sensor_readings_real self g1)
                  (substitute_bundle_classified _) Hid Hmd Hsr
                  (kg_ok_looked_up _ _ Hkg)) as (c & Hrun & _).
      by exists c.
  - intros before after ms' m rs g1 e Hms Hop He env_MODE.
    unfold run_cycle. apply sim_bind_Err. rewrite Hms.
    by apply (machines_loop_raises _ _ ms' _ _ _ rs _ g1).
Qed.

(** C10.  [to_json] merges cycle_id, timestamp, then the machine fields,
    then the sensor readings, and the last write wins: in the document
    that [to_json] wrote, a key of the sensor readings carries the
    sensor's value, otherwise a key of the machine data carries the
    machine's value, otherwise cycle_id and timestamp carry their own.
    So in the record that a cycle emits, a sensor name that coincides
    with a machine field, with cycle_id or with timestamp carries the
    sensor's value. *)
Theorem sensor_fields_win :
  (forall (self : SimulationMessage) (doc : pydict) (k : string) (v : pyval),
      to_json self ≫= json_loads = Ok doc ->
      msg_sensors self !! k = Some v ->
      doc !! k = Some v)
  /\ (forall (self : SimulationMessage) (doc : pydict) (k : string)
             (v : pyval),
        to_json self ≫= json_loads = Ok doc ->
        msg_sensors self !! k = None ->
        msg_machine self !! k = Some v ->
        doc !! k = Some v)
  /\ (forall (self : SimulationMessage) (doc : pydict),
        to_json self ≫= json_loads = Ok doc ->
        msg_sensors self !! "cycle_id" = None ->
        msg_machine self !! "cycle_id" = None ->
        doc !! "cycle_id" = Some (VInt (msg_cycle_id self)))
  /\ (forall (self : SimulationMessage) (doc : pydict),
        to_json self ≫= json_loads = Ok doc ->
        msg_sensors self !! "timestamp" = None ->
        msg_machine self !! "timestamp" = None ->
        doc !! "timestamp" = Some (VFloat (msg_timestamp self)))
  /\ (forall (kg : KGTables) (env_MODE : option string) (now : float)
             (self self' : CNCFactory) (cycle_id : Z) (c : cycle) (g g' : rng)
             (k : string) (v : pyval),
        run_cycle kg env_MODE now self cycle_id g = Ok ((c, self'), g') ->
        sensor_readings c !! k = Some v ->
        is_Some (machine_data c !! k) \/ k = "cycle_id" \/ k = "timestamp" ->
        emitted c !! k = Some v).
Proof.
  split; [|split; [|split; [|split]]].
  - intros self doc k v ->%json_loads_to_json Hs.
    by rewrite payload_lookup, Hs.
  - intros self doc k v ->%json_loads_to_json Hs Hm.
    by rewrite payload_lookup, Hs, Hm.
  - intros self doc ->%json_loads_to_json Hs Hm.
    by rewrite payload_lookup, Hs, Hm.
  - intros self doc ->%json_loads_to_json Hs Hm.
    by rewrite payload_lookup, Hs, Hm.
  - intros kg env_MODE now self self' cycle_id c g g' k v Hrun Hs Hk.
    apply run_cycle_inv in Hrun as [Hdom ->].
    assert (k <> "kg_node" /\ k <> "kg_triple") as [Hn Ht].
    { destruct Hk as [Hk%elem_of_dom|[->| ->]]; [|done..].
      apply Hdom in Hk. unfold machine_fields in Hk.
      rewrite !elem_of_union, !elem_of_singleton in Hk.
      split; intros ->; repeat destruct Hk as [Hk|Hk]; discriminate. }
    rewrite !lookup_insert_ne, payload_lookup by done.
    cbn [msg_sensors SimulationMessage_init]. by rewrite Hs.
Qed.

End Engine.

(** ** Runs on the scripted random source *)

Lemma sensor_fields_win_witness :
  exists (c : cycle) (self' : CNCFactory) (g' : nat),
    run_cycle sample_kg None 0 colliding_factory 10 0%nat = Ok ((c, self'), g')
    /\ machine_data c !! "tool_id" = Some (VInt 2)
    /\ sensor_readings c !! "tool_id" = Some (VFloat 325)
    /\ emitted c !! "tool_id" = Some (VFloat 325).
Proof.
  assert (Hfacts :
    match run_cycle sample_kg None 0 colliding_factory 10 0%nat with
    | Ok ((c, _), _) =>
        machine_data c !! "tool_id" = Some (VInt 2)
        /\ sensor_readings c !! "tool_id" = Some (VFloat 325)
    | Err _ => False
    end) by (vm_compute; split; reflexivity).
  destruct (result_Ok_inv
              (run_cycle sample_kg None 0 colliding_factory 10 0%nat))
    as ([[c self'] g'] & Hrun); [by vm_compute|].
  rewrite Hrun in Hfacts. destruct Hfacts as [Hm Hs].
  exists c, self', g'. split; [exact Hrun|].
  split; [exact Hm|]. split; [exact Hs|].
  refine (proj2 (proj2 (proj2 (proj2 sensor_fields_win)))
            sample_kg None 0%float colliding_factory self' 10 c 0%nat g'
            "tool_id" (VFloat 325) Hrun Hs _).
  left. by rewrite Hm.
Defined.

Lemma real_mode_substitutes_sensors_witness :
  exists (c c0 : cycle) (self' self0 : CNCFactory) (g' g0 : nat)
         (rs : list pydict),
    run_cycle sample_kg (Some "REAL") 0 colliding_factory 10 0%nat
    = Ok ((c, self'), g')
    /\ run_cycle sample_kg None 0 colliding_factory 10 0%nat
       = Ok ((c0, self0), g0)
    /\ sensor_readings c = substitute_bundle
    /\ operated 10 (machines colliding_factory) 0%nat rs (machines self') g'
    /\ machine_data c = merged rs
    /\ machine_data c0 = merged rs.
Proof.
  destruct (result_Ok_inv
              (run_cycle sample_kg (Some "REAL") 0 colliding_factory 10 0%nat))
    as ([[c self'] g'] & Hrun); [by vm_compute|].
  destruct (result_Ok_inv
              (run_cycle sample_kg None 0 colliding_factory 10 0%nat))
    as ([[c0 self0] g0] & Hrun0); [by vm_compute|].
  destruct (real_mode_substitutes_sensors sample_kg 0%float colliding_factory
              10 0%nat) as (Hreal & Hany & _).
  destruct (Hreal c self' g' Hrun) as (Hsr & _ & _ & rs & Hop & Hmd).
  destruct (Hany rs (machines self') g' Hop) as [Hsame _].
  destruct (Hsame None c0 self0 g0 Hrun0) as [Hmd0 _].
  exists c, c0, self', self0, g', g0, rs.
  exact (conj Hrun (conj Hrun0 (conj Hsr (conj Hop (conj Hmd Hmd0))))).
Defined.

Lemma default_machine_fields_disjoint_witness :
  (exists (md : pydict) (atc' : AutomaticToolChanger) (g' : nat),
      machines_loop
        (default_machines {| tools := default_tools; current_tool := 1 |})
        7 ∅ 0%nat
      = Ok ((md, default_machines atc'), g')
      /\ dom md = machine_fields)
  /\ machines_loop
       (default_machines {| tools := default_tools; current_tool := 1 |})
       (10 ^ 4300) ∅ 0%nat
     = Err ValueError.
Proof.
  split.
  - destruct (proj1 (default_machine_fields_disjoint 1 7 0%nat) eq_refl)
      as (r1 & r2 & r3 & r4 & atc' & g1 & g2 & g3 & g4 & _ & _ & _ & _ & _ & _
          & _ & _ & _ & md & Hloop & _ & _ & _ & _ & Hdom).
    exists md, atc', g4. exact (conj Hloop Hdom).
  - apply (proj2 (default_machine_fields_disjoint 1 (10 ^ 4300) 0%nat)).
    vm_compute. reflexivity.
Defined.

Example run_cycle_real_mode :
  match run_cycle sample_kg (Some "REAL") 0 colliding_factory 10 0%nat with
  | Ok ((c, self'), g') =>
      sensor_readings c !! "spindle_temp" = Some (VFloat 82.5)
      /\ machine_data c !! "tool_id" = Some (VInt 2)
      /\ classification c = "Maintenance_KG:Possible_Overheating"
      /\ emitted c !! "kg_triple" = Some VNone
      /\ g' = 6%nat
  | Err _ => False
  end.
Proof. vm_compute. repeat split; reflexivity. Qed.

(** * Further properties *)

(** ** The classifier: what it reads and how it fails *)

Lemma dict_getitem_None (d : pydict) (k : string) :
  d !! k = None -> dict_getitem d k = Err (KeyError k).
Proof. unfold dict_getitem. by intros ->. Qed.

(** X1.  The classifier reads five entries of the sensor readings and
    the tool id of the machine data, nothing else: two inputs that agree
    on these six entries get the same answer, the same label or the same
    exception. *)
Theorem classify_state_reads_six_entries
    (sensors sensors' machine machine' : pydict) :
  sensors' !! "spindle_temp" = sensors !! "spindle_temp" ->
  sensors' !! "vibration" = sensors !! "vibration" ->
  sensors' !! "power_draw" = sensors !! "power_draw" ->
  sensors' !! "position" = sensors !! "position" ->
  sensors' !! "inspection" = sensors !! "inspection" ->
  machine' !! "tool_id" = machine !! "tool_id" ->
  classify_state sensors' machine' = classify_state sensors machine.
Proof.
  intros Ht Hv Hp Hpos Hi Htool.
  unfold classify_state, dict_get, dict_getitem.
  by rewrite Ht, Hv, Hp, Hpos, Hi, Htool.
Qed.

Lemma classify_state_reads_six_entries_witness :
  classify_state
    (<["humidity" := VFloat 40]> (sample_sensors 60 1 300 57 "PASS"))
    (<["operation" := VStr "idle"]> (sample_machine 4))
  = classify_state (sample_sensors 60 1 300 57 "PASS") (sample_machine 4).
Proof.
  apply (classify_state_reads_six_entries
           (sample_sensors 60 1 300 57 "PASS")
           (<["humidity" := VFloat 40]> (sample_sensors 60 1 300 57 "PASS"))
           (sample_machine 4)
           (<["operation" := VStr "idle"]> (sample_machine 4)));
    reflexivity.
Defined.

Lemma classify_state_no_spindle_temp (sensors machine : pydict) :
  sensors !! "spindle_temp" = None ->
  classify_state sensors machine = Err (KeyError "spindle_temp").
Proof.
  intros Ht. unfold classify_state.
  by rewrite (dict_getitem_None _ _ Ht).
Qed.

Lemma classify_state_no_position (sensors machine : pydict) (t v p : num) :
  scalar sensors "spindle_temp" = Some t ->
  scalar sensors "vibration" = Some v ->
  scalar sensors "power_draw" = Some p ->
  head_rules t v p = None ->
  sensors !! "position" = None ->
  classify_state sensors machine = Err (KeyError "position").
Proof.
  intros Ht Hv Hp Hhead Hpos. revert Hhead.
  unfold classify_state, head_rules, py_gt, py_ge, py_lt, py_le.
  rewrite !(py_cmp_scalar _ _ _ _ _ Ht), !(py_cmp_scalar _ _ _ _ _ Hv),
    !(py_cmp_scalar _ _ _ _ _ Hp), !and_then_Ok.
  cbn [mbind result_bind].
  repeat (split_cmp; try discriminate).
  all: intros _; by rewrite (dict_getitem_None _ _ Hpos).
Qed.

Lemma classify_state_no_inspection (sensors machine : pydict) (t v p d : num) :
  scalar sensors "spindle_temp" = Some t ->
  scalar sensors "vibration" = Some v ->
  scalar sensors "power_draw" = Some p ->
  head_rules t v p = None ->
  max_dev sensors = Some d ->
  num_gt d (NFloat 5) && num_le d (NFloat 10) || num_gt d (NFloat 10) = false ->
  tool_change machine = false ->
  sensors !! "inspection" = None ->
  classify_state sensors machine = Err (KeyError "inspection").
Proof.
  intros Ht Hv Hp Hhead (pos & Hpos & Hmax)%max_dev_Some H7 Htool Hinsp.
  apply orb_false_elim in H7 as [H5 H10].
  revert Hhead.
  unfold classify_state, head_rules, py_gt, py_ge, py_lt, py_le.
  rewrite !(py_cmp_scalar _ _ _ _ _ Ht), !(py_cmp_scalar _ _ _ _ _ Hv),
    !(py_cmp_scalar _ _ _ _ _ Hp), !and_then_Ok.
  cbn [mbind result_bind].
  repeat (split_cmp; try discriminate).
  all: intros _; rewrite (dict_getitem_Some _ _ _ Hpos).
  all: cbn [mbind result_bind]; rewrite Hmax; cbn [mbind result_bind].
  all: rewrite and_then_Ok, tool_guard, (dict_getitem_None _ _ Hinsp).
  all: unfold TOLERANCE_WARNING, TOLERANCE_CRITICAL.
  all: by rewrite H5, H10, Htool.
Qed.

Lemma no_head_rule (sensors machine : pydict) (t v p : num) :
  scalar sensors "spindle_temp" = Some t ->
  scalar sensors "vibration" = Some v ->
  scalar sensors "power_draw" = Some p ->
  (forall j : nat, (1 <= j <= 6)%nat -> rule_holds j sensors machine = false) ->
  head_rules t v p = None.
Proof.
  intros Ht Hv Hp Hlow.
  destruct (head_rules t v p) as [l|] eqn:Hhead; [|done].
  destruct (head_rules_first sensors machine t v p l)
    as (i & Hi & (Hr & Hh & _) & _); try done.
  rewrite Hlow in Hh; [done | lia].
Qed.

(** X2.  A missing entry is an error that names it, raised when the
    cascade reaches the entry: without spindle_temp the classifier raises
    KeyError at once; without position it raises KeyError when none of
    rules 1 to 6 holds; without inspection it raises KeyError when none of
    rules 1 to 8 holds.  No default value stands in for a missing entry. *)
Theorem classify_state_missing_entry (sensors machine : pydict) :
  (sensors !! "spindle_temp" = None ->
   classify_state sensors machine = Err (KeyError "spindle_temp"))
  /\ (is_Some (scalar sensors "spindle_temp") ->
      is_Some (scalar sensors "vibration") ->
      is_Some (scalar sensors "power_draw") ->
      (forall j : nat, (1 <= j <= 6)%nat ->
                       rule_holds j sensors machine = false) ->
      (sensors !! "position" = None ->
       classify_state sensors machine = Err (KeyError "position"))
      /\ (is_Some (max_dev sensors) ->
          rule_holds 7 sensors machine = false ->
          rule_holds 8 sensors machine = false ->
          sensors !! "inspection" = None ->
          classify_state sensors machine = Err (KeyError "inspection"))).
Proof.
  split; [apply classify_state_no_spindle_temp|].
  intros [t Ht] [v Hv] [p Hp] Hlow.
  pose proof (no_head_rule sensors machine t v p Ht Hv Hp Hlow) as Hhead.
  split; [by apply (classify_state_no_position _ _ t v p)|].
  intros [d Hd] H7 H8 Hinsp.
  apply (classify_state_no_inspection _ _ t v p d); try done.
  cbn [rule_holds] in H7. by rewrite Hd in H7.
Qed.

Lemma classify_state_missing_entry_witness :
  classify_state (delete "position" (sample_sensors 60 1 300 50 "PASS"))
    (sample_machine 1) = Err (KeyError "position")
  /\ classify_state (delete "inspection" (sample_sensors 60 1 300 50 "PASS"))
       (sample_machine 1) = Err (KeyError "inspection").
Proof.
  split.
  - refine (proj1 (proj2 (classify_state_missing_entry
                            (delete "position"
                               (sample_sensors 60 1 300 50 "PASS"))
                            (sample_machine 1)) _ _ _ _) _);
      try (by eexists); try reflexivity.
    intros j Hj.
    do 7 (destruct j as [|j]; [try lia; vm_compute; reflexivity|]). lia.
  - refine (proj2 (proj2 (classify_state_missing_entry
                            (delete "inspection"
                               (sample_sensors 60 1 300 50 "PASS"))
                            (sample_machine 1)) _ _ _ _) _ _ _ _);
      try (by eexists); try reflexivity.
    intros j Hj.
    do 7 (destruct j as [|j]; [try lia; vm_compute; reflexivity|]). lia.
Defined.

(** ** The two revisions of the classifier *)

Lemma first_revision_cascade (sensors machine : pydict) (t v : num)
    (insp : pyval) :
  scalar sensors "spindle_temp" = Some t ->
  scalar sensors "vibration" = Some v ->
  sensors !! "inspection" = Some insp ->
  FirstRevision.classify_state sensors machine
  = Ok (if num_gt t (NInt 90) then "Maintenance_KG:Spindle_Overheat"
        else if num_gt v (NFloat 3.5) then "Cyberattack_KG:Vibration_Sabotage"
        else if tool_change machine then "Maintenance_KG:Tool_Change"
        else if py_eq_str insp "FAIL" then "Normal_KG:Inspection_Fail"
        else "Normal_KG:Operation_Normal").
Proof.
  intros Ht Hv Hi. unfold FirstRevision.classify_state, py_gt.
  rewrite (py_cmp_scalar _ _ _ _ _ Ht), (py_cmp_scalar _ _ _ _ _ Hv),
    tool_guard, (dict_getitem_Some _ _ _ Hi).
  cbn [mbind result_bind].
  destruct (num_gt t (NInt 90)); [done|].
  destruct (num_gt v (NFloat 3.5)); [done|].
  destruct (tool_change machine); [done|].
  by destruct (py_eq_str insp "FAIL").
Qed.

Lemma revisions_agree_tail (sensors machine : pydict) :
  wf_sensors sensors = true ->
  (forall j : nat, (1 <= j <= 7)%nat -> rule_holds j sensors machine = false) ->
  FirstRevision.classify_state sensors machine
  = classify_state sensors machine.
Proof.
  intros (t & v & p & d & insp & Ht & Hv & Hp & Hd & Hi)%wf_sensors_readings
    Hlow.
  rewrite (first_revision_cascade _ _ t v insp Ht Hv Hi).
  rewrite (classify_state_tail sensors machine t v p d insp); try done.
  2:{ apply (no_head_rule sensors machine); try done.
      intros j Hj. apply Hlow. lia. }
  pose proof (Hlow 2%nat ltac:(lia)) as H2.
  pose proof (Hlow 4%nat ltac:(lia)) as H4.
  pose proof (Hlow 7%nat ltac:(lia)) as H7.
  cbn [rule_holds] in H2, H4, H7. rewrite Ht in H2. rewrite Hv in H4.
  rewrite Hd in H7. cbn [sat] in H2, H4, H7.
  apply orb_false_elim in H7 as [H7 H7'].
  unfold tail_rules. by rewrite H2, H4, H7, H7'.
Qed.

(** X3.  The first revision of the classifier (four rules) and the final
    one (ten rules) give the same label on every well-formed input on
    which none of the final rules 1 to 7 holds; and the first revision
    answers from spindle_temp, vibration, inspection and the tool id
    alone, with or without power_draw and position. *)
Theorem revisions_agree (sensors machine : pydict) :
  (wf_sensors sensors = true ->
   (forall j : nat, (1 <= j <= 7)%nat ->
                    rule_holds j sensors machine = false) ->
   FirstRevision.classify_state sensors machine
   = classify_state sensors machine)
  /\ (is_Some (scalar sensors "spindle_temp") ->
      is_Some (scalar sensors "vibration") ->
      is_Some (sensors !! "inspection") ->
      exists l : string,
        FirstRevision.classify_state sensors machine = Ok l
        /\ FirstRevision.classify_state
             (delete "power_draw" (delete "position" sensors)) machine
           = Ok l).
Proof.
  split; [apply revisions_agree_tail|].
  intros [t Ht] [v Hv] [insp Hi].
  eexists. split; [by apply (first_revision_cascade _ _ t v insp)|].
  apply (first_revision_cascade _ _ t v insp);
    unfold scalar; rewrite ?lookup_delete_ne by done; done.
Qed.

Lemma revisions_agree_witness :
  FirstRevision.classify_state (sample_sensors 60 1 300 50 "FAIL")
    (sample_machine 1)
  = classify_state (sample_sensors 60 1 300 50 "FAIL") (sample_machine 1).
Proof.
  apply (proj1 (revisions_agree (sample_sensors 60 1 300 50 "FAIL")
                  (sample_machine 1))); [reflexivity|].
  intros j Hj.
  do 8 (destruct j as [|j]; [try lia; vm_compute; reflexivity|]). lia.
Defined.

(** ** Boundaries of the power rules *)

Lemma head_rules_power_350 (t v : num) :
  head_rules t v (NFloat 350)
  = if num_gt t (NInt 75) && num_le t (NInt 90)
    then Some "Maintenance_KG:Possible_Overheating"
    else if num_gt t (NInt 90) then Some "Maintenance_KG:Spindle_Overheat"
    else if num_gt v (NFloat 1.5) && num_le v (NFloat 3.5)
    then Some "Cyberattack_KG:Possible_Vibration_Sabotage"
    else if num_gt v (NFloat 3.5)
    then Some "Cyberattack_KG:Likely_Vibration_Sabotage"
    else Some "PowerDraw_KG:Possible_Elevated_Load".
Proof.
  unfold head_rules.
  assert (H1 : num_gt (NFloat 350) (NInt 350) = false) by (vm_compute; reflexivity).
  assert (H2 : num_ge (NFloat 350) (NInt 400) = false) by (vm_compute; reflexivity).
  assert (H3 : num_ge (NFloat 350) (NInt 350) = true) by (vm_compute; reflexivity).
  assert (H4 : num_lt (NFloat 350) (NInt 400) = true) by (vm_compute; reflexivity).
  by rewrite H1, H2, H3, H4.
Qed.

Lemma head_rules_power_400 (t v : num) :
  head_rules t v (NFloat 400)
  = if num_gt t (NInt 75) && num_le t (NInt 90)
    then Some "Maintenance_KG:Possible_Overheating"
    else if num_gt t (NInt 90) then Some "Cyberattack_KG:Likely_Glitch/Firmware"
    else if num_gt v (NFloat 1.5) && num_le v (NFloat 3.5)
    then Some "Cyberattack_KG:Possible_Vibration_Sabotage"
    else if num_gt v (NFloat 3.5)
    then Some "Cyberattack_KG:Likely_Vibration_Sabotage"
    else Some "PowerDraw_KG:High_Power_Consumption".
Proof.
  unfold head_rules.
  assert (H1 : num_lt (NFloat 400) (NInt 400) = false) by (vm_compute; reflexivity).
  assert (H2 : num_ge (NFloat 400) (NInt 400) = true) by (vm_compute; reflexivity).
  rewrite H1, H2, !andb_false_r. reflexivity.
Qed.

(** X4.  The bounds of the power rules at their edges.  With the three
    scalars numbers and power_draw exactly 350.0: above 90 degrees the
    answer is Maintenance_KG:Spindle_Overheat (the glitch sub-branch
    excludes 350), and when rules 1 to 4 do not hold it is
    PowerDraw_KG:Possible_Elevated_Load (rule 5 includes 350).  With
    power_draw exactly 400.0: above 90 degrees the answer is
    Cyberattack_KG:Likely_Glitch/Firmware, and when rules 1 to 4 do not
    hold it is PowerDraw_KG:High_Power_Consumption. *)
Theorem power_draw_boundaries (sensors machine : pydict) (p : float) :
  is_Some (scalar sensors "spindle_temp") ->
  is_Some (scalar sensors "vibration") ->
  sensors !! "power_draw" = Some (VFloat p) ->
  (p = 350%float ->
   (rule_holds 2 sensors machine = true ->
    classify_state sensors machine = Ok "Maintenance_KG:Spindle_Overheat")
   /\ ((forall j : nat, (1 <= j <= 4)%nat ->
                        rule_holds j sensors machine = false) ->
       classify_state sensors machine
       = Ok "PowerDraw_KG:Possible_Elevated_Load"))
  /\ (p = 400%float ->
      (rule_holds 2 sensors machine = true ->
       classify_state sensors machine
       = Ok "Cyberattack_KG:Likely_Glitch/Firmware")
      /\ ((forall j : nat, (1 <= j <= 4)%nat ->
                           rule_holds j sensors machine = false) ->
          classify_state sensors machine
          = Ok "PowerDraw_KG:High_Power_Consumption")).
Proof.
  intros [t Ht] [v Hv] Hp.
  assert (Hs : scalar sensors "power_draw" = Some (NFloat p))
    by (unfold scalar; by rewrite Hp).
  assert (Hexcl : num_gt t (NInt 90) = true ->
                  num_gt t (NInt 75) && num_le t (NInt 90) = false).
  { unfold num_gt, num_le. destruct (num_compare t (NInt 90)) as [[]|]; try done.
    intros _. apply andb_false_r. }
  split; intros ->; split.
  - intros H2. cbn [rule_holds] in H2. rewrite Ht in H2. cbn [sat] in H2.
    apply (classify_state_head _ _ t v (NFloat 350)); try done.
    by rewrite head_rules_power_350, (Hexcl H2), H2.
  - intros Hlow.
    pose proof (Hlow 1%nat ltac:(lia)) as H1.
    pose proof (Hlow 2%nat ltac:(lia)) as H2.
    pose proof (Hlow 3%nat ltac:(lia)) as H3.
    pose proof (Hlow 4%nat ltac:(lia)) as H4.
    cbn [rule_holds] in H1, H2, H3, H4. rewrite Ht in H1, H2.
    rewrite Hv in H3, H4. cbn [sat] in H1, H2, H3, H4.
    apply (classify_state_head _ _ t v (NFloat 350)); try done.
    by rewrite head_rules_power_350, H1, H2, H3, H4.
  - intros H2. cbn [rule_holds] in H2. rewrite Ht in H2. cbn [sat] in H2.
    apply (classify_state_head _ _ t v (NFloat 400)); try done.
    by rewrite head_rules_power_400, (Hexcl H2), H2.
  - intros Hlow.
    pose proof (Hlow 1%nat ltac:(lia)) as H1.
    pose proof (Hlow 2%nat ltac:(lia)) as H2.
    pose proof (Hlow 3%nat ltac:(lia)) as H3.
    pose proof (Hlow 4%nat ltac:(lia)) as H4.
    cbn [rule_holds] in H1, H2, H3, H4. rewrite Ht in H1, H2.
    rewrite Hv in H3, H4. cbn [sat] in H1, H2, H3, H4.
    apply (classify_state_head _ _ t v (NFloat 400)); try done.
    by rewrite head_rules_power_400, H1, H2, H3, H4.
Qed.

Lemma power_draw_boundaries_witness :
  classify_state (sample_sensors 95 1 350 50 "PASS") (sample_machine 1)
  = Ok "Maintenance_KG:Spindle_Overheat"
  /\ classify_state (sample_sensors 60 1 400 50 "PASS") (sample_machine 1)
     = Ok "PowerDraw_KG:High_Power_Consumption".
Proof.
  split.
  - refine (proj1 (proj1 (power_draw_boundaries
                            (sample_sensors 95 1 350 50 "PASS")
                            (sample_machine 1) 350 _ _ _) _) _);
      try (by eexists); reflexivity.
  - refine (proj2 (proj2 (power_draw_boundaries
                            (sample_sensors 60 1 400 50 "PASS")
                            (sample_machine 1) 400 _ _ _) _) _);
      try (by eexists); try reflexivity.
    intros j Hj.
    do 5 (destruct j as [|j]; [try lia; vm_compute; reflexivity|]). lia.
Defined.

(** ** The factory across a cycle *)

Section Cycles.
Context {rng : Type} `{!Runtime rng}.

Lemma check_and_change_tool_inv (self self' : AutomaticToolChanger)
    (cycle_id t : Z) (g g' : rng) :
  check_and_change_tool self cycle_id g = Ok ((t, self'), g') ->
  t = current_tool self'
  /\ tools self' = tools self
  /\ (cycle_id mod 10 <> 0 -> self' = self /\ g' = g)
  /\ (cycle_id mod 10 = 0 -> t ∈ tools self).
Proof.
  unfold check_and_change_tool.
  destruct (Z.eqb_spec (cycle_id mod 10) 0) as [Hmod|Hmod].
  - intros (a & g1 & Ha & H)%sim_bind_inv.
    apply sim_bind_inv in Ha as (x & g2 & Hx & Ha).
    injection Ha as <- <-. injection H as <- <- <-. cbn.
    repeat split; try done.
    unfold random_choice in Hx. destruct (tools self) as [|y ys] eqn:Hts; [done|].
    destruct (randbelow (length (y :: ys)) g) as [i g3].
    destruct ((y :: ys) !! i) as [z|] eqn:Hz; [|done].
    injection Hx as <- _. intros _. by apply (list_elem_of_lookup_2 _ i).
  - intros [= <- <- <-]. by repeat split.
Qed.

Lemma perform_operation_same_machine (m m' : Machine) (cycle_id : Z)
    (r : pydict) (g g' : rng) :
  perform_operation m cycle_id g = Ok ((r, m'), g') ->
  same_machine m m' /\ (cycle_id mod 10 <> 0 -> m' = m).
Proof.
  destruct m as [name|name atc|name|name|name]; cbn [perform_operation].
  - done.
  - intros (op & g1 & _ & H)%sim_bind_inv.
    apply sim_bind_inv in H as ([tool atc'] & g2 & Hc & H).
    injection H as _ <- _.
    apply check_and_change_tool_inv in Hc as (_ & Htools & Hstable & _).
    split; [right; by exists name, atc, atc'|].
    intros Hmod. by destruct (Hstable Hmod) as [-> _].
  - intros (x & g1 & _ & H)%sim_bind_inv. injection H as _ <- _.
    split; [by left | done].
  - intros (x & g1 & _ & H)%sim_bind_inv.
    apply sim_bind_inv in H as (u & g2 & _ & H). injection H as _ <- _.
    split; [by left | done].
  - intros (x & g1 & _ & H)%sim_bind_inv.
    apply sim_bind_inv in H as (u & g2 & _ & H). injection H as _ <- _.
    split; [by left | done].
Qed.

Lemma machines_loop_same_machines (ms ms' : list Machine) (cycle_id : Z)
    (md md' : pydict) (g g' : rng) :
  machines_loop ms cycle_id md g = Ok ((md', ms'), g') ->
  Forall2 same_machine ms ms' /\ (cycle_id mod 10 <> 0 -> ms' = ms).
Proof.
  revert ms' md md' g g'.
  induction ms as [|m rest IH]; intros ms' md md' g g'; cbn [machines_loop].
  - intros [= _ <- _]. by split.
  - intros ([r m1] & g1 & Hm & H)%sim_bind_inv.
    apply sim_bind_inv in H as ([md1 rest1] & g2 & Hrest & H).
    injection H as _ <- _.
    apply perform_operation_same_machine in Hm as [Hm Hm'].
    apply IH in Hrest as [Hrest Hrest'].
    split; [by constructor|].
    intros Hmod. by rewrite (Hm' Hmod), (Hrest' Hmod).
Qed.

Lemma run_cycle_machines (kg : KGTables) (env_MODE : option string)
    (now : float) (self self' : CNCFactory) (cycle_id : Z) (c : cycle)
    (g g' : rng) :
  run_cycle kg env_MODE now self cycle_id g = Ok ((c, self'), g') ->
  exists g1 : rng,
    machines_loop (machines self) cycle_id ∅ g
    = Ok ((machine_data c, machines self'), g1)
    /\ read_sensor_readings env_MODE self g1 = Ok (sensor_readings c, g')
    /\ classify_state (sensor_readings c) (machine_data c)
       = Ok (classification c)
    /\ sensors self' = sensors self.
Proof.
  intros (g1 & j & Hm & Hsr & Hcl & _ & _ & Hs)%run_cycle_steps.
  by exists g1.
Qed.

(** X5.  A cycle leaves the factory as it was, up to the current tool of
    its mills: the sensors, the number, kind and name of the machines and
    the tool lists are unchanged, and when the cycle id is not a multiple
    of 10 the whole factory is unchanged. *)
Theorem run_cycle_keeps_factory (kg : KGTables) (env_MODE : option string)
    (now : float) (self self' : CNCFactory) (cycle_id : Z) (c : cycle)
    (g g' : rng) :
  run_cycle kg env_MODE now self cycle_id g = Ok ((c, self'), g') ->
  sensors self' = sensors self
  /\ Forall2 same_machine (machines self) (machines self')
  /\ (cycle_id mod 10 <> 0 -> self' = self).
Proof.
  intros (g1 & Hm & _ & _ & Hs)%run_cycle_machines.
  apply machines_loop_same_machines in Hm as [Hsame Hstable].
  split; [done|]. split; [done|].
  intros Hmod. destruct self as [ms ss], self' as [ms' ss']. cbn in *.
  by rewrite Hs, (Hstable Hmod).
Qed.

End Cycles.

Lemma run_cycle_keeps_factory_witness :
  exists (c : cycle) (self' : CNCFactory) (g' : nat),
    run_cycle sample_kg None 0 colliding_factory 7 0%nat = Ok ((c, self'), g')
    /\ self' = colliding_factory.
Proof.
  destruct (result_Ok_inv
              (run_cycle sample_kg None 0 colliding_factory 7 0%nat))
    as ([[c self'] g'] & Hrun); [by vm_compute|].
  exists c, self', g'. split; [exact Hrun|].
  by apply (run_cycle_keeps_factory sample_kg None 0%float colliding_factory
              self' 7 c 0%nat g' Hrun).
Defined.

(** ** Reading the sensors *)

Section Sensors.
Context {rng : Type} `{!Runtime rng}.

Lemma random_uniform_Ok (a b : float) (g : rng) :
  exists (u : float) (g' : rng), random_uniform a b g = Ok (u, g').
Proof.
  unfold random_uniform. destruct (random_random g) as [u g']. by eexists _, _.
Qed.

(** What each kind of sensor reads. *)
Lemma read_values (s : Sensor) (g : rng) :
  match s with
  | Sensor_base _ => read s g = Err NotImplementedError
  | SpindleTempSensor _ | VibrationSensor _ | PowerDrawSensor _ =>
      exists (f : float) (g' : rng), read s g = Ok (VFloat f, g')
  | PositionEncoder _ =>
      exists (x y z : float) (g' : rng),
        read s g = Ok (VDict {[ "X" := VFloat x; "Y" := VFloat y;
                                "Z" := VFloat z ]}, g')
  | VisionQCSensor _ =>
      exists (r : string) (g' : rng),
        read s g = Ok (VStr r, g') /\ (r = "PASS" \/ r = "FAIL")
  end.
Proof.
  destruct s as [n|n|n|n|n|n]; cbn [read].
  - done.
  - destruct (random_uniform_Ok 45 100 g) as (u & g' & Hu).
    eexists _, g'. by rewrite (sim_bind_Ok _ _ _ _ _ Hu).
  - unfold mbind, sim_bind, random_uniform.
    destruct (random_random g) as [u g']. by eexists _, _.
  - destruct (random_uniform_Ok 200 450 g) as (u & g' & Hu).
    eexists _, g'. by rewrite (sim_bind_Ok _ _ _ _ _ Hu).
  - destruct (random_uniform_Ok 0 100 g) as (x & g1 & Hx).
    destruct (random_uniform_Ok 0 100 g1) as (y & g2 & Hy).
    destruct (random_uniform_Ok 0 50 g2) as (z & g3 & Hz).
    eexists _, _, _, g3. rewrite (sim_bind_Ok _ _ _ _ _ Hx).
    rewrite (sim_bind_Ok _ _ _ _ _ Hy). by rewrite (sim_bind_Ok _ _ _ _ _ Hz).
  - destruct (random_choice_elem ["PASS"; "FAIL"] g) as (r & g' & Hr & Hin);
      [done|].
    exists r, g'. rewrite (sim_bind_Ok _ _ _ _ _ Hr). split; [done|].
    rewrite !elem_of_cons, elem_of_nil in Hin. tauto.
Qed.

Lemma sensors_loop_cons (s : Sensor) (rest : list Sensor) (v : pyval)
    (sr sr' : pydict) (g g1 g2 : rng) :
  read s g = Ok (v, g1) ->
  sensors_loop rest (<[sensor_name s := v]> sr) g1 = Ok (sr', g2) ->
  sensors_loop (s :: rest) sr g = Ok (sr', g2).
Proof.
  intros Hs Hrest. cbn [sensors_loop]. by rewrite (sim_bind_Ok _ _ _ _ _ Hs).
Qed.

Lemma sensors_loop_dom (ss : list Sensor) (sr sr' : pydict) (g g' : rng) :
  sensors_loop ss sr g = Ok (sr', g') ->
  dom sr' = dom sr ∪ list_to_set (sensor_name <$> ss).
Proof.
  revert sr g. induction ss as [|s rest IH]; intros sr g; cbn [sensors_loop].
  - intros [= <- _]. cbn. by rewrite (right_id_L ∅ (∪)).
  - intros (v & g1 & _ & Hrest)%sim_bind_inv.
    apply IH in Hrest. rewrite Hrest, dom_insert_L. cbn [fmap list_fmap].
    cbn [list_to_set foldr]. by rewrite (assoc_L (∪)), (comm_L (∪) {[_]}).
Qed.

(** No sensor reads an [int]: every reading can be written as JSON. *)
Lemma read_ok (s : Sensor) (v : pyval) (g g' : rng) :
  read s g = Ok (v, g') -> json_ok v = true.
Proof.
  pose proof (read_values s g) as Hv. intros Hread.
  destruct s as [n|n|n|n|n|n].
  - congruence.
  - destruct Hv as (f & g1 & Hv). rewrite Hv in Hread.
    by injection Hread as <- _.
  - destruct Hv as (f & g1 & Hv). rewrite Hv in Hread.
    by injection Hread as <- _.
  - destruct Hv as (f & g1 & Hv). rewrite Hv in Hread.
    by injection Hread as <- _.
  - destruct Hv as (x & y & z & g1 & Hv). rewrite Hv in Hread.
    injection Hread as <- _.
    apply json_ok_insert; [done|]. apply json_ok_insert; [done|].
    by apply json_ok_singleton.
  - destruct Hv as (r & g1 & Hv & _). rewrite Hv in Hread.
    by injection Hread as <- _.
Qed.

Lemma sensors_loop_ok (ss : list Sensor) (sr sr' : pydict) (g g' : rng) :
  sensors_loop ss sr g = Ok (sr', g') ->
  json_ok (VDict sr) = true -> json_ok (VDict sr') = true.
Proof.
  revert sr g. induction ss as [|s rest IH]; intros sr g; cbn [sensors_loop].
  - by intros [= <- _].
  - intros (v & g1 & Hv & Hrest)%sim_bind_inv Hsr.
    apply (IH _ _ Hrest), json_ok_insert; [|done]. by apply (read_ok s v g g1).
Qed.

Lemma read_sensor_readings_ok (env_MODE : option string) (self : CNCFactory)
    (sr : pydict) (g g' : rng) :
  read_sensor_readings env_MODE self g = Ok (sr, g') ->
  json_ok (VDict sr) = true.
Proof.
  unfold read_sensor_readings.
  destruct (py_truthy (get_data_source env_MODE)) eqn:Hreal.
  - unfold get_data_source in *.
    destruct (String.eqb (default "SIM" env_MODE) "REAL"); [|done].
    intros [= <- _]. vm_compute. reflexivity.
  - intros Hloop. apply (sensors_loop_ok _ _ _ _ _ Hloop), json_ok_empty.
Qed.

Lemma sensors_loop_default (g : rng) :
  exists (sr : pydict) (g' : rng),
    sensors_loop default_sensors ∅ g = Ok (sr, g')
    /\ wf_sensors sr = true.
Proof.
  destruct (read_values (SpindleTempSensor "spindle_temp") g)
    as (t & g1 & Ht).
  destruct (read_values (VibrationSensor "vibration") g1) as (v & g2 & Hv).
  destruct (read_values (PowerDrawSensor "power_draw") g2) as (p & g3 & Hp).
  destruct (read_values (PositionEncoder "position") g3)
    as (x & y & z & g4 & Hpos).
  destruct (read_values (VisionQCSensor "inspection") g4)
    as (r & g5 & Hr & _).
  eexists _, g5. split.
  - unfold default_sensors.
    eapply sensors_loop_cons; [exact Ht|].
    eapply sensors_loop_cons; [exact Hv|].
    eapply sensors_loop_cons; [exact Hp|].
    eapply sensors_loop_cons; [exact Hpos|].
    eapply sensors_loop_cons; [exact Hr|]. reflexivity.
  - by apply (float_readings_wf _
                {[ "X" := VFloat x; "Y" := VFloat y; "Z" := VFloat z ]}
                t v p x y z (VStr r)).
Qed.

Lemma read_sensor_readings_cases (env_MODE : option string)
    (self : CNCFactory) :
  (env_MODE = Some "REAL"
   /\ forall g : rng,
        read_sensor_readings env_MODE self g = Ok (substitute_bundle, g))
  \/ (env_MODE <> Some "REAL"
      /\ read_sensor_readings env_MODE self = sensors_loop (sensors self) ∅).
Proof.
  destruct env_MODE as [mode|].
  - destruct (String.eqb_spec mode "REAL") as [->|Hne].
    + left. by split.
    + right. split; [congruence|].
      unfold read_sensor_readings, get_data_source. simpl.
      by destruct (String.eqb_spec mode "REAL").
  - right. by split.
Qed.

(** X6.  Outside the REAL mode (MODE unset, or anything other than the
    exact string REAL) the sensor readings of a cycle are keyed by the
    names of the configured sensors: the keys are exactly the sensor
    names, whatever was read. *)
Theorem sensor_readings_keyed_by_name (env_MODE : option string)
    (self : CNCFactory) (sr : pydict) (g g' : rng) :
  env_MODE <> Some "REAL" ->
  read_sensor_readings env_MODE self g = Ok (sr, g') ->
  dom sr = list_to_set (sensor_name <$> sensors self).
Proof.
  intros Hmode.
  destruct (read_sensor_readings_cases env_MODE self) as [[? _]|[_ ->]];
    [done|].
  intros ->%sensors_loop_dom. by rewrite dom_empty_L, (left_id_L ∅ (∪)).
Qed.

End Sensors.

Lemma sensor_readings_keyed_by_name_witness :
  exists (sr : pydict) (g' : nat),
    read_sensor_readings (Some "real") colliding_factory 0%nat = Ok (sr, g')
    /\ dom sr = list_to_set (sensor_name <$> sensors colliding_factory).
Proof.
  destruct (result_Ok_inv
              (read_sensor_readings (Some "real") colliding_factory 0%nat))
    as ([sr g'] & Hread); [by vm_compute|].
  exists sr, g'. split; [exact Hread|].
  by apply (sensor_readings_keyed_by_name (Some "real") colliding_factory
              sr 0%nat g').
Defined.

(** ** The default configuration and the main program *)

Lemma rule_label_tool_change (i : nat) (sensors : pydict) :
  rule_label i sensors = "Maintenance_KG:Tool_Change" -> i = 8%nat.
Proof.
  do 11 (destruct i as [|i];
         [cbn [rule_label];
          repeat match goal with
                 | |- context [sat ?o ?P] => destruct (sat o P)
                 end;
          (discriminate || reflexivity)|]).
  discriminate.
Qed.

Lemma classified_wf (sensors machine : pydict) :
  wf_sensors sensors = true ->
  exists l : string,
    classify_state sensors machine = Ok l
    /\ l ∈ labels
    /\ (tool_change machine = false -> l <> "Maintenance_KG:Tool_Change").
Proof.
  intros Hwf.
  destruct (cascade_first_match sensors machine Hwf) as (i & Hi & Hc).
  exists (rule_label i sensors). split; [done|].
  split; [apply rule_label_in_labels|].
  intros Htool ->%rule_label_tool_change.
  destruct Hi as (_ & Hi & _). cbn [rule_holds] in Hi. congruence.
Qed.

Section DefaultConfiguration.
Context {rng : Type} `{!Runtime rng}.

Lemma perform_operation_CNCMill_inv (name : string)
    (atc : AutomaticToolChanger) (cycle_id : Z) (r : pydict) (m' : Machine)
    (g g' : rng) :
  perform_operation (CNCMill name atc) cycle_id g = Ok ((r, m'), g') ->
  exists (op : string) (atc' : AutomaticToolChanger),
    r = {[ "operation" := VStr op; "tool_id" := VInt (current_tool atc') ]}
    /\ m' = CNCMill name atc'
    /\ tools atc' = tools atc
    /\ op ∈ ["cutting"; "drilling"; "idle"]
    /\ (cycle_id mod 10 <> 0 -> atc' = atc)
    /\ (cycle_id mod 10 = 0 -> current_tool atc' ∈ tools atc).
Proof.
  cbn [perform_operation].
  intros (op & g1 & Hop & H)%sim_bind_inv.
  apply sim_bind_inv in H as ([tool atc'] & g2 & Hc & H).
  injection H as <- <- _.
  apply check_and_change_tool_inv in Hc as (-> & Htools & Hstable & Hin).
  exists op, atc'. repeat split; try done.
  - unfold random_choice in Hop.
    destruct (randbelow (length ["cutting"; "drilling"; "idle"]) g) as [i g3].
    destruct (["cutting"; "drilling"; "idle"] !! i) as [x|] eqn:Hx; [|done].
    injection Hop as <- _. by apply (list_elem_of_lookup_2 _ i).
  - intros Hmod. by destruct (Hstable Hmod).
Qed.

Lemma tools_ok_inv (atc : AutomaticToolChanger) :
  tools_ok atc = true ->
  int_str_ok (current_tool atc) = true
  /\ forall t : Z, t ∈ tools atc -> int_str_ok t = true.
Proof.
  unfold tools_ok. cbn [forallb]. rewrite andb_true_iff, forallb_forall.
  intros [Hc Hts]. split; [done|].
  intros t Ht. by apply Hts, list_elem_of_In.
Qed.

Lemma machines_loop_default (atc : AutomaticToolChanger) (cycle_id : Z)
    (g : rng) :
  tools atc <> [] ->
  tools_ok atc = true ->
  int_str_ok (1000 + cycle_id) = true ->
  exists (md : pydict) (atc' : AutomaticToolChanger) (g' : rng),
    machines_loop (default_machines atc) cycle_id ∅ g
    = Ok ((md, default_machines atc'), g')
    /\ md !! "tool_id" = Some (VInt (current_tool atc'))
    /\ tools atc' = tools atc
    /\ (cycle_id mod 10 <> 0 -> atc' = atc)
    /\ (cycle_id mod 10 = 0 -> current_tool atc' ∈ tools atc)
    /\ json_ok (VDict md) = true.
Proof.
  intros Hne [Hcur Hts]%tools_ok_inv Hpart.
  destruct (perform_operation_CNCMill "CNC_Mill_1" atc cycle_id g Hne)
    as (op0 & tool0 & atc0 & g1 & H1 & _).
  destruct (perform_operation_CNCMill_inv _ _ _ _ _ _ _ H1)
    as (op & atc' & Hr & [= ->] & Htools & _ & Hstable & Hin).
  rewrite Hr in H1.
  destruct (perform_operation_RoboticArm "Robotic_Arm_1" cycle_id g1)
    as (task & g2 & H2).
  destruct (perform_operation_ConveyorBelt "Conveyor_1" cycle_id g2 Hpart)
    as (position & g3 & H3).
  destruct (perform_operation_InspectionSystem "Inspection_Station" cycle_id g3)
    as (decision & confidence & g4 & H4).
  assert (Htool : int_str_ok (current_tool atc') = true).
  { destruct (decide (cycle_id mod 10 = 0)) as [Hmod|Hmod].
    - by apply Hts, Hin.
    - by rewrite (Hstable Hmod). }
  eexists _, atc', g4. split.
  { unfold default_machines.
    eapply machines_loop_cons; [exact H1|].
    eapply machines_loop_cons; [exact H2|].
    eapply machines_loop_cons; [exact H3|].
    eapply machines_loop_cons; [exact H4|]. reflexivity. }
  repeat (split; [done|]).
  apply json_ok_update;
    [apply json_ok_update; [apply json_ok_update; [apply json_ok_update|]|]|].
  - apply json_ok_empty.
  - apply json_ok_insert; [done|]. by apply json_ok_singleton.
  - by apply json_ok_singleton.
  - apply json_ok_insert; [done|]. by apply json_ok_singleton.
  - apply json_ok_insert; [done|]. by apply json_ok_singleton.
Qed.

Lemma run_cycle_default (kg : KGTables) (env_MODE : option string)
    (now : float) (atc : AutomaticToolChanger) (cycle_id : Z) (g : rng) :
  tools atc <> [] ->
  tools_ok atc = true ->
  int_str_ok cycle_id = true ->
  int_str_ok (1000 + cycle_id) = true ->
  kg_ok kg = true ->
  exists (c : cycle) (atc' : AutomaticToolChanger) (g' : rng),
    run_cycle kg env_MODE now
      {| machines := default_machines atc; sensors := default_sensors |}
      cycle_id g
    = Ok ((c, {| machines := default_machines atc';
                 sensors := default_sensors |}), g')
    /\ machine_data c !! "tool_id" = Some (VInt (current_tool atc'))
    /\ tools atc' = tools atc
    /\ (cycle_id mod 10 <> 0 -> atc' = atc)
    /\ (cycle_id mod 10 = 0 -> current_tool atc' ∈ tools atc)
    /\ wf_sensors (sensor_readings c) = true
    /\ classification c ∈ labels
    /\ (tool_change (machine_data c) = false ->
        classification c <> "Maintenance_KG:Tool_Change").
Proof.
  intros Hne Hts Hid Hpart Hkg.
  destruct (machines_loop_default atc cycle_id g Hne Hts Hpart)
    as (md & atc' & g1 & Hm & Htool & Htools & Hstable & Hin & Hmd).
  assert (Hsr : exists (sr : pydict) (g2 : rng),
             read_sensor_readings env_MODE
               {| machines := default_machines atc;
                  sensors := default_sensors |} g1 = Ok (sr, g2)
             /\ wf_sensors sr = true).
  { destruct (read_sensor_readings_cases env_MODE
                {| machines := default_machines atc;
                   sensors := default_sensors |}) as [[_ Hreal]|[_ ->]].
    - exists substitute_bundle, g1. by rewrite Hreal.
    - apply sensors_loop_default. }
  destruct Hsr as (sr & g2 & Hsr & Hwf).
  destruct (classified_wf sr md Hwf) as (l & Hl & Hin' & Hnt).
  destruct (run_cycle_Ok kg env_MODE now
              {| machines := default_machines atc; sensors := default_sensors |}
              cycle_id md sr (default_machines atc') l g g1 g2 Hm Hsr Hl Hid
              Hmd (read_sensor_readings_ok _ _ _ _ _ Hsr)
              (kg_ok_looked_up _ _ Hkg))
    as (c & Hrun & Hcmd & Hcsr & Hcl).
  exists c, atc', g2. rewrite Hcmd, Hcsr, Hcl. by repeat split.
Qed.

(** X7.  In the default configuration (the four machines, the five
    sensors, a tool changer with a non-empty tool list) a cycle returns,
    for every mode, timestamp and random source, at every cycle id within
    the digit limit of the interpreter: the cycle id and the part number
    1000 + id can be written in decimal, and so can the tool numbers and
    the entries of the tables.  The readings it classified are well
    formed, the label is one of the thirteen labels of the cascade, and
    the tool id of the machine data is the tool changer's current tool
    after the cycle. *)
Theorem run_cycle_default_total (kg : KGTables) (env_MODE : option string)
    (now : float) (atc : AutomaticToolChanger) (cycle_id : Z) (g : rng) :
  tools atc <> [] ->
  tools_ok atc = true ->
  int_str_ok cycle_id = true ->
  int_str_ok (1000 + cycle_id) = true ->
  kg_ok kg = true ->
  exists (c : cycle) (atc' : AutomaticToolChanger) (g' : rng),
    run_cycle kg env_MODE now
      {| machines := default_machines atc; sensors := default_sensors |}
      cycle_id g
    = Ok ((c, {| machines := default_machines atc';
                 sensors := default_sensors |}), g')
    /\ machine_data c !! "tool_id" = Some (VInt (current_tool atc'))
    /\ tools atc' = tools atc
    /\ wf_sensors (sensor_readings c) = true
    /\ classification c ∈ labels.
Proof.
  intros Hne Hts Hid Hpart Hkg.
  destruct (run_cycle_default kg env_MODE now atc cycle_id g Hne Hts Hid
              Hpart Hkg)
    as (c & atc' & g' & Hrun & Htool & Htools & _ & _ & Hwf & Hin & _).
  by exists c, atc', g'.
Qed.

Lemma cycles_loop_stable (kg : KGTables) (env_MODE : option string)
    (clock : Z -> float) (atc : AutomaticToolChanger) (cycle_ids : list Z)
    (g : rng) :
  tools atc <> [] ->
  tools_ok atc = true ->
  kg_ok kg = true ->
  Forall (fun c => c mod 10 <> 0 /\ int_str_ok c = true
                   /\ int_str_ok (1000 + c) = true) cycle_ids ->
  exists (outs : list cycle) (g' : rng),
    cycles_loop kg env_MODE clock
      {| machines := default_machines atc; sensors := default_sensors |}
      cycle_ids g
    = Ok ((outs, {| machines := default_machines atc;
                    sensors := default_sensors |}), g')
    /\ length outs = length cycle_ids
    /\ Forall (fun c =>
                 machine_data c !! "tool_id" = Some (VInt (current_tool atc))
                 /\ classification c ∈ labels
                 /\ (tool_change (machine_data c) = false ->
                     classification c <> "Maintenance_KG:Tool_Change"))
         outs.
Proof.
  intros Hne Hts Hkg Hids. revert g.
  induction Hids as [|cid rest (Hcid & Hid & Hpart) Hrest IH]; intros g.
  - exists [], g. by repeat split.
  - destruct (run_cycle_default kg env_MODE (clock cid) atc cid g Hne Hts Hid
                Hpart Hkg)
      as (c & atc' & g1 & Hrun & Htool & _ & Hstable & _ & _ & Hin & Hnt).
    rewrite (Hstable Hcid) in Hrun, Htool.
    destruct (IH g1) as (outs & g2 & Hloop & Hlen & Hall).
    exists (c :: outs), g2. split; [|split].
    + cbn [cycles_loop]. rewrite (sim_bind_Ok _ _ _ _ _ Hrun). cbn beta iota.
      by rewrite (sim_bind_Ok _ _ _ _ _ Hloop).
    + cbn. by rewrite Hlen.
    + by constructor.
Qed.

(** X8.  With the tables that [load_kg_csv] returned at import time,
    whatever the three files held, the main program runs its five cycles,
    ids 1 to 5, without an exception, whatever the mode, the clock and the
    random source; no id is a multiple of 10, so the tool changer never
    changes the tool: every emitted cycle carries tool_id 1, its label is
    one of the thirteen labels and is never Maintenance_KG:Tool_Change,
    and the factory at the end is the factory at the start. *)
Theorem main_never_changes_tool
    (maintenance_file normal_file cyberattack_file : option (list pydict))
    (kg : KGTables) (env_MODE : option string) (clock : Z -> float) (g : rng) :
  load_kg_csv maintenance_file = Ok (maintenance_map kg) ->
  load_kg_csv normal_file = Ok (normal_map kg) ->
  load_kg_csv cyberattack_file = Ok (cyberattack_map kg) ->
  exists (outs : list cycle) (g' : rng),
    main kg env_MODE clock g
    = Ok ((outs,
           {| machines :=
                default_machines
                  {| tools := [1; 2; 3; 4; 5]; current_tool := 1 |};
              sensors := default_sensors |}), g')
    /\ length outs = 5%nat
    /\ Forall (fun c =>
                 machine_data c !! "tool_id" = Some (VInt 1)
                 /\ classification c ∈ labels
                 /\ classification c <> "Maintenance_KG:Tool_Change")
         outs.
Proof.
  intros Hm%load_kg_csv_table_ok Hn%load_kg_csv_table_ok
    Hc%load_kg_csv_table_ok.
  destruct (cycles_loop_stable kg env_MODE clock
              {| tools := [1; 2; 3; 4; 5]; current_tool := 1 |}
              (seqZ 1 NUM_CYCLES) g) as (outs & g' & Hloop & Hlen & Hall).
  { done. }
  { reflexivity. }
  { unfold kg_ok. by rewrite Hm, Hn, Hc. }
  { repeat constructor; (done || reflexivity). }
  exists outs, g'. split; [exact Hloop|]. split; [exact Hlen|].
  eapply Forall_impl; [exact Hall|].
  intros c (Htool & Hin & Hnt). repeat split; try done.
  apply Hnt. unfold tool_change. cbn in Htool. by rewrite Htool.
Qed.

End DefaultConfiguration.

Lemma run_cycle_default_total_witness :
  exists (c : cycle) (atc' : AutomaticToolChanger) (g' : nat),
    run_cycle sample_kg None 0
      {| machines :=
           default_machines {| tools := default_tools; current_tool := 3 |};
         sensors := default_sensors |} 20 4%nat
    = Ok ((c, {| machines := default_machines atc';
                 sensors := default_sensors |}), g')
    /\ classification c ∈ labels.
Proof.
  destruct (run_cycle_default_total sample_kg None 0%float
              {| tools := default_tools; current_tool := 3 |} 20 4%nat)
    as (c & atc' & g' & Hrun & _ & _ & _ & Hin);
    [done | vm_compute; reflexivity..|].
  exists c, atc', g'. exact (conj Hrun Hin).
Defined.

Lemma main_never_changes_tool_witness :
  exists (outs : list cycle) (g' : nat),
    main sample_kg None (fun _ => 0%float) 0%nat
    = Ok ((outs,
           {| machines :=
                default_machines
                  {| tools := [1; 2; 3; 4; 5]; current_tool := 1 |};
              sensors := default_sensors |}), g')
    /\ length outs = 5%nat.
Proof.
  destruct (main_never_changes_tool
              (Some [ {[ "Source entity" := VStr " Maintenance_KG:Tool_Change";
                         "relationship" := VStr "requires";
                         "target entity" := VStr "Tool_Replacement " ]} ])
              None
              (Some [ {[ "Source entity" :=
                           VStr "Cyberattack_KG:Major_Position_Change";
                         "relationship" := VStr "indicates";
                         "target entity" := VStr "Axis_Tampering" ]} ])
              sample_kg None (fun _ => 0%float) 0%nat)
    as (outs & g' & Hmain & Hlen & _); [vm_compute; reflexivity..|].
  exists outs, g'. exact (conj Hmain Hlen).
Defined.

(** ** The shape of the emitted record *)

Lemma payload_dom (self : SimulationMessage) :
  dom (payload self)
  = {[ "cycle_id"; "timestamp" ]} ∪ dom (msg_machine self)
    ∪ dom (msg_sensors self).
Proof.
  unfold payload, dict_update.
  rewrite !dom_union_L, !dom_insert_L, dom_empty_L, (right_id_L ∅ (∪)).
  apply set_eq. intros k. rewrite !elem_of_union, !elem_of_singleton. tauto.
Qed.

Section Record.
Context {rng : Type} `{!Runtime rng}.

(** X9.  The record a cycle emits holds exactly the keys cycle_id,
    timestamp, kg_node and kg_triple, the machine fields and the sensor
    names; kg_node is the classification, and cycle_id and timestamp are
    the cycle's own unless a sensor is named like them. *)
Theorem emitted_record_shape (kg : KGTables) (env_MODE : option string)
    (now : float) (self self' : CNCFactory) (cycle_id : Z) (c : cycle)
    (g g' : rng) :
  run_cycle kg env_MODE now self cycle_id g = Ok ((c, self'), g') ->
  dom (emitted c)
  = {[ "cycle_id"; "timestamp"; "kg_node"; "kg_triple" ]}
    ∪ dom (machine_data c) ∪ dom (sensor_readings c)
  /\ emitted c !! "kg_node" = Some (VStr (classification c))
  /\ (sensor_readings c !! "cycle_id" = None ->
      emitted c !! "cycle_id" = Some (VInt cycle_id))
  /\ (sensor_readings c !! "timestamp" = None ->
      emitted c !! "timestamp" = Some (VFloat now)).
Proof.
  intros [Hdom ->]%run_cycle_inv.
  assert (Hno : forall k : string,
             k ∉ machine_fields -> machine_data c !! k = None).
  { intros k Hk. apply not_elem_of_dom. intros Hin. by apply Hk, Hdom. }
  split; [|split; [|split]].
  - rewrite !dom_insert_L, payload_dom. cbn.
    apply set_eq. intros k. rewrite !elem_of_union, !elem_of_singleton. tauto.
  - rewrite lookup_insert_ne by done. apply lookup_insert_eq.
  - intros Hs. rewrite !lookup_insert_ne, payload_lookup by done.
    cbn. rewrite Hs, Hno; [done|].
    unfold machine_fields. rewrite !elem_of_union, !elem_of_singleton.
    intros H; repeat destruct H as [H|H]; discriminate.
  - intros Hs. rewrite !lookup_insert_ne, payload_lookup by done.
    cbn. rewrite Hs, Hno; [done|].
    unfold machine_fields. rewrite !elem_of_union, !elem_of_singleton.
    intros H; repeat destruct H as [H|H]; discriminate.
Qed.

(** ** What the sensors and machines return *)

(** X10.  Every sensor of a kind returns a reading of the shape the
    classifier expects: the spindle, vibration and power sensors a float,
    the position encoder a dict of three floats under X, Y and Z, the
    vision sensor PASS or FAIL; a sensor of the base class raises
    NotImplementedError. *)
Theorem read_shapes (s : Sensor) (g : rng) :
  match s with
  | Sensor_base _ => read s g = Err NotImplementedError
  | SpindleTempSensor _ | VibrationSensor _ | PowerDrawSensor _ =>
      exists (f : float) (g' : rng), read s g = Ok (VFloat f, g')
  | PositionEncoder _ =>
      exists (x y z : float) (g' : rng),
        read s g = Ok (VDict {[ "X" := VFloat x; "Y" := VFloat y;
                                "Z" := VFloat z ]}, g')
  | VisionQCSensor _ =>
      exists (r : string) (g' : rng),
        read s g = Ok (VStr r, g') /\ (r = "PASS" \/ r = "FAIL")
  end.
Proof. apply read_values. Qed.

Lemma random_choice_inv {A : Type} (seq : list A) (x : A) (g g' : rng) :
  random_choice seq g = Ok (x, g') -> x ∈ seq.
Proof.
  unfold random_choice. destruct seq as [|a seq]; [done|].
  destruct (randbelow (length (a :: seq)) g) as [i g1].
  destruct ((a :: seq) !! i) as [y|] eqn:Hy; [|done].
  intros [= <- _]. by apply (list_elem_of_lookup_2 _ i).
Qed.

Lemma perform_operation_inv (m m' : Machine) (cycle_id : Z) (r : pydict)
    (g g' : rng) :
  perform_operation m cycle_id g = Ok ((r, m'), g') ->
  match m with
  | Machine_base _ => False
  | CNCMill _ atc =>
      exists (op : string) (tool : Z),
        r = {[ "operation" := VStr op; "tool_id" := VInt tool ]}
        /\ op ∈ ["cutting"; "drilling"; "idle"]
        /\ (tool = current_tool atc \/ tool ∈ tools atc)
  | RoboticArm _ =>
      exists task : string,
        r = {[ "robotic_arm_task" := VStr task ]}
        /\ task ∈ ["load_material"; "unload_part"; "assemble_component";
                   "idle"]
  | ConveyorBelt _ =>
      exists position : string,
        r = {[ "conveyor_position" := VStr position;
               "part_id" := VStr ("PART-" +:+ int_repr (1000 + cycle_id)) ]}
        /\ position ∈ ["Station A"; "Station B"; "Inspection"; "Exit"]
        /\ int_str_ok (1000 + cycle_id) = true
  | InspectionSystem _ =>
      exists (decision : string) (confidence : float),
        r = {[ "inspection_result" := VStr decision;
               "inspection_confidence" := VFloat confidence ]}
        /\ decision ∈ ["PASS"; "FAIL"]
  end.
Proof.
  destruct m as [name|name atc|name|name|name].
  - done.
  - intros (op & atc' & -> & _ & Htools & Hop & Hstable & Hin)%
      perform_operation_CNCMill_inv.
    exists op, (current_tool atc'). repeat split; try done.
    destruct (decide (cycle_id mod 10 = 0)) as [Hmod|Hmod].
    + right. by apply Hin.
    + left. by rewrite (Hstable Hmod).
  - cbn [perform_operation].
    intros (task & g1 & Ht%random_choice_inv & H)%sim_bind_inv.
    injection H as <- _ _. by exists task.
  - cbn [perform_operation].
    intros (position & g1 & Hp%random_choice_inv & H)%sim_bind_inv.
    apply sim_bind_inv in H as (digits & g2 & (-> & Hok & ->)%py_str_int_inv & H).
    injection H as <- _ _. by exists position.
  - cbn [perform_operation].
    intros (decision & g1 & Hd%random_choice_inv & H)%sim_bind_inv.
    apply sim_bind_inv in H as (u & g2 & _ & H).
    injection H as <- _ _. by eexists decision, _.
Qed.

(** X11.  What a machine returns, when it returns: the mill an operation
    among cutting, drilling, idle and a tool id that is its current tool
    or a tool of its list; the robotic arm one of its four tasks; the
    conveyor one of its four positions and the part id PART- followed by
    the decimal digits of 1000 plus the cycle id, a number within the
    digit limit; the inspection system PASS or FAIL with a float
    confidence.  A machine of the base class never returns. *)
Theorem perform_operation_values (m m' : Machine) (cycle_id : Z) (r : pydict)
    (g g' : rng) :
  perform_operation m cycle_id g = Ok ((r, m'), g') ->
  match m with
  | Machine_base _ => False
  | CNCMill _ atc =>
      exists (op : string) (tool : Z),
        r = {[ "operation" := VStr op; "tool_id" := VInt tool ]}
        /\ op ∈ ["cutting"; "drilling"; "idle"]
        /\ (tool = current_tool atc \/ tool ∈ tools atc)
  | RoboticArm _ =>
      exists task : string,
        r = {[ "robotic_arm_task" := VStr task ]}
        /\ task ∈ ["load_material"; "unload_part"; "assemble_component";
                   "idle"]
  | ConveyorBelt _ =>
      exists position : string,
        r = {[ "conveyor_position" := VStr position;
               "part_id" := VStr ("PART-" +:+ int_repr (1000 + cycle_id)) ]}
        /\ position ∈ ["Station A"; "Station B"; "Inspection"; "Exit"]
        /\ int_str_ok (1000 + cycle_id) = true
  | InspectionSystem _ =>
      exists (decision : string) (confidence : float),
        r = {[ "inspection_result" := VStr decision;
               "inspection_confidence" := VFloat confidence ]}
        /\ decision ∈ ["PASS"; "FAIL"]
  end.
Proof. apply perform_operation_inv. Qed.

End Record.

Lemma emitted_record_shape_witness :
  exists (c : cycle) (self' : CNCFactory) (g' : nat),
    run_cycle sample_kg None 0 colliding_factory 7 0%nat = Ok ((c, self'), g')
    /\ dom (emitted c)
       = {[ "cycle_id"; "timestamp"; "kg_node"; "kg_triple" ]}
         ∪ dom (machine_data c) ∪ dom (sensor_readings c)
    /\ emitted c !! "kg_node" = Some (VStr (classification c)).
Proof.
  destruct (result_Ok_inv
              (run_cycle sample_kg None 0 colliding_factory 7 0%nat))
    as ([[c self'] g'] & Hrun); [by vm_compute|].
  exists c, self', g'. split; [exact Hrun|].
  destruct (emitted_record_shape sample_kg None 0%float colliding_factory
              self' 7 c 0%nat g' Hrun) as (Hdom & Hnode & _).
  exact (conj Hdom Hnode).
Defined.

Lemma perform_operation_values_witness :
  exists (r : pydict) (m' : Machine) (g' : nat) (position : string),
    perform_operation (ConveyorBelt "Conveyor_1") 7 0%nat = Ok ((r, m'), g')
    /\ r = {[ "conveyor_position" := VStr position;
              "part_id" := VStr "PART-1007" ]}
    /\ position ∈ ["Station A"; "Station B"; "Inspection"; "Exit"].
Proof.
  destruct (result_Ok_inv
              (perform_operation (ConveyorBelt "Conveyor_1") 7 0%nat))
    as ([[r m'] g'] & Hrun); [by vm_compute|].
  destruct (perform_operation_values (ConveyorBelt "Conveyor_1") m' 7 r
              0%nat g' Hrun) as (position & Hr & Hin & _).
  exists r, m', g', position. exact (conj Hrun (conj Hr Hin)).
Defined.

(** ** Part identifiers *)

Lemma int_repr_inj (a b : Z) : int_repr a = int_repr b -> a = b.
Proof.
  unfold int_repr. intros Hs. apply DecimalZ.to_int_inj.
  assert (Hn : forall z : Z,
             Z.to_int z <> Decimal.Pos Decimal.Nil
             /\ Z.to_int z <> Decimal.Neg Decimal.Nil).
  { intros [|q|q]; cbn; split; try discriminate;
      intros [= Hq]; by apply (DecimalPos.Unsigned.to_uint_nonnil q). }
  destruct (Hn a) as [Ha1 Ha2], (Hn b) as [Hb1 Hb2].
  pose proof (NilZero.isi _ Ha1 Ha2) as Ha.
  pose proof (NilZero.isi _ Hb1 Hb2) as Hb.
  rewrite Hs in Ha. congruence.
Qed.

Lemma part_id_inj (a b : Z) :
  "PART-" +:+ int_repr (1000 + a) = "PART-" +:+ int_repr (1000 + b) ->
  a = b.
Proof.
  intros H. injection H as H. apply int_repr_inj in H. lia.
Qed.

Section PartIds.
Context {rng : Type} `{!Runtime rng}.

(** X12.  The conveyor's part id identifies the cycle: two results of
    the conveyor with the same part_id come from the same cycle id. *)
Theorem part_id_identifies_cycle (name name' : string) (a b : Z)
    (r r' : pydict) (m m' : Machine) (g g1 h h1 : rng) :
  perform_operation (ConveyorBelt name) a g = Ok ((r, m), g1) ->
  perform_operation (ConveyorBelt name') b h = Ok ((r', m'), h1) ->
  r !! "part_id" = r' !! "part_id" ->
  a = b.
Proof.
  intros Ha Hb.
  apply perform_operation_inv in Ha as (pa & -> & _).
  apply perform_operation_inv in Hb as (pb & -> & _).
  intros Heq. do 2 rewrite lookup_insert_ne in Heq by done.
  rewrite !lookup_singleton_eq in Heq.
  apply part_id_inj. congruence.
Qed.

End PartIds.

Lemma part_id_identifies_cycle_witness :
  exists (r r' : pydict) (m m' : Machine) (g1 h1 : nat),
    perform_operation (ConveyorBelt "Conveyor_1") 7 0%nat = Ok ((r, m), g1)
    /\ perform_operation (ConveyorBelt "Conveyor_1") 8 3%nat
       = Ok ((r', m'), h1)
    /\ r !! "part_id" <> r' !! "part_id".
Proof.
  destruct (result_Ok_inv
              (perform_operation (ConveyorBelt "Conveyor_1") 7 0%nat))
    as ([[r m] g1] & Ha); [by vm_compute|].
  destruct (result_Ok_inv
              (perform_operation (ConveyorBelt "Conveyor_1") 8 3%nat))
    as ([[r' m'] h1] & Hb); [by vm_compute|].
  exists r, r', m, m', g1, h1. split; [exact Ha|]. split; [exact Hb|].
  intros Heq.
  pose proof (part_id_identifies_cycle _ _ _ _ _ _ _ _ _ _ _ _ Ha Hb Heq).
  discriminate.
Defined.

(** ** Loading a knowledge-graph table *)

Lemma lstrip_starts_clean (s : string) : starts_clean (lstrip s).
Proof.
  induction s as [|c s IH]; cbn; [done|].
  destruct (is_space c) eqn:Hc; [done|]. by cbn.
Qed.

Lemma starts_clean_lstrip (s : string) : starts_clean s -> lstrip s = s.
Proof. destruct s as [|c s]; cbn; [done|]. by intros ->. Qed.

Lemma rstrip_starts_clean (s : string) :
  starts_clean s -> starts_clean (rstrip s).
Proof.
  destruct s as [|c s]; cbn; [done|]. intros Hc.
  destruct (rstrip s); cbn; by rewrite ?Hc.
Qed.

Lemma rstrip_ends_clean (s : string) : ends_clean (rstrip s).
Proof.
  induction s as [|c s IH]; cbn; [done|].
  destruct (rstrip s) as [|d r] eqn:Hr.
  - destruct (is_space c) eqn:Hc; by cbn.
  - done.
Qed.

Lemma ends_clean_rstrip (s : string) : ends_clean s -> rstrip s = s.
Proof.
  induction s as [|c s IH]; [done|].
  destruct s as [|d s]; [cbn; by intros ->|].
  intros Hs. cbn [ends_clean] in Hs.
  change (rstrip (String c (String d s)))
    with (match rstrip (String d s) with
          | EmptyString =>
              if is_space c then EmptyString else String c EmptyString
          | r => String c r
          end).
  by rewrite (IH Hs).
Qed.

Lemma strip_clean (s : string) :
  starts_clean (strip s) /\ ends_clean (strip s) /\ strip (strip s) = strip s.
Proof.
  unfold strip.
  pose proof (rstrip_starts_clean _ (lstrip_starts_clean s)) as Hstart.
  pose proof (rstrip_ends_clean (lstrip s)) as Hend.
  split; [done|]. split; [done|].
  by rewrite (starts_clean_lstrip _ Hstart), (ends_clean_rstrip _ Hend).
Qed.

(** One row of the reader, as [load_kg_csv] folds it. *)
Lemma load_kg_csv_snoc (rows : list pydict) (row : pydict) :
  load_kg_csv (Some (rows ++ [row])%list)
  = (mapping ← load_kg_csv (Some rows);
     source ← dict_getitem row "Source entity" ≫= py_strip;
     relationship ← dict_getitem row "relationship" ≫= py_strip;
     target_entity ← dict_getitem row "target entity" ≫= py_strip;
     Ok (<[source := VDict {[ "relationship" := VStr relationship;
                              "target_entity" := VStr target_entity ]}]>
           mapping)).
Proof. unfold load_kg_csv. by rewrite foldl_snoc. Qed.

Lemma load_kg_csv_snoc_row (rows : list pydict) (row table : pydict)
    (s r t : string) :
  load_kg_csv (Some rows) = Ok table ->
  row_columns row s r t ->
  load_kg_csv (Some (rows ++ [row])%list)
  = Ok (<[strip s := row_entry r t]> table).
Proof.
  intros Hload (Hs & Hr & Ht). rewrite load_kg_csv_snoc, Hload.
  by rewrite (dict_getitem_Some _ _ _ Hs), (dict_getitem_Some _ _ _ Hr),
    (dict_getitem_Some _ _ _ Ht).
Qed.

Lemma load_kg_csv_rows (rows : list pydict) :
  Forall (fun row => exists s r t, row_columns row s r t) rows ->
  exists table : pydict,
    load_kg_csv (Some rows) = Ok table
    /\ forall (k : string) (e : pyval),
         table !! k = Some e ->
         starts_clean k /\ ends_clean k
         /\ exists (row : pydict) (s r t : string),
              row ∈ rows /\ row_columns row s r t
              /\ k = strip s /\ e = row_entry r t.
Proof.
  induction rows as [|row rows IH] using rev_ind.
  - intros _. exists ∅. split; [done|]. intros k e Hk.
    by rewrite lookup_empty in Hk.
  - intros [Hrows (s & r & t & Hrow)%Forall_singleton]%Forall_app.
    destruct (IH Hrows) as (table & Hload & Htable).
    exists (<[strip s := row_entry r t]> table).
    split; [by apply load_kg_csv_snoc_row|].
    intros k e Hk. destruct (decide (k = strip s)) as [->|Hne].
    + rewrite lookup_insert_eq in Hk. injection Hk as <-.
      destruct (strip_clean s) as (? & ? & _).
      split; [done|]. split; [done|].
      exists row, s, r, t. rewrite elem_of_app, list_elem_of_singleton. auto.
    + rewrite lookup_insert_ne in Hk by done.
      destruct (Htable k e Hk) as (? & ? & row' & s' & r' & t' & Hin & ?).
      split; [done|]. split; [done|].
      exists row', s', r', t'. rewrite elem_of_app. auto.
Qed.

(** X13.  A file whose rows all have the three columns loads without an
    exception.  Every key of the table is the source entity of a row with
    the surrounding whitespace stripped, so it neither starts nor ends
    with whitespace, and its entry holds the stripped relationship and
    target entity of such a row; for a source entity that occurs in
    several rows the last row wins. *)
Theorem load_kg_csv_table (rows : list pydict) :
  Forall (fun row => exists s r t, row_columns row s r t) rows ->
  exists table : pydict,
    load_kg_csv (Some rows) = Ok table
    /\ (forall (k : string) (e : pyval),
          table !! k = Some e ->
          starts_clean k /\ ends_clean k
          /\ exists (row : pydict) (s r t : string),
               row ∈ rows /\ row_columns row s r t
               /\ k = strip s /\ e = row_entry r t)
    /\ (forall (row : pydict) (s r t : string),
          row_columns row s r t ->
          exists table' : pydict,
            load_kg_csv (Some (rows ++ [row])%list) = Ok table'
            /\ table' !! strip s = Some (row_entry r t)
            /\ forall k : string, k <> strip s -> table' !! k = table !! k).
Proof.
  intros Hrows. destruct (load_kg_csv_rows rows Hrows) as (table & Hload & Ht).
  exists table. split; [done|]. split; [done|].
  intros row s r t Hrow. exists (<[strip s := row_entry r t]> table).
  split; [by apply load_kg_csv_snoc_row|].
  split; [apply lookup_insert_eq|].
  intros k Hk. by rewrite lookup_insert_ne.
Qed.

Lemma load_kg_csv_table_witness :
  exists table : pydict,
    load_kg_csv
      (Some [ {[ "Source entity" := VStr "  Maintenance_KG:Tool_Change ";
                 "relationship" := VStr "requires ";
                 "target entity" := VStr " Tool_Replacement" ]} ])
    = Ok table
    /\ table !! "Maintenance_KG:Tool_Change"
       = Some (VDict {[ "relationship" := VStr "requires";
                        "target_entity" := VStr "Tool_Replacement" ]}).
Proof.
  destruct (load_kg_csv_table [] (Forall_nil_2 _)) as (table0 & _ & _ & Hrow).
  destruct (Hrow {[ "Source entity" := VStr "  Maintenance_KG:Tool_Change ";
                    "relationship" := VStr "requires ";
                    "target entity" := VStr " Tool_Replacement" ]}
              "  Maintenance_KG:Tool_Change " "requires " " Tool_Replacement")
    as (table & Hload & Hk & _).
  - repeat split; reflexivity.
  - exists table. split; [exact Hload|exact Hk].
Defined.

Lemma foldl_Err {A : Type} (f : result A -> pydict -> result A)
    (rows : list pydict) (e : exn) :
  (forall row, f (Err e) row = Err e) -> foldl f (Err e) rows = Err e.
Proof.
  intros Hf. induction rows as [|row rows IH]; [done|]. cbn. by rewrite Hf.
Qed.

Lemma load_kg_csv_bad_row (before after : list pydict) (row table : pydict)
    (e : exn) :
  load_kg_csv (Some before) = Ok table ->
  (source ← dict_getitem row "Source entity" ≫= py_strip;
   relationship ← dict_getitem row "relationship" ≫= py_strip;
   target_entity ← dict_getitem row "target entity" ≫= py_strip;
   Ok (source, relationship, target_entity)) = Err e ->
  load_kg_csv (Some (before ++ row :: after)%list) = Err e.
Proof.
  intros Hload Hrow.
  unfold load_kg_csv in *. rewrite foldl_app. cbn [foldl]. rewrite Hload.
  cbn [mbind result_bind].
  match goal with
  | |- foldl ?f ?x after = _ =>
      assert (Hx : x = Err e); [|rewrite Hx; by apply foldl_Err]
  end.
  destruct (dict_getitem row "Source entity" ≫= py_strip);
    cbn [mbind result_bind] in *; [|congruence].
  destruct (dict_getitem row "relationship" ≫= py_strip);
    cbn [mbind result_bind] in *; [|congruence].
  destruct (dict_getitem row "target entity" ≫= py_strip);
    cbn [mbind result_bind] in *; congruence.
Qed.

(** X14.  A malformed row makes the whole load raise, unlike a missing
    file, which loads as the empty table: after rows that load, a row
    without the Source entity column raises KeyError, a row whose source
    entity is not a string (a short row gives None) raises AttributeError,
    and a row without the relationship or the target entity column raises
    KeyError, whatever rows follow. *)
Theorem load_kg_csv_malformed_row (before after : list pydict)
    (row table : pydict) :
  load_kg_csv (Some before) = Ok table ->
  load_kg_csv None = Ok ∅
  /\ (row !! "Source entity" = None ->
      load_kg_csv (Some (before ++ row :: after)%list)
      = Err (KeyError "Source entity"))
  /\ (row !! "Source entity" = Some VNone ->
      load_kg_csv (Some (before ++ row :: after)%list) = Err AttributeError)
  /\ (forall s : string,
        row !! "Source entity" = Some (VStr s) ->
        row !! "relationship" = None ->
        load_kg_csv (Some (before ++ row :: after)%list)
        = Err (KeyError "relationship"))
  /\ (forall s r : string,
        row !! "Source entity" = Some (VStr s) ->
        row !! "relationship" = Some (VStr r) ->
        row !! "target entity" = None ->
        load_kg_csv (Some (before ++ row :: after)%list)
        = Err (KeyError "target entity")).
Proof.
  intros Hload. split; [done|]. split; [|split; [|split]].
  - intros Hs. apply (load_kg_csv_bad_row _ _ _ table); [done|].
    by rewrite (dict_getitem_None _ _ Hs).
  - intros Hs. apply (load_kg_csv_bad_row _ _ _ table); [done|].
    by rewrite (dict_getitem_Some _ _ _ Hs).
  - intros s Hs Hr. apply (load_kg_csv_bad_row _ _ _ table); [done|].
    by rewrite (dict_getitem_Some _ _ _ Hs), (dict_getitem_None _ _ Hr).
  - intros s r Hs Hr Ht. apply (load_kg_csv_bad_row _ _ _ table); [done|].
    by rewrite (dict_getitem_Some _ _ _ Hs), (dict_getitem_Some _ _ _ Hr),
      (dict_getitem_None _ _ Ht).
Qed.

Lemma load_kg_csv_malformed_row_witness :
  load_kg_csv
    (Some [ {[ "Source entity" := VStr "Normal_KG:Operation_Normal";
               "relationship" := VStr "is";
               "target entity" := VStr "Nominal" ]};
            {[ "Source entity" := VStr "Normal_KG:Inspection_Fail" ]} ])
  = Err (KeyError "relationship").
Proof.
  refine (proj1 (proj2 (proj2 (proj2
            (load_kg_csv_malformed_row
               [ {[ "Source entity" := VStr "Normal_KG:Operation_Normal";
                    "relationship" := VStr "is";
                    "target entity" := VStr "Nominal" ]} ]
               []
               {[ "Source entity" := VStr "Normal_KG:Inspection_Fail" ]}
               _ _))))
            "Normal_KG:Inspection_Fail" _ _); reflexivity.
Defined.

(** ** Which table a classification is looked up in *)

Lemma prefix_spec (sub s : string) :
  String.prefix sub s = true <-> exists post, s = sub +:+ post.
Proof.
  revert s. induction sub as [|c sub IH]; intros s.
  - split; [by exists s | by destruct s].
  - destruct s as [|d s]; [split; [done | by intros (post & ?)]|].
    cbn [String.prefix]. destruct (ascii_dec c d) as [->|Hne].
    + rewrite IH. split.
      * intros (post & ->). by exists post.
      * intros (post & [= ->]). by exists post.
    + split; [done|]. intros (post & [= ? ?]). congruence.
Qed.

Lemma str_contains_spec (sub s : string) :
  str_contains sub s = true <-> exists pre post, s = pre +:+ sub +:+ post.
Proof.
  induction s as [|c s IH]; cbn [str_contains].
  - rewrite orb_false_r, prefix_spec. split.
    + intros (post & ->). by exists "", post.
    + intros ([|? pre] & post & Hs); [by exists post | discriminate].
  - rewrite orb_true_iff, prefix_spec, IH. split.
    + intros [(post & ->)|(pre & post & ->)].
      * by exists "", post.
      * by exists (String c pre), post.
    + intros ([|d pre] & post & Hs).
      * left. by exists post.
      * right. injection Hs as -> ->. by exists pre, post.
Qed.

(** X15.  [send_to_KG] picks the table by the category name occurring
    anywhere in the classification, not only at its start, trying
    Maintenance_KG, then Normal_KG, then Cyberattack_KG: in the record it
    returns, the first of the three names that occurs decides the table,
    and a classification with none of them gets a null triple.  It
    returns whenever the payload parses and the entries of the tables can
    be written as JSON. *)
Theorem send_to_KG_table_choice (kg : KGTables) (payload_json : json)
    (c : string) :
  (forall record : pydict,
      send_to_KG kg payload_json c = Ok record ->
      ((exists pre post, c = pre +:+ "Maintenance_KG" +:+ post) ->
       record !! "kg_triple" = Some (dict_get (maintenance_map kg) c))
      /\ (~ (exists pre post, c = pre +:+ "Maintenance_KG" +:+ post) ->
          ((exists pre post, c = pre +:+ "Normal_KG" +:+ post) ->
           record !! "kg_triple" = Some (dict_get (normal_map kg) c))
          /\ (~ (exists pre post, c = pre +:+ "Normal_KG" +:+ post) ->
              ((exists pre post, c = pre +:+ "Cyberattack_KG" +:+ post) ->
               record !! "kg_triple"
               = Some (dict_get (cyberattack_map kg) c))
              /\ (~ (exists pre post, c = pre +:+ "Cyberattack_KG" +:+ post) ->
                  record !! "kg_triple" = Some VNone))))
  /\ (forall doc : pydict,
        json_loads payload_json = Ok doc ->
        kg_ok kg = true ->
        exists record : pydict, send_to_KG kg payload_json c = Ok record).
Proof.
  split.
  - intros record ->%send_to_KG_kg_triple. unfold looked_up.
    rewrite <- !str_contains_spec.
    destruct (str_contains "Maintenance_KG" c); [by split|].
    split; [done|]. intros _.
    destruct (str_contains "Normal_KG" c); [by split|].
    split; [done|]. intros _.
    destruct (str_contains "Cyberattack_KG" c); by split.
  - intros doc Hdoc Hkg. eexists.
    apply (send_to_KG_Ok _ _ _ doc Hdoc), kg_ok_looked_up, Hkg.
Qed.

Lemma send_to_KG_table_choice_witness :
  exists record : pydict,
    send_to_KG sample_kg (JSON ∅) "Cyberattack_KG:Not_Normal_KG" = Ok record
    /\ record !! "kg_triple"
       = Some (dict_get (normal_map sample_kg) "Cyberattack_KG:Not_Normal_KG").
Proof.
  destruct (send_to_KG_table_choice sample_kg (JSON ∅)
              "Cyberattack_KG:Not_Normal_KG") as [Hchoice Hreturns].
  destruct (Hreturns ∅) as (record & Hrecord); [reflexivity..|].
  exists record. split; [exact Hrecord|].
  refine (proj1 (proj2 (Hchoice record Hrecord) _) _).
  - rewrite <- str_contains_spec. vm_compute. discriminate.
  - by exists "Cyberattack_KG:Not_", "".
Defined.

(** ** The cadence of the tool changer *)

Section Cadence.
Context {rng : Type} `{!Runtime rng}.

Lemma tool_changer_run_stable (self : AutomaticToolChanger)
    (cycle_ids : list Z) (g : rng) :
  Forall (fun c => c mod 10 <> 0) cycle_ids ->
  tool_changer_run self cycle_ids g = Ok (self, g).
Proof.
  induction 1 as [|c rest Hc Hrest IH]; [done|].
  cbn [tool_changer_run].
  rewrite (sim_bind_Ok _ _ _ _ _ (check_and_change_tool_stable self c g Hc)).
  exact IH.
Qed.

Lemma tool_changer_run_app (self : AutomaticToolChanger)
    (ids ids' : list Z) (g : rng) :
  tool_changer_run self (ids ++ ids')%list g
  = (self' ← tool_changer_run self ids; tool_changer_run self' ids') g.
Proof.
  revert self g. induction ids as [|c ids IH]; intros self g.
  - done.
  - cbn [app tool_changer_run]. unfold mbind, sim_bind.
    destruct (check_and_change_tool self c g) as [[[t self1] g1]|e]; [|done].
    cbn. apply IH.
Qed.

(** X16.  The tool changer moves only on multiples of 10: a run of
    calls whose cycle ids are all non-multiples of 10 leaves the changer
    and the random source exactly as they were, so the tool after any run
    is the tool chosen at the last multiple of 10 in it. *)
Theorem tool_changer_cadence (self : AutomaticToolChanger)
    (before after : list Z) (g : rng) :
  Forall (fun c => c mod 10 <> 0) after ->
  tool_changer_run self after g = Ok (self, g)
  /\ tool_changer_run self (before ++ after)%list g
     = tool_changer_run self before g.
Proof.
  intros Hafter. split; [by apply tool_changer_run_stable|].
  rewrite tool_changer_run_app. unfold mbind, sim_bind.
  destruct (tool_changer_run self before g) as [[self1 g1]|e]; [|done].
  by apply tool_changer_run_stable.
Qed.

End Cadence.

Lemma tool_changer_cadence_witness :
  tool_changer_run {| tools := default_tools; current_tool := 1 |}
    ([10; 20] ++ [21; 22; 29])%list 3%nat
  = tool_changer_run {| tools := default_tools; current_tool := 1 |}
      [10; 20] 3%nat.
Proof.
  apply (tool_changer_cadence (rng := nat)
           {| tools := default_tools; current_tool := 1 |}
           [10; 20] [21; 22; 29] 3%nat).
  repeat constructor; done.
Defined.

(** ** From the CSV files to the emitted record *)

(** X17.  A row of maintenance-kg.csv reaches the record: when the last
    row of the file has a source entity that, stripped, contains
    Maintenance_KG, [send_to_KG] returns, for a classification with that
    stripped name, a record that carries the row's stripped relationship
    and target entity as its kg_triple, whatever the earlier rows, the
    other two tables and the payload (a payload that parses). *)
Theorem kg_triple_from_csv_row (rows : list pydict) (row : pydict)
    (s r t : string) :
  Forall (fun row => exists s r t, row_columns row s r t) rows ->
  row_columns row s r t ->
  (exists pre post, strip s = pre +:+ "Maintenance_KG" +:+ post) ->
  exists table : pydict,
    load_kg_csv (Some (rows ++ [row])%list) = Ok table
    /\ forall (normal cyber doc : pydict) (payload_json : json),
         json_loads payload_json = Ok doc ->
         attaches {| maintenance_map := table; normal_map := normal;
                     cyberattack_map := cyber |} payload_json (strip s)
           (row_entry r t).
Proof.
  intros Hrows Hrow Hsub%str_contains_spec.
  destruct (load_kg_csv_rows rows Hrows) as (table & Hload & _).
  exists (<[strip s := row_entry r t]> table).
  split; [by apply load_kg_csv_snoc_row|].
  intros normal cyber doc payload_json Hdoc.
  set (kg := {| maintenance_map := <[strip s := row_entry r t]> table;
                normal_map := normal; cyberattack_map := cyber |}).
  assert (Hl : looked_up kg (strip s) = row_entry r t).
  { unfold looked_up. rewrite Hsub. apply dict_get_Some, lookup_insert_eq. }
  eexists. split; [apply (send_to_KG_Ok kg _ _ doc Hdoc)|].
  - rewrite Hl. unfold row_entry.
    apply json_ok_insert; [done|]. by apply json_ok_singleton.
  - rewrite Hl. split; [|apply lookup_insert_eq].
    rewrite lookup_insert_ne by done. apply lookup_insert_eq.
Qed.

Lemma kg_triple_from_csv_row_witness :
  exists table : pydict,
    load_kg_csv
      (Some [ {[ "Source entity" := VStr "  Maintenance_KG:Tool_Change ";
                 "relationship" := VStr "requires ";
                 "target entity" := VStr " Tool_Replacement" ]} ])
    = Ok table
    /\ attaches {| maintenance_map := table; normal_map := ∅;
                   cyberattack_map := ∅ |} (JSON ∅)
         "Maintenance_KG:Tool_Change"
         (VDict {[ "relationship" := VStr "requires";
                   "target_entity" := VStr "Tool_Replacement" ]}).
Proof.
  destruct (kg_triple_from_csv_row []
              {[ "Source entity" := VStr "  Maintenance_KG:Tool_Change ";
                 "relationship" := VStr "requires ";
                 "target entity" := VStr " Tool_Replacement" ]}
              "  Maintenance_KG:Tool_Change " "requires " " Tool_Replacement")
    as (table & Hload & Hsend).
  - constructor.
  - repeat split; reflexivity.
  - by exists "", ":Tool_Change".
  - exists table. split; [exact Hload|].
    exact (Hsend ∅ ∅ ∅ (JSON ∅) eq_refl).
Defined.

(** ** Abstract components *)

Section Abstract.
Context {rng : Type} `{!Runtime rng}.

Lemma sensors_loop_abstract (ss : list Sensor) (n : string) (sr : pydict)
    (g : rng) :
  Sensor_base n ∈ ss -> sensors_loop ss sr g = Err NotImplementedError.
Proof.
  revert sr g. induction ss as [|s ss IH]; intros sr g Hin.
  - by apply elem_of_nil in Hin.
  - cbn [sensors_loop].
    destruct (read s g) as [[v g']|e] eqn:Hread.
    + rewrite (sim_bind_Ok _ _ _ _ _ Hread). apply IH.
      apply elem_of_cons in Hin as [<-|Hin]; [|done].
      pose proof (read_values (Sensor_base n) g) as Hv. cbn beta iota in Hv.
      congruence.
    + rewrite (sim_bind_Err _ _ _ _ Hread).
      pose proof (read_values s g) as Hv.
      destruct s as [m|m|m|m|m|m].
      * congruence.
      * destruct Hv as (f & g' & Hv). congruence.
      * destruct Hv as (f & g' & Hv). congruence.
      * destruct Hv as (f & g' & Hv). congruence.
      * destruct Hv as (x & y & z & g' & Hv). congruence.
      * destruct Hv as (r & g' & Hv & _). congruence.
Qed.

(** Writing JSON fails with ValueError only. *)
Lemma to_json_Err (self : SimulationMessage) (e : exn) :
  to_json self = Err e -> e = ValueError.
Proof.
  unfold to_json, json_dumps. destruct (json_ok _); [done|]. by intros [= <-].
Qed.

Lemma send_to_KG_Err (kg : KGTables) (payload_json : json) (c : string)
    (e : exn) :
  send_to_KG kg payload_json c = Err e -> e = ValueError.
Proof.
  unfold send_to_KG, json_loads, json_dumps. destruct payload_json as [d].
  destruct (json_ok (VDict d)); cbn [mbind result_bind]; [|by intros [= <-]].
  destruct (json_ok _); cbn [mbind result_bind]; [done|]. by intros [= <-].
Qed.

(** X18.  A sensor of the base class in the factory makes every cycle
    outside REAL mode raise NotImplementedError, wherever the sensor
    stands in the list and whatever the machines produced.  In REAL mode
    the sensors are not read: the same factory never raises
    NotImplementedError, and it completes its cycle when the cycle id,
    the machine data and the entries of the tables can be written as
    JSON. *)
Theorem abstract_sensor_raises (kg : KGTables) (env_MODE : option string)
    (now : float) (self : CNCFactory) (cycle_id : Z) (n : string)
    (md : pydict) (ms' : list Machine) (g g1 : rng) :
  Sensor_base n ∈ sensors self ->
  machines_loop (machines self) cycle_id ∅ g = Ok ((md, ms'), g1) ->
  (env_MODE <> Some "REAL" ->
   run_cycle kg env_MODE now self cycle_id g = Err NotImplementedError)
  /\ run_cycle kg (Some "REAL") now self cycle_id g
     <> Err NotImplementedError
  /\ (int_str_ok cycle_id = true ->
      json_ok (VDict md) = true ->
      kg_ok kg = true ->
      exists c : cycle,
        run_cycle kg (Some "REAL") now self cycle_id g
        = Ok ((c, {| machines := ms'; sensors := sensors self |}), g1)).
Proof.
  intros Hin Hm. split; [|split].
  - intros Hmode. unfold run_cycle.
    rewrite (sim_bind_Ok _ _ _ _ _ Hm). cbn beta iota.
    apply sim_bind_Err.
    destruct (read_sensor_readings_cases env_MODE self) as [[? _]|[_ ->]];
      [done|].
    by apply (sensors_loop_abstract _ n).
  - unfold run_cycle.
    rewrite (sim_bind_Ok _ _ _ _ _ Hm). cbn beta iota.
    rewrite (sim_bind_Ok _ _ _ _ _ (read_sensor_readings_real self g1)).
    rewrite (sim_bind_Ok _ _ _ _ _
               (lift_Ok _ _ g1 (substitute_bundle_classified md))).
    cbn beta. unfold mbind, sim_bind, lift.
    destruct (to_json (SimulationMessage_init now cycle_id md
                         substitute_bundle)) as [j|e] eqn:Hj.
    + destruct (send_to_KG kg j "Maintenance_KG:Possible_Overheating")
        as [record|e] eqn:Hrec; [done|].
      by rewrite (send_to_KG_Err _ _ _ _ Hrec).
    + by rewrite (to_json_Err _ _ Hj).
  - intros Hid Hmd Hkg.
    assert (Hsr : json_ok (VDict substitute_bundle) = true)
      by (vm_compute; reflexivity).
    destruct (run_cycle_Ok kg (Some "REAL") now self cycle_id md
                substitute_bundle ms' "Maintenance_KG:Possible_Overheating"
                g g1 g1 Hm (read_sensor_readings_real self g1)
                (substitute_bundle_classified _) Hid Hmd Hsr
                (kg_ok_looked_up _ _ Hkg)) as (c & Hrun & _).
    by exists c.
Qed.

Lemma machines_loop_abstract (ms : list Machine) (n : string) (cycle_id : Z)
    (md : pydict) (g : rng) :
  Machine_base n ∈ ms ->
  (forall (name : string) (atc : AutomaticToolChanger),
      CNCMill name atc ∈ ms -> tools atc <> []) ->
  (forall name : string,
      ConveyorBelt name ∈ ms -> int_str_ok (1000 + cycle_id) = true) ->
  machines_loop ms cycle_id md g = Err NotImplementedError.
Proof.
  revert md g. induction ms as [|m ms IH]; intros md g Hin Hmills Hbelts.
  - by apply elem_of_nil in Hin.
  - cbn [machines_loop].
    destruct (perform_operation m cycle_id g) as [[[r m'] g']|e] eqn:Hop.
    + rewrite (sim_bind_Ok _ _ _ _ _ Hop). cbn beta iota.
      apply sim_bind_Err, IH.
      * apply elem_of_cons in Hin as [<-|Hin]; [|done]. discriminate.
      * intros name atc Hmill. apply (Hmills name). by right.
      * intros name Hbelt. apply (Hbelts name). by right.
    + rewrite (sim_bind_Err _ _ _ _ Hop).
      destruct m as [name|name atc|name|name|name].
      * cbn in Hop. congruence.
      * destruct (perform_operation_CNCMill name atc cycle_id g)
          as (? & ? & ? & ? & Hok & _); [|congruence].
        apply (Hmills name). by left.
      * destruct (perform_operation_RoboticArm name cycle_id g)
          as (? & ? & Hok). congruence.
      * destruct (perform_operation_ConveyorBelt name cycle_id g)
          as (? & ? & Hok); [|congruence].
        apply (Hbelts name). by left.
      * destruct (perform_operation_InspectionSystem name cycle_id g)
          as (? & ? & ? & Hok). congruence.
Qed.

(** X19.  A machine of the base class in the factory makes every cycle
    raise NotImplementedError, in REAL mode as in any other: the machines
    are operated before the data source is asked.  (No machine before the
    abstract one raises first: the mills have tools and, when the factory
    has a conveyor, the part number 1000 + id can be written in
    decimal.) *)
Theorem abstract_machine_raises (kg : KGTables) (env_MODE : option string)
    (now : float) (self : CNCFactory) (cycle_id : Z) (n : string) (g : rng) :
  Machine_base n ∈ machines self ->
  (forall (name : string) (atc : AutomaticToolChanger),
      CNCMill name atc ∈ machines self -> tools atc <> []) ->
  (forall name : string,
      ConveyorBelt name ∈ machines self ->
      int_str_ok (1000 + cycle_id) = true) ->
  run_cycle kg env_MODE now self cycle_id g = Err NotImplementedError.
Proof.
  intros Hin Hmills Hbelts. unfold run_cycle.
  by apply sim_bind_Err, (machines_loop_abstract _ n).
Qed.

End Abstract.

Lemma abstract_sensor_raises_witness :
  run_cycle sample_kg None 0
    {| machines := default_machines
                     {| tools := default_tools; current_tool := 1 |};
       sensors := [SpindleTempSensor "spindle_temp"; Sensor_base "probe"] |}
    7 0%nat
  = Err NotImplementedError.
Proof.
  destruct (result_Ok_inv
              (machines_loop
                 (default_machines
                    {| tools := default_tools; current_tool := 1 |})
                 7 ∅ 0%nat)) as ([[md ms'] g1] & Hm); [by vm_compute|].
  refine (proj1 (abstract_sensor_raises sample_kg None 0%float
                   {| machines := default_machines
                                    {| tools := default_tools;
                                       current_tool := 1 |};
                      sensors := [SpindleTempSensor "spindle_temp";
                                  Sensor_base "probe"] |}
                   7 "probe" md ms' 0%nat g1 _ Hm) _).
  - cbn [sensors]. apply elem_of_cons. right. apply elem_of_cons. by left.
  - discriminate.
Defined.

Lemma abstract_machine_raises_witness :
  run_cycle sample_kg (Some "REAL") 0
    {| machines := [RoboticArm "Robotic_Arm_1"; Machine_base "press"];
       sensors := default_sensors |}
    7 0%nat
  = Err NotImplementedError.
Proof.
  apply (abstract_machine_raises sample_kg (Some "REAL") 0%float
           {| machines := [RoboticArm "Robotic_Arm_1"; Machine_base "press"];
              sensors := default_sensors |} 7 "press" 0%nat).
  - cbn [machines]. apply elem_of_cons. right. apply elem_of_cons. by left.
  - cbn [machines]. intros name atc Hmill.
    apply elem_of_cons in Hmill as [Hmill|Hmill]; [discriminate|].
    apply elem_of_cons in Hmill as [Hmill|Hmill]; [discriminate|].
    by apply elem_of_nil in Hmill.
  - intros name _. reflexivity.
Defined.

(** ** Readings of the wrong type *)

Lemma classify_state_bad_spindle_temp (sensors machine : pydict) (t : pyval) :
  sensors !! "spindle_temp" = Some t -> as_num t = None ->
  classify_state sensors machine = Err TypeError.
Proof.
  intros Ht Hn. unfold classify_state, py_gt, py_cmp.
  rewrite (dict_getitem_Some _ _ _ Ht). cbn [mbind result_bind and_then].
  by rewrite Hn.
Qed.

Lemma classify_state_at_position (sensors machine : pydict) (t v p : num)
    (pos : pyval) (e : exn) :
  scalar sensors "spindle_temp" = Some t ->
  scalar sensors "vibration" = Some v ->
  scalar sensors "power_draw" = Some p ->
  head_rules t v p = None ->
  sensors !! "position" = Some pos ->
  py_getitem pos "X" = Err e ->
  classify_state sensors machine = Err e.
Proof.
  intros Ht Hv Hp Hhead Hpos Hx. revert Hhead.
  unfold classify_state, head_rules, py_gt, py_ge, py_lt, py_le.
  rewrite !(py_cmp_scalar _ _ _ _ _ Ht), !(py_cmp_scalar _ _ _ _ _ Hv),
    !(py_cmp_scalar _ _ _ _ _ Hp), !and_then_Ok.
  cbn [mbind result_bind].
  repeat (split_cmp; try discriminate).
  all: intros _; rewrite (dict_getitem_Some _ _ _ Hpos).
  all: cbn [mbind result_bind fmap list_fmap py_max]; by rewrite Hx.
Qed.

(** X20.  A reading of the wrong type is an error, raised when the
    cascade reaches it: a spindle_temp that is not a number (a string, a
    dict, None) raises TypeError at once; when none of rules 1 to 6 holds,
    a position that is not a dict raises TypeError, and a position dict
    without X raises KeyError. *)
Theorem classify_state_ill_typed (sensors machine : pydict) :
  (forall t : pyval,
      sensors !! "spindle_temp" = Some t -> as_num t = None ->
      classify_state sensors machine = Err TypeError)
  /\ (is_Some (scalar sensors "spindle_temp") ->
      is_Some (scalar sensors "vibration") ->
      is_Some (scalar sensors "power_draw") ->
      (forall j : nat, (1 <= j <= 6)%nat ->
                       rule_holds j sensors machine = false) ->
      forall pos : pyval,
        sensors !! "position" = Some pos ->
        match pos with
        | VDict d =>
            d !! "X" = None ->
            classify_state sensors machine = Err (KeyError "X")
        | _ => classify_state sensors machine = Err TypeError
        end).
Proof.
  split; [apply classify_state_bad_spindle_temp|].
  intros [t Ht] [v Hv] [p Hp] Hlow pos Hpos.
  pose proof (no_head_rule sensors machine t v p Ht Hv Hp Hlow) as Hhead.
  destruct pos as [|b|z|f|s|d];
    try (by apply (classify_state_at_position _ _ t v p _ _ Ht Hv Hp Hhead
                     Hpos)).
  intros Hx.
  apply (classify_state_at_position _ _ t v p _ _ Ht Hv Hp Hhead Hpos).
  cbn [py_getitem]. by apply dict_getitem_None.
Qed.

Lemma classify_state_ill_typed_witness :
  classify_state (<["spindle_temp" := VStr "hot"]>
                    (sample_sensors 60 1 300 50 "PASS")) (sample_machine 1)
  = Err TypeError
  /\ classify_state (<["position" := VFloat 50]>
                       (sample_sensors 60 1 300 50 "PASS")) (sample_machine 1)
     = Err TypeError.
Proof.
  split.
  - by apply (proj1 (classify_state_ill_typed
                       (<["spindle_temp" := VStr "hot"]>
                          (sample_sensors 60 1 300 50 "PASS"))
                       (sample_machine 1)) (VStr "hot")).
  - refine (proj2 (classify_state_ill_typed
                     (<["position" := VFloat 50]>
                        (sample_sensors 60 1 300 50 "PASS"))
                     (sample_machine 1)) _ _ _ _ (VFloat 50) _);
      try (by eexists); try reflexivity.
    intros j Hj.
    do 7 (destruct j as [|j]; [try lia; vm_compute; reflexivity|]). lia.
Defined.
